(** * Telemetry dashboards: ingestion, parsing and rolling history

    A shallow embedding of the acquisition / parse / bounded-history code of
    the three dashboards of the repository:

    - [esp32-mpu6050.py]       (module [Motion]):  [MPU6050Dashboard]
    - [obstacle_visualizer.py] (module [Ranging]): [EnhancedSensorGUI]
    - [claude-packetanalyzer.py] (module [Capture]): [PacketAnalyzer]

    Python objects become records, methods become state transformers in a
    small state-and-exception monad, [print] and the Tk calls become entries
    of explicit output fields of the state. *)

From Stdlib Require Import ZArith String Ascii Lia.
From stdpp Require Import base list strings gmap.

Open Scope string_scope.
Open Scope list_scope.
Open Scope nat_scope.

(** ** Python strings *)

Module PyStr.

(** [s.startswith(p)] *)
Definition startswith (s p : string) : bool := String.prefix p s.

(** [s[n:]] for a non-negative literal [n] *)
Fixpoint slice_from (n : nat) (s : string) : string :=
  match n, s with
  | O, _ => s
  | S _, EmptyString => EmptyString
  | S n', String _ rest => slice_from n' rest
  end.

(** [s.split(sep)] for a one-character separator: the empty string splits
    into one empty field, and every separator opens a new field. *)
Fixpoint split (sep : ascii) (s : string) : list string :=
  match s with
  | EmptyString => [EmptyString]
  | String c rest =>
      if Ascii.eqb c sep then EmptyString :: split sep rest
      else match split sep rest with
           | [] => [String c EmptyString]
           | field :: fields => String c field :: fields
           end
  end.

Definition comma : ascii := ","%char.

(** [c.isspace()] for a character below 256: the ASCII whitespace
    ([\t \n \v \f \r], the separators 28 to 31 and the blank), the next-line
    control 133 and the no-break space 160. *)
Definition isspace (c : ascii) : bool :=
  let n := nat_of_ascii c in
  ((9 <=? n) && (n <=? 13)) || ((28 <=? n) && (n <=? 32))
  || (n =? 133) || (n =? 160).

(** [s.lstrip()] *)
Fixpoint lstrip (s : string) : string :=
  match s with
  | EmptyString => EmptyString
  | String c rest => if isspace c then lstrip rest else s
  end.

(** [s.rstrip()] *)
Fixpoint rstrip (s : string) : string :=
  match s with
  | EmptyString => EmptyString
  | String c rest =>
      match rstrip rest with
      | EmptyString => if isspace c then EmptyString else String c EmptyString
      | kept => String c kept
      end
  end.

(** [s.strip()]: the whitespace at both ends is removed. *)
Definition strip (s : string) : string := rstrip (lstrip s).

End PyStr.

(** ** Sample numeric conversions

    The theorems below are stated for an arbitrary conversion from text to
    numbers, so they hold for Python's [float] and [int] whatever texts these
    accept.  The concrete examples need a conversion that computes: the two
    below read optionally signed plain decimal numerals, on which they agree
    with Python ([int("12") = 12], [float("-2.5") = -2.5], and a [ValueError]
    on the empty field or on letters). *)

Module Numeral.

Definition digit (c : ascii) : option Z :=
  let n := nat_of_ascii c in
  if (48 <=? n) && (n <=? 57) then Some (Z.of_nat (n - 48)) else None.

(** The digits of [s] read after the digits already in [acc]. *)
Fixpoint digits (acc : Z) (s : string) : option Z :=
  match s with
  | EmptyString => Some acc
  | String c rest =>
      match digit c with
      | Some d => digits (10 * acc + d)%Z rest
      | None => None
      end
  end.

Definition unsigned (s : string) : option Z :=
  match s with
  | EmptyString => None
  | _ => digits 0%Z s
  end.

Definition signed (read : string → option Z) (s : string) : option Z :=
  match s with
  | String "-"%char rest => Z.opp <$> read rest
  | String "+"%char rest => read rest
  | _ => read s
  end.

(** [int(s)] on a decimal numeral. *)
Definition int_of_string (s : string) : option Z := signed unsigned s.

(** A decimal fraction [mantissa / 10 ^ scale]. *)
Record decimal : Type := Decimal { mantissa : Z; scale : nat }.

(** [s] cut at its first ['.'], if it has one. *)
Fixpoint cut_at_dot (s : string) : string * option string :=
  match s with
  | EmptyString => (EmptyString, None)
  | String c rest =>
      if Ascii.eqb c "."%char then (EmptyString, Some rest)
      else let '(i, f) := cut_at_dot rest in (String c i, f)
  end.

(** [float(s)] on a decimal numeral such as [9.8], [-2.0], [7], [.5]. *)
Definition float_of_string (s : string) : option decimal :=
  let '(sign, body) :=
    match s with
    | String "-"%char rest => ((-1)%Z, rest)
    | String "+"%char rest => (1%Z, rest)
    | _ => (1%Z, s)
    end in
  let '(i, f) := cut_at_dot body in
  let f := default EmptyString f in
  match i, f with
  | EmptyString, EmptyString => None
  | _, _ =>
      m ← digits 0%Z (i +:+ f);
      Some (Decimal (sign * m) (String.length f))
  end.

End Numeral.

(** ** Exceptions and the method monad *)

(** The exception classes that the modelled code can meet.  All of them are
    subclasses of [Exception], so [except Exception] catches each. *)
Inductive exn : Type :=
  | ValueError          (* float(x) / int(x) on a non-numeric field *)
  | IndexError          (* values[i] past the end of the list *)
  | KeyError            (* d[k] on a missing key *)
  | UnicodeDecodeError  (* bytes.decode() *)
  | SerialException     (* the serial port failed *)
  | OSError             (* a file or a socket failed *)
  | OverflowError       (* an int or a time beyond the range of a float *)
  | TclError.           (* a Tk command failed *)

Global Instance exn_eq_dec : EqDecision exn.
Proof. solve_decision. Defined.

(** The result of running a statement: it completes with a value or it
    raises.  In both cases the mutations done so far stay in the state. *)
Inductive outcome (A : Type) : Type :=
  | Val (a : A)
  | Exc (e : exn).
Arguments Val {A} a.
Arguments Exc {A} e.

Definition M (S A : Type) : Type := S → outcome A * S.

Definition ret {S A} (a : A) : M S A := λ s, (Val a, s).

Definition bind {S A B} (m : M S A) (k : A → M S B) : M S B :=
  λ s, match m s with
       | (Val a, s') => k a s'
       | (Exc e, s') => (Exc e, s')
       end.

Definition raise {S A} (e : exn) : M S A := λ s, (Exc e, s).

Definition gets {S A} (f : S → A) : M S A := λ s, (Val (f s), s).

Definition modify {S} (f : S → S) : M S unit := λ s, (Val tt, f s).

(** [try: m  except Exception as e: h e] *)
Definition try_except {S A} (m : M S A) (h : exn → M S A) : M S A :=
  λ s, match m s with
       | (Val a, s') => (Val a, s')
       | (Exc e, s') => h e s'
       end.

Global Instance M_ret {S} : MRet (M S) := λ A, ret.
Global Instance M_bind {S} : MBind (M S) := λ A B k m, bind m k.

(** [for x in l: body x] *)
Fixpoint for_each {S A} (l : list A) (body : A → M S unit) : M S unit :=
  match l with
  | [] => ret tt
  | x :: rest => body x ;; for_each rest body
  end.

(** [l[i]] for a non-negative index *)
Definition index {S A} (l : list A) (i : nat) : M S A :=
  match l !! i with
  | Some v => ret v
  | None => raise IndexError
  end.

(** A conversion such as [float(x)] or [int(x)], which raises [ValueError]
    when the text is not a number. *)
Definition convert {S A} (conv : string → option A) (x : string) : M S A :=
  match conv x with
  | Some v => ret v
  | None => raise ValueError
  end.

(** [[conv(x) for x in l]] *)
Fixpoint comprehension {S A B} (f : A → M S B) (l : list A) : M S (list B) :=
  match l with
  | [] => ret []
  | x :: rest => v ← f x; vs ← comprehension f rest; ret (v :: vs)
  end.

(** [enumerate(l)] *)
Definition enumerate {A} (l : list A) : list (nat * A) := imap pair l.

(** What one poll of the serial port hands to the loop body. *)
Inductive serial_read : Type :=
  | NoData                      (* [in_waiting] is 0 *)
  | Line (line : string)        (* [readline().decode().strip()] *)
  | ReadFails (e : exn).        (* the port or the decoding raised *)

(** The poll that finds a line waiting whose decoded text is [text]:
    [readline().decode()] gives [text], and [.strip()] removes the
    whitespace at its ends (the line terminator among it) before the loop
    body looks at it. *)
Definition readline (text : string) : serial_read := Line (PyStr.strip text).

(** An operation of the environment whose outcome [o] is given. *)
Definition call {S A} (o : outcome A) : M S A := λ s, (o, s).

(** A sample of [datetime.fromtimestamp(t).strftime('%Y-%m-%d %H:%M:%S.%f')]
    for the concrete examples, which use two timestamps only: 0, the epoch,
    as a clock on UTC formats it, and [10 ^ 20], which is beyond the range
    of the clock.  Every timestamp other than 0 is treated like the
    latter. *)
Definition epoch_time (t : Numeral.decimal) : outcome string :=
  if (Numeral.mantissa t =? 0)%Z then Val "1970-01-01 00:00:00.000000"
  else Exc OverflowError.

(** ** Bounded histories *)

Section History.
Context {A : Type}.

(** [l.append(v)] followed by [if len(l) > data_points: l.pop(0)], the
    trimming idiom of the motion dashboard. *)
Definition append_trim (data_points : nat) (l : list A) (v : A) : list A :=
  let l' := l ++ [v] in
  if data_points <? length l' then drop 1 l' else l'.

(** [collections.deque(maxlen=n)]: the bound is part of the object. *)
Record deque : Type := Deque { maxlen : nat; items : list A }.

Definition deque_new (n : nat) : deque := Deque n [].

(** [d.append(v)]: nothing is stored when [maxlen] is 0; otherwise the
    value is appended and the leftmost item leaves when the bound is
    exceeded. *)
Definition deque_append (d : deque) (v : A) : deque :=
  if maxlen d =? 0 then d
  else
    let l' := items d ++ [v] in
    Deque (maxlen d) (if maxlen d <? length l' then drop 1 l' else l').

(** [d.clear()] *)
Definition deque_clear (d : deque) : deque := Deque (maxlen d) [].

(** [list(d)], the oldest-to-newest view *)
Definition snapshot (d : deque) : list A := items d.

(** The last [n] elements of a list. *)
Definition lastn (n : nat) (l : list A) : list A := drop (length l - n) l.

End History.
Arguments deque A : clear implicits.

(** ** Running a method *)

Definition exec {S A} (m : M S A) (s : S) : S := (m s).2.
Definition result {S A} (m : M S A) (s : S) : outcome A := (m s).1.

(** [preserves P m]: whether [m] completes or raises, a state that satisfies
    [P] before [m] satisfies it afterwards. *)
Definition preserves {S A} (P : S → Prop) (m : M S A) : Prop :=
  ∀ s, P s → P (exec m s).

(** ** The motion dashboard: [MPU6050Dashboard] *)

Module Motion.

(** The keys ['x'], ['y'], ['z'] of [accel_data] and [gyro_data]. *)
Inductive axis : Type := X | Y | Z.

Section Dashboard.
(** Python's [float] and the conversion [float(x)] of a text field. *)
Variable F : Type.
Variable py_float : string → option F.

(** [{'x': [], 'y': [], 'z': []}]: the dictionaries are built from
    literal keys and only indexed by the same literals. *)
Record axes : Type := Axes { ax_x : list F; ax_y : list F; ax_z : list F }.

Definition get_axis (a : axis) (d : axes) : list F :=
  match a with X => ax_x d | Y => ax_y d | Z => ax_z d end.

Definition upd_axis (a : axis) (f : list F → list F) (d : axes) : axes :=
  match a with
  | X => Axes (f (ax_x d)) (ax_y d) (ax_z d)
  | Y => Axes (ax_x d) (f (ax_y d)) (ax_z d)
  | Z => Axes (ax_x d) (ax_y d) (f (ax_z d))
  end.

(** [{'roll': [], 'pitch': []}] *)
Record orientation : Type := Orientation { roll : list F; pitch : list F }.

(** Lines written by [print]. *)
Inductive console_msg : Type :=
  | Received (line : string)
  | ParsedValues
  | AccelValues (x y z : F)
  | GyroValues (x y z : F)
  | ErrorUpdatingStorage (e : exn)
  | ErrorInCollection (e : exn).

(** The attributes of the dashboard object that the acquisition code
    reads or writes, with the console and the Tk event queue. *)
Record dashboard : Type := Dashboard {
  data_points : nat;
  timestamps : list F;
  accel_data : axes;
  gyro_data : axes;
  orientation_data : orientation;
  temp_data : list F;
  motion_data : list F;
  recording : bool;
  running : bool;
  stdout : list console_msg;
  (* [root.after(0, self.update_display, values)] *)
  after_calls : list (list F)
}.

Definition set_timestamps (f : list F → list F) (st : dashboard) :=
  Dashboard (data_points st) (f (timestamps st)) (accel_data st)
    (gyro_data st) (orientation_data st) (temp_data st) (motion_data st)
    (recording st) (running st) (stdout st) (after_calls st).

Definition set_accel_data (f : axes → axes) (st : dashboard) :=
  Dashboard (data_points st) (timestamps st) (f (accel_data st))
    (gyro_data st) (orientation_data st) (temp_data st) (motion_data st)
    (recording st) (running st) (stdout st) (after_calls st).

Definition set_gyro_data (f : axes → axes) (st : dashboard) :=
  Dashboard (data_points st) (timestamps st) (accel_data st)
    (f (gyro_data st)) (orientation_data st) (temp_data st) (motion_data st)
    (recording st) (running st) (stdout st) (after_calls st).

Definition set_orientation_data (f : orientation → orientation)
    (st : dashboard) :=
  Dashboard (data_points st) (timestamps st) (accel_data st)
    (gyro_data st) (f (orientation_data st)) (temp_data st) (motion_data st)
    (recording st) (running st) (stdout st) (after_calls st).

Definition set_running (b : bool) (st : dashboard) :=
  Dashboard (data_points st) (timestamps st) (accel_data st)
    (gyro_data st) (orientation_data st) (temp_data st) (motion_data st)
    (recording st) b (stdout st) (after_calls st).

Definition set_stdout (f : list console_msg → list console_msg)
    (st : dashboard) :=
  Dashboard (data_points st) (timestamps st) (accel_data st)
    (gyro_data st) (orientation_data st) (temp_data st) (motion_data st)
    (recording st) (running st) (f (stdout st)) (after_calls st).

Definition set_after_calls (f : list (list F) → list (list F))
    (st : dashboard) :=
  Dashboard (data_points st) (timestamps st) (accel_data st)
    (gyro_data st) (orientation_data st) (temp_data st) (motion_data st)
    (recording st) (running st) (stdout st) (f (after_calls st)).

(** [initialize_data_storage], in a freshly built object. *)
Definition initialize_data_storage : dashboard :=
  Dashboard 100 [] (Axes [] [] []) (Axes [] [] []) (Orientation [] [])
    [] [] false false [] [].

(** [start_data_collection] raises the flag that the loop polls. *)
Definition start_data_collection (st : dashboard) : dashboard :=
  set_running true st.

(** [reset_plots], as far as the stored data goes. *)
Definition reset_plots (st : dashboard) : dashboard :=
  Dashboard (data_points st) [] (Axes [] [] []) (Axes [] [] [])
    (Orientation [] []) [] [] (recording st) (running st) (stdout st)
    (after_calls st).

(** [print(...)] *)
Definition say (m : console_msg) (st : dashboard) : dashboard :=
  set_stdout (λ out, out ++ [m]) st.

Definition print (m : console_msg) : M dashboard unit := modify (say m).

(** The two loops
    [for i, axis in enumerate(['x', 'y', 'z']):
         self.<field>[axis].append(values[i + off])
         if len(self.<field>[axis]) > self.data_points:
             self.<field>[axis].pop(0)]
    with [set_field] choosing [accel_data] (off = 0) or [gyro_data]
    (off = 3). *)
Definition store_axes
    (set_field : (axes → axes) → dashboard → dashboard)
    (off : nat) (values : list F) : M dashboard unit :=
  for_each (enumerate [X; Y; Z]) (λ '(i, a),
    v ← index values (i + off);
    modify (λ st,
      set_field (upd_axis a (λ l, append_trim (data_points st) l v)) st)).

(** [l.pop(0)] *)
Definition pop0 (l : list F) : M dashboard (list F) :=
  match l with
  | [] => raise IndexError
  | _ :: rest => ret rest
  end.

(** [update_data_storage(timestamp, values)]: the full storage routine,
    which also keeps the timestamps and the orientation angles. *)
Definition update_data_storage (timestamp : F) (values : list F)
    : M dashboard unit :=
  modify (λ st,
    set_timestamps (λ l, append_trim (data_points st) l timestamp) st);;
  store_axes set_accel_data 0 values;;
  store_axes set_gyro_data 3 values;;
  r ← index values 6;
  modify (set_orientation_data (λ o, Orientation (roll o ++ [r]) (pitch o)));;
  p ← index values 7;
  modify (set_orientation_data (λ o, Orientation (roll o) (pitch o ++ [p])));;
  n ← gets (λ st, length (roll (orientation_data st)));
  dp ← gets data_points;
  if dp <? n then
    rs ← gets (λ st, roll (orientation_data st));
    rs' ← pop0 rs;
    modify (set_orientation_data (λ o, Orientation rs' (pitch o)));;
    ps ← gets (λ st, pitch (orientation_data st));
    ps' ← pop0 ps;
    modify (set_orientation_data (λ o, Orientation (roll o) ps'))
  else ret tt.

(** The text after the ["DATA:"] prefix, cut at the commas:
    [line[5:].split(',')]. *)
Definition fields (line : string) : list string :=
  PyStr.split PyStr.comma (PyStr.slice_from 5 line).

(** The parser, which [collect_data] has inline:
    [if line.startswith("DATA:"):
         data_str = line[5:]
         values = [float(x) for x in data_str.split(',')]].
    It completes with the values of a data line, or with [None] for a
    line that is not a data line. *)
Definition parse_line (line : string) : M dashboard (option (list F)) :=
  if PyStr.startswith line "DATA:" then
    values ← comprehension (convert py_float) (fields line);
    mret (Some values)
  else mret None.

(** The statements of [collect_data] inside the outer [try], for one
    poll of the port. *)
Definition collect_data_body (r : serial_read) : M dashboard unit :=
  match r with
  | NoData => ret tt
  | ReadFails e => raise e
  | Line line =>
      print (Received line);;
      parsed ← parse_line line;
      match parsed with
      | None => ret tt
      | Some values =>
          print ParsedValues;;
          a0 ← index values 0; a1 ← index values 1; a2 ← index values 2;
          print (AccelValues a0 a1 a2);;
          g0 ← index values 3; g1 ← index values 4; g2 ← index values 5;
          print (GyroValues g0 g1 g2);;
          try_except
            (store_axes set_accel_data 0 values;;
             store_axes set_gyro_data 3 values;;
             modify (set_after_calls (λ q, q ++ [values])))
            (λ e, print (ErrorUpdatingStorage e))
      end
  end.

(** One turn of the [while] loop: the body under
    [except Exception as e: print(...)]. The two [time.sleep] calls only
    pass time. *)
Definition collect_data_iter (r : serial_read) : M dashboard unit :=
  try_except (collect_data_body r) (λ e, print (ErrorInCollection e)).

(** [collect_data]: [while self.running: ...], fed with the successive
    polls of the port. An exception that escaped a turn would end the
    loop, and with it the thread. *)
Fixpoint collect_data (reads : list serial_read) : M dashboard unit :=
  match reads with
  | [] => ret tt
  | r :: rest =>
      go ← gets running;
      if (go : bool) then collect_data_iter r;; collect_data rest
      else ret tt
  end.

End Dashboard.

Arguments Axes {F}.
Arguments Orientation {F}.
Arguments Dashboard {F}.
Arguments ax_x {F}.
Arguments ax_y {F}.
Arguments ax_z {F}.
Arguments roll {F}.
Arguments pitch {F}.
Arguments data_points {F}.
Arguments timestamps {F}.
Arguments accel_data {F}.
Arguments gyro_data {F}.
Arguments orientation_data {F}.
Arguments temp_data {F}.
Arguments motion_data {F}.
Arguments recording {F}.
Arguments running {F}.
Arguments stdout {F}.
Arguments after_calls {F}.
Arguments Received {F}.
Arguments ParsedValues {F}.
Arguments AccelValues {F}.
Arguments GyroValues {F}.
Arguments ErrorUpdatingStorage {F}.
Arguments ErrorInCollection {F}.
Arguments set_running {F}.
Arguments say {F}.
Arguments initialize_data_storage {F}.
Arguments start_data_collection {F}.
Arguments reset_plots {F}.
Arguments update_data_storage {F}.
Arguments parse_line {F}.
Arguments collect_data_body {F}.
Arguments collect_data_iter {F}.
Arguments collect_data {F}.

(** *** The effect of one turn of the loop, in closed form *)

Section Effect.
Context {F : Type} (py_float : string → option F).
Implicit Types (st : dashboard F) (line : string) (values : list F).

(** The Store: the history channels of the dashboard. *)
Definition store st :=
  (timestamps st, accel_data st, gyro_data st, orientation_data st,
   temp_data st, motion_data st).

(** The parser as a function of the line alone. *)
Definition parse_outcome line : outcome (option (list F)) :=
  if PyStr.startswith line "DATA:" then
    match mapM py_float (fields line) with
    | Some values => Val (Some values)
    | None => Exc ValueError
    end
  else Val None.

(** The state after a data line whose first six values are
    [a0 a1 a2 g0 g1 g2]. *)
Definition sample_stored line values (a0 a1 a2 g0 g1 g2 : F) st
    : dashboard F :=
  let dp := data_points st in
  Dashboard dp (timestamps st)
    (Axes (append_trim dp (ax_x (accel_data st)) a0)
          (append_trim dp (ax_y (accel_data st)) a1)
          (append_trim dp (ax_z (accel_data st)) a2))
    (Axes (append_trim dp (ax_x (gyro_data st)) g0)
          (append_trim dp (ax_y (gyro_data st)) g1)
          (append_trim dp (ax_z (gyro_data st)) g2))
    (orientation_data st) (temp_data st) (motion_data st)
    (recording st) (running st)
    ((((stdout st ++ [Received line]) ++ [ParsedValues])
        ++ [AccelValues a0 a1 a2]) ++ [GyroValues g0 g1 g2])
    (after_calls st ++ [values]).

(** The state after the turn that reads [line]. *)
Definition after_line line st : dashboard F :=
  match parse_outcome line with
  | Val None => say (Received line) st
  | Exc e => say (ErrorInCollection e) (say (Received line) st)
  | Val (Some values) =>
      match values with
      | a0 :: a1 :: a2 :: g0 :: g1 :: g2 :: _ =>
          sample_stored line values a0 a1 a2 g0 g1 g2 st
      | a0 :: a1 :: a2 :: _ =>
          say (ErrorInCollection IndexError)
            (say (AccelValues a0 a1 a2)
               (say ParsedValues (say (Received line) st)))
      | _ =>
          say (ErrorInCollection IndexError)
            (say ParsedValues (say (Received line) st))
      end
  end.

(** Every history of the dashboard is within [data_points] entries. *)
Definition axes_bounded (n : nat) (d : axes F) : Prop :=
  length (ax_x d) ≤ n ∧ length (ax_y d) ≤ n ∧ length (ax_z d) ≤ n.

Definition histories_bounded st : Prop :=
  let n := data_points st in
  length (timestamps st) ≤ n
  ∧ axes_bounded n (accel_data st)
  ∧ axes_bounded n (gyro_data st)
  ∧ length (roll (orientation_data st)) ≤ n
  ∧ length (pitch (orientation_data st)) ≤ n
  ∧ length (temp_data st) ≤ n
  ∧ length (motion_data st) ≤ n.

(** The [i]-th value of each sample, in order of arrival. *)
Definition column (i : nat) (samples : list (list F)) : list F :=
  omap (λ values, values !! i) samples.

(** The channels for which the live loop has no statement. *)
Definition side_channels st :=
  (timestamps st, orientation_data st, temp_data st, motion_data st).

(** The state after the turn that polls [r]. *)
Definition after_read (r : serial_read) st : dashboard F :=
  match r with
  | NoData => st
  | ReadFails e => say (ErrorInCollection e) st
  | Line line => after_line line st
  end.

End Effect.

(** *** Export, recording and shutdown *)

Section Recorder.
Context {F : Type} (py_float : string → option F).
(** [datetime.fromtimestamp(t).strftime('%Y-%m-%d %H:%M:%S.%f')]: the
    formatted time, or the exception that [fromtimestamp] raises on a
    timestamp that is no time ([OverflowError], [OSError], [ValueError]). *)
Context (fromtimestamp : F → outcome string).
Implicit Types (st : dashboard F) (values : list F).

Definition set_recording (b : bool) st : dashboard F :=
  Dashboard (data_points st) (timestamps st) (accel_data st)
    (gyro_data st) (orientation_data st) (temp_data st) (motion_data st)
    b (running st) (stdout st) (after_calls st).

(** A cell of a CSV row: a text, a number, or [''] . *)
Inductive cell : Type :=
  | Text (s : string)
  | Num (v : F)
  | Blank.

(** The header row that [save_data] and [start_recording] write. *)
Definition csv_header : list cell :=
  Text <$> ["Timestamp"; "AccelX"; "AccelY"; "AccelZ";
            "GyroX"; "GyroY"; "GyroZ"; "Roll"; "Pitch";
            "Temperature"; "Motion"].

(** [l[i] if i < len(l) else ''] *)
Definition cell_or_blank (l : list F) (i : nat) : cell :=
  match l !! i with
  | Some v => Num v
  | None => Blank
  end.

(** The row of index [i] that [save_data] writes; the state is the content
    of the file so far.
    [writer.writerow([datetime.fromtimestamp(self.timestamps[i]).strftime(...),
                      self.accel_data['x'][i], ...,
                      self.temp_data[i] if i < len(self.temp_data) else '',
                      ...])] *)
Definition save_row st (i : nat) : M (list (list cell)) unit :=
  t ← index (timestamps st) i;
  time ← call (fromtimestamp t);
  ax ← index (ax_x (accel_data st)) i;
  ay ← index (ax_y (accel_data st)) i;
  az ← index (ax_z (accel_data st)) i;
  gx ← index (ax_x (gyro_data st)) i;
  gy ← index (ax_y (gyro_data st)) i;
  gz ← index (ax_z (gyro_data st)) i;
  r ← index (roll (orientation_data st)) i;
  p ← index (pitch (orientation_data st)) i;
  modify (λ rows,
    rows ++ [[Text time; Num ax; Num ay; Num az; Num gx; Num gy; Num gz;
              Num r; Num p;
              cell_or_blank (temp_data st) i;
              cell_or_blank (motion_data st) i]]).

(** The timestamp converts to a time. *)
Definition is_time (t : F) : Prop := ∃ time, fromtimestamp t = Val time.

(** The rows that [save_data] writes, one [writer.writerow] after the
    other: the header, then
    [for i in range(len(self.timestamps)): writer.writerow([...])]. *)
Definition save_rows st : M (list (list cell)) unit :=
  modify (λ rows, rows ++ [csv_header]);;
  for_each (seq 0 (length (timestamps st))) (save_row st).

(** The message boxes of [save_data] and [start_recording]. *)
Inductive dialog : Type :=
  | ShowInfo
  | ShowError (e : exn).

(** [save_data]: [filename] is what the file dialog returns (empty when
    the user cancels) and [writable] tells whether the file can be opened.
    The result is the content of the file, if one was opened, and the
    message box shown; an exception in the loop leaves the rows written so
    far in the file. *)
Definition save_data (filename : string) (writable : bool) st
    : option (list (list cell)) * option dialog :=
  match filename with
  | EmptyString => (None, None)
  | _ =>
      if writable then
        match save_rows st [] with
        | (Val _, rows) => (Some rows, Some ShowInfo)
        | (Exc e, rows) => (Some rows, Some (ShowError e))
        end
      else (None, Some (ShowError OSError))
  end.

(** The dashboard with the recording file of [start_recording]: the rows of
    the file that is open, the files that were closed, and the message boxes
    shown. *)
Record application : Type := App {
  dash : dashboard F;
  data_file : option (list (list cell));
  closed_files : list (list (list cell));
  dialogs : list dialog
}.

Definition set_dash (f : dashboard F → dashboard F) (a : application) : application :=
  App (f (dash a)) (data_file a) (closed_files a) (dialogs a).

(** [__init__], before the data collection starts. *)
Definition init_app : application := App initialize_data_storage None [] [].

(** [start_recording]; [opens] tells whether the file can be opened. *)
Definition start_recording (opens : bool) : M application unit :=
  busy ← gets (λ a, recording (dash a));
  if negb busy then
    try_except
      (if opens then
         modify (λ a, App (dash a) (Some []) (closed_files a) (dialogs a));;
         modify (λ a, App (dash a) (Some [csv_header]) (closed_files a)
                        (dialogs a));;
         modify (set_dash (set_recording true))
       else raise OSError)
      (λ e, modify (λ a, App (dash a) (data_file a) (closed_files a)
                           (dialogs a ++ [ShowError e])))
  else ret tt.

(** [stop_recording] *)
Definition stop_recording : M application unit :=
  busy ← gets (λ a, recording (dash a));
  if (busy : bool) then
    modify (set_dash (set_recording false));;
    modify (λ a, App (dash a) None
                   (closed_files a ++ from_option (λ rows, [rows]) [] (data_file a))
                   (dialogs a))
  else ret tt.

(** [save_data_point(values)]; [now] is the formatted [datetime.now()]. *)
Definition save_data_point (now : string) values : M application unit :=
  busy ← gets (λ a, recording (dash a));
  if (busy : bool) then
    modify (λ a, App (dash a)
                   ((λ rows, rows ++ [Text now :: (Num <$> values)])
                      <$> data_file a)
                   (closed_files a) (dialogs a))
  else ret tt.

(** [cleanup_and_exit], up to the destruction of the window. *)
Definition cleanup_and_exit : M application unit :=
  busy ← gets (λ a, recording (dash a));
  (if (busy : bool) then stop_recording else ret tt);;
  modify (set_dash (set_running false)).

(** A method of the dashboard object, run on the application. *)
Definition on_dash {A} (m : M (dashboard F) A) : M application A :=
  λ a, let '(o, d) := m (dash a) in (o, set_dash (λ _, d) a).

(** What happens to the application: a turn of the acquisition loop, or a
    menu entry. *)
Inductive event : Type :=
  | Poll (r : serial_read)
  | ResetPlots
  | StartRecording (opens : bool)
  | StopRecording
  | Exit.

Definition handle (ev : event) : M application unit :=
  match ev with
  | Poll r =>
      go ← gets (λ a, running (dash a));
      if (go : bool) then on_dash (collect_data_iter py_float r) else ret tt
  | ResetPlots => modify (set_dash reset_plots)
  | StartRecording opens => start_recording opens
  | StopRecording => stop_recording
  | Exit => cleanup_and_exit
  end.

Definition run (evs : list event) (a : application) : application :=
  foldl (λ s ev, exec (handle ev) s) a evs.

(** The state in which [__init__] leaves the application once the serial
    port is open: the collection thread is started. *)
Definition started_app : application := set_dash start_data_collection init_app.

(** The channels that [update_data_storage] keeps have one entry per
    timestamp. *)
Definition aligned st : Prop :=
  let n := length (timestamps st) in
  length (ax_x (accel_data st)) = n
  ∧ length (ax_y (accel_data st)) = n
  ∧ length (ax_z (accel_data st)) = n
  ∧ length (ax_x (gyro_data st)) = n
  ∧ length (ax_y (gyro_data st)) = n
  ∧ length (ax_z (gyro_data st)) = n
  ∧ length (roll (orientation_data st)) = n
  ∧ length (pitch (orientation_data st)) = n.

(** The state after [update_data_storage(timestamp, values)] for a sample
    of at least eight values. *)
Definition sample_kept (timestamp : F) (a0 a1 a2 g0 g1 g2 r p : F) st
    : dashboard F :=
  let dp := data_points st in
  let rolls := roll (orientation_data st) ++ [r] in
  let pitches := pitch (orientation_data st) ++ [p] in
  Dashboard dp (append_trim dp (timestamps st) timestamp)
    (Axes (append_trim dp (ax_x (accel_data st)) a0)
          (append_trim dp (ax_y (accel_data st)) a1)
          (append_trim dp (ax_z (accel_data st)) a2))
    (Axes (append_trim dp (ax_x (gyro_data st)) g0)
          (append_trim dp (ax_y (gyro_data st)) g1)
          (append_trim dp (ax_z (gyro_data st)) g2))
    (if dp <? length rolls
     then Orientation (drop 1 rolls) (drop 1 pitches)
     else Orientation rolls pitches)
    (temp_data st) (motion_data st)
    (recording st) (running st) (stdout st) (after_calls st).

End Recorder.

Arguments cell F : clear implicits.
Arguments application F : clear implicits.

(** *** The readouts and the plots *)

(** The units of the readouts: ['g'], ['°/s'], ['°'], ['°C']. *)
Inductive unit_name : Type := UnitG | UnitDegPerSec | UnitDeg | UnitDegC.

Section Display.
Context {F : Type}.

(** The text of a readout: ["0.00 <unit>"] as built, or a formatted value
    with its unit. *)
Inductive label_text : Type :=
  | Zero (u : unit_name)
  | Reading (v : F) (u : unit_name).

(** [create_sensor_section(parent, title, axes, unit)], as far as
    [self.reading_labels] goes:
    [for axis in axes: self.reading_labels[f"{title}{axis}"] = value_label]. *)
Definition create_sensor_section (title : string) (axes : list string)
    (u : unit_name) (labels : gmap string label_text)
    : gmap string label_text :=
  foldl (λ m axis, <[title +:+ axis := Zero u]> m) labels axes.

(** The readouts that [create_control_panel] builds. *)
Definition create_control_panel : gmap string label_text :=
  create_sensor_section "Temperature" [""] UnitDegC
    (create_sensor_section "Orientation" ["Roll"; "Pitch"] UnitDeg
       (create_sensor_section "Gyroscope" ["X"; "Y"; "Z"] UnitDegPerSec
          (create_sensor_section "Accelerometer" ["X"; "Y"; "Z"] UnitG ∅))).

(** Lines written by [update_display]. *)
Inductive display_msg : Type :=
  | UpdatingDisplay (values : list F)
  | Setting (name : string) (text : label_text)
  | ErrorUpdatingDisplay (e : exn).

(** The front of the window: the dashboard object, its readouts, what each
    redraw of the plots has shown (the accelerometer, gyroscope and
    orientation histories), and the console. *)
Record front : Type := Front {
  object : dashboard F;
  reading_labels : gmap string label_text;
  plotted : list (axes F * axes F * orientation F);
  console : list display_msg
}.

Definition tell (m : display_msg) : M front unit :=
  modify (λ w, Front (object w) (reading_labels w) (plotted w)
                 (console w ++ [m])).

(** [update_plots]: the three plots are redrawn from the histories.  Its
    own [try] keeps every exception of the drawing inside. *)
Definition update_plots : M front unit :=
  modify (λ w, Front (object w) (reading_labels w)
                 (plotted w ++ [(accel_data (object w), gyro_data (object w),
                                 orientation_data (object w))])
                 (console w)).

(** The body of the two loops of [update_display]:
    [value = values[i + off]
     label = self.reading_labels[f'<title>{axis}']
     new_text = f"{value:.2f} <unit>"
     print(f"Setting <short>{axis} to {new_text}")
     label.config(text=new_text)] *)
Definition show_axis (title short : string) (u : unit_name) (off : nat)
    (values : list F) (i : nat) (axis : string) : M front unit :=
  value ← index values (i + off);
  labels ← gets reading_labels;
  match labels !! (title +:+ axis) with
  | None => raise KeyError
  | Some _ =>
      let new_text := Reading value u in
      tell (Setting (short +:+ axis) new_text);;
      modify (λ w, Front (object w)
                     (<[title +:+ axis := new_text]> (reading_labels w))
                     (plotted w) (console w))
  end.

(** [for i, axis in enumerate(['X', 'Y', 'Z']): ...] *)
Definition show_axes (title short : string) (u : unit_name) (off : nat)
    (values : list F) : M front unit :=
  for_each (enumerate ["X"; "Y"; "Z"]) (λ '(i, axis),
    show_axis title short u off values i axis).

(** [update_display(values)] *)
Definition update_display (values : list F) : M front unit :=
  try_except
    (tell (UpdatingDisplay values);;
     show_axes "Accelerometer" "Accel" UnitG 0 values;;
     show_axes "Gyroscope" "Gyro" UnitDegPerSec 3 values;;
     update_plots)
    (λ e, tell (ErrorUpdatingDisplay e)).

(** The six readouts that [update_display] writes exist. *)
Definition six_readouts (labels : gmap string label_text) : Prop :=
  Forall (λ name, is_Some (labels !! name))
    ["AccelerometerX"; "AccelerometerY"; "AccelerometerZ";
     "GyroscopeX"; "GyroscopeY"; "GyroscopeZ"].

(** The three readouts for which [update_display] has no statement show
    their initial text. *)
Definition idle_readouts (labels : gmap string label_text) : Prop :=
  labels !! "OrientationRoll" = Some (Zero UnitDeg)
  ∧ labels !! "OrientationPitch" = Some (Zero UnitDeg)
  ∧ labels !! "Temperature" = Some (Zero UnitDegC).

(** [update_display] on each sample of a list, in turn. *)
Definition show_samples (samples : list (list F)) (w : front) : front :=
  foldl (λ s values, exec (update_display values) s) w samples.

End Display.

Arguments label_text F : clear implicits.
Arguments display_msg F : clear implicits.
Arguments front F : clear implicits.

End Motion.

(** ** The ranging dashboard: [EnhancedSensorGUI] *)

Module Ranging.

(** Lines written by [show_error]. *)
Inductive console_msg : Type :=
  | UpdateError (e : exn)
  | SaveError (e : exn).

(** What one pass of [update_radar], [update_readings] and
    [update_history_graph] displays: the current readings and
    [list(history)] of each channel. *)
Record frame : Type := Frame {
  shown_readings : list Z;
  shown_histories : list (list Z)
}.

Record gui : Type := Gui {
  MAX_DISTANCE : Z;
  sensor_readings : list Z;
  history_length : nat;
  sensor_histories : list (deque Z);
  stdout : list console_msg;
  frames : list frame;
  (* the rows written by [save_data] *)
  saved : list (list Z)
}.

Definition set_sensor_readings (rs : list Z) (st : gui) : gui :=
  Gui (MAX_DISTANCE st) rs (history_length st) (sensor_histories st)
    (stdout st) (frames st) (saved st).

Definition set_sensor_histories (f : list (deque Z) → list (deque Z))
    (st : gui) : gui :=
  Gui (MAX_DISTANCE st) (sensor_readings st) (history_length st)
    (f (sensor_histories st)) (stdout st) (frames st) (saved st).

Definition set_stdout (f : list console_msg → list console_msg)
    (st : gui) : gui :=
  Gui (MAX_DISTANCE st) (sensor_readings st) (history_length st)
    (sensor_histories st) (f (stdout st)) (frames st) (saved st).

Definition set_frames (f : list frame → list frame) (st : gui) : gui :=
  Gui (MAX_DISTANCE st) (sensor_readings st) (history_length st)
    (sensor_histories st) (stdout st) (f (frames st)) (saved st).

Definition set_saved (f : list (list Z) → list (list Z)) (st : gui) : gui :=
  Gui (MAX_DISTANCE st) (sensor_readings st) (history_length st)
    (sensor_histories st) (stdout st) (frames st) (f (saved st)).

(** The data initialised by [__init__]. *)
Definition init : gui :=
  let history_length := 100 in
  Gui 400 [0; 0; 0; 0]%Z history_length
    (replicate 4 (deque_new history_length)) [] [] [].

(** [show_error(message)] *)
Definition show_error (m : console_msg) : M gui unit :=
  modify (set_stdout (λ out, out ++ [m])).

(** An [int] that enters float arithmetic is converted to a float, which
    raises [OverflowError] when it is beyond the range of a float: the
    largest float is [2 ^ 1024 - 2 ^ 971], and an [int] converts when it
    rounds to a float, that is when its absolute value is below
    [2 ^ 1024 - 2 ^ 970]. *)
Definition float_limit : Z := (2 ^ 1024 - 2 ^ 970)%Z.

Definition fits_float (n : Z) : bool := (Z.abs n <? float_limit)%Z.

Definition to_float (n : Z) : M gui unit :=
  if fits_float n then ret tt else raise OverflowError.

(** [update_radar], as far as the data can make it raise:
    [for reading, angle, color in zip(self.sensor_readings, angles, colors):
         scaled_reading = min(reading, self.MAX_DISTANCE) * 0.5
         ...]
    with four angles and four colours. *)
Definition update_radar : M gui unit :=
  readings ← gets sensor_readings;
  max_distance ← gets MAX_DISTANCE;
  for_each (take 4 readings) (λ reading,
    to_float (Z.min reading max_distance)).

(** [update_history_graph], as far as the data can make it raise:
    [for history, label, color in zip(self.sensor_histories, ...):
         if len(history) > 0:
             self.ax.plot(list(history), label=label, color=color)]
    with four labels and four colours; the plot converts the values of the
    history to floats. *)
Definition update_history_graph : M gui unit :=
  histories ← gets sensor_histories;
  for_each (take 4 histories) (λ history,
    if 0 <? length (snapshot history)
    then for_each (snapshot history) to_float
    else ret tt).

(** [update_radar(); update_readings(); update_history_graph()]: when the
    three complete, the window shows the current readings and the
    histories.  ([update_readings] only formats the readings.) *)
Definition render : M gui unit :=
  update_radar;;
  update_history_graph;;
  modify (λ st,
    set_frames
      (λ fs, fs ++ [Frame (sensor_readings st)
                      (snapshot <$> sensor_histories st)])
      st).

Section Update.
(** The conversion [int(x)] of a text field. *)
Variable py_int : string → option Z.

(** [line[5:].split(',')] *)
Definition data_parts (line : string) : list string :=
  PyStr.split PyStr.comma (PyStr.slice_from 5 line).

(** The parser, which [update_gui] has inline:
    [if line.startswith("DATA:"):
         data_parts = line[5:].split(',')
         if len(data_parts) == 4:
             ... [int(x) for x in data_parts]]. *)
Definition parse_line (line : string) : M gui (option (list Z)) :=
  if PyStr.startswith line "DATA:" then
    if length (data_parts line) =? 4 then
      readings ← comprehension (convert py_int) (data_parts line);
      mret (Some readings)
    else mret None
  else mret None.

(** [for i, reading in enumerate(self.sensor_readings):
         self.sensor_histories[i].append(reading)] *)
Definition update_histories : M gui unit :=
  readings ← gets sensor_readings;
  for_each (enumerate readings) (λ '(i, reading),
    hs ← gets sensor_histories;
    h ← index hs i;
    modify (set_sensor_histories (λ hs, <[i := deque_append h reading]> hs))).

(** The first statement of the [try] of [update_gui]:
    [if self.serial.in_waiting: line = ...; if line.startswith("DATA:"): ...] *)
Definition receive (r : serial_read) : M gui unit :=
  match r with
  | NoData => ret tt
  | ReadFails e => raise e
  | Line line =>
      parsed ← parse_line line;
      match parsed with
      | None => ret tt
      | Some readings =>
          modify (set_sensor_readings readings);;
          update_histories
      end
  end.

(** The statements of [update_gui] inside the [try]. *)
Definition update_gui_body (r : serial_read) : M gui unit :=
  receive r;;
  render.

(** [update_gui]: one pass of the update loop. The closing
    [root.after(50, self.update_gui)] asks for the next pass, which [run]
    below supplies. *)
Definition update_gui (r : serial_read) : M gui unit :=
  try_except (update_gui_body r) (λ e, show_error (UpdateError e)).

End Update.

(** [reset_history] *)
Definition reset_history : M gui unit :=
  modify (set_sensor_histories (λ hs, deque_clear <$> hs)).

(** [save_data]: [write_ok] tells whether writing the file succeeded. *)
Definition save_data (write_ok : bool) : M gui unit :=
  try_except
    (if write_ok then
       rs ← gets sensor_readings;
       modify (set_saved (λ rows, rows ++ [rs]))
     else raise OSError)
    (λ e, show_error (SaveError e)).

(** What happens to the window: a pass of the update loop or a button. *)
Inductive event : Type :=
  | Update (r : serial_read)
  | ResetHistory
  | SaveData (write_ok : bool).

Definition handle (py_int : string → option Z) (ev : event) : M gui unit :=
  match ev with
  | Update r => update_gui py_int r
  | ResetHistory => reset_history
  | SaveData ok => save_data ok
  end.

Definition run (py_int : string → option Z) (evs : list event) (st : gui)
    : gui :=
  foldl (λ s ev, exec (handle py_int ev) s) st evs.

(** *** The parser and the Store, in closed form *)

(** The Store: the current readings and the history channels. *)
Definition store (st : gui) := (sensor_readings st, sensor_histories st).

(** Every history channel is a deque of bound 100 within its bound. *)
Definition histories_bounded (st : gui) : Prop :=
  Forall (λ d, maxlen d = 100 ∧ length (items d) ≤ 100) (sensor_histories st).

(** The parser as a function of the line alone. *)
Definition parse_outcome (py_int : string → option Z) (line : string)
    : outcome (option (list Z)) :=
  if PyStr.startswith line "DATA:" then
    if length (data_parts line) =? 4 then
      match mapM py_int (data_parts line) with
      | Some readings => Val (Some readings)
      | None => Exc ValueError
      end
    else Val None
  else Val None.

(** The [i]-th reading of each sample, in order of arrival. *)
Definition column (i : nat) (samples : list (list Z)) : list Z :=
  omap (λ readings, readings !! i) samples.

(** The data of the window can be drawn: the readings, cut at
    [MAX_DISTANCE], and the values of the histories are within the range of
    a float. *)
Definition drawable (st : gui) : bool :=
  forallb (λ reading, fits_float (Z.min reading (MAX_DISTANCE st)))
    (take 4 (sensor_readings st))
  && forallb (λ history, forallb fits_float (snapshot history))
       (take 4 (sensor_histories st)).

(** The state after the redraw of a pass: a frame when the data can be
    drawn, the error on the console when it cannot. *)
Definition redrawn (st : gui) : gui :=
  if drawable st then
    set_frames
      (λ fs, fs ++ [Frame (sensor_readings st)
                      (snapshot <$> sensor_histories st)])
      st
  else set_stdout (λ out, out ++ [UpdateError OverflowError]) st.

(** The window has its four history channels, each a deque of bound 100
    within its bound, and its four current readings. *)
Definition well_formed (st : gui) : Prop :=
  length (sensor_histories st) = 4
  ∧ histories_bounded st
  ∧ length (sensor_readings st) = 4.

End Ranging.

(** ** The packet analyzer: [PacketAnalyzer] *)

Module Capture.

(** The layers of a captured packet that the analyzer looks at.
    [IP in packet] is [is_Some (ip p)], and [packet[IP]] is the layer. *)
Record ip_layer : Type := IP { src : string; dst : string }.

Record tcp_flags : Type := Flags {
  flag_F : bool; flag_S : bool; flag_R : bool; flag_P : bool;
  flag_A : bool; flag_U : bool
}.

Record tcp_layer : Type :=
  TCP { tcp_sport : nat; tcp_dport : nat; flags : tcp_flags }.

Record udp_layer : Type := UDP { udp_sport : nat; udp_dport : nat }.

Record packet : Type := Packet {
  ip : option ip_layer;
  tcp : option tcp_layer;
  udp : option udp_layer;
  (* [len(packet)] *)
  len : nat
}.

(** [LAYER in packet] *)
Definition has {A} (layer : option A) : bool :=
  match layer with Some _ => true | None => false end.

(** The parts joined by [" | "] in [get_packet_info]. *)
Inductive info_part : Type :=
  | PortInfo (sport dport : nat)
  | FlagsInfo (f : tcp_flags).

(** [get_packet_info(packet)] *)
Definition get_packet_info (p : packet) : list info_part :=
  match tcp p with
  | Some t => [PortInfo (tcp_sport t) (tcp_dport t); FlagsInfo (flags t)]
  | None =>
      match udp p with
      | Some u => [PortInfo (udp_sport u) (udp_dport u)]
      | None => []
      end
  end.

(** A row of the packet list: [(timestamp, src, dst, proto, length, info)]. *)
Record row : Type := Row {
  row_time : string; row_src : string; row_dst : string;
  row_proto : string; row_length : nat; row_info : list info_part
}.

Record analyzer : Type := Analyzer {
  packets : list packet;
  packet_times : deque string;
  packet_sizes : deque nat;
  protocol_counts : gmap string nat;
  capturing : bool;
  (* the threads started on [capture_packets] *)
  capture_threads : nat;
  (* the rows of [packet_tree] *)
  packet_tree : list row;
  (* the pieces of text in [analysis_text] *)
  analysis_text : list string
}.

Definition set_packets (f : list packet → list packet) (st : analyzer) :=
  Analyzer (f (packets st)) (packet_times st) (packet_sizes st)
    (protocol_counts st) (capturing st) (capture_threads st)
    (packet_tree st) (analysis_text st).

Definition set_packet_sizes (f : deque nat → deque nat) (st : analyzer) :=
  Analyzer (packets st) (packet_times st) (f (packet_sizes st))
    (protocol_counts st) (capturing st) (capture_threads st)
    (packet_tree st) (analysis_text st).

Definition set_protocol_counts (f : gmap string nat → gmap string nat)
    (st : analyzer) :=
  Analyzer (packets st) (packet_times st) (packet_sizes st)
    (f (protocol_counts st)) (capturing st) (capture_threads st)
    (packet_tree st) (analysis_text st).

Definition set_capturing (b : bool) (st : analyzer) :=
  Analyzer (packets st) (packet_times st) (packet_sizes st)
    (protocol_counts st) b (capture_threads st)
    (packet_tree st) (analysis_text st).

Definition set_capture_threads (f : nat → nat) (st : analyzer) :=
  Analyzer (packets st) (packet_times st) (packet_sizes st)
    (protocol_counts st) (capturing st) (f (capture_threads st))
    (packet_tree st) (analysis_text st).

Definition set_packet_tree (f : list row → list row) (st : analyzer) :=
  Analyzer (packets st) (packet_times st) (packet_sizes st)
    (protocol_counts st) (capturing st) (capture_threads st)
    (f (packet_tree st)) (analysis_text st).

Definition set_analysis_text (f : list string → list string)
    (st : analyzer) :=
  Analyzer (packets st) (packet_times st) (packet_sizes st)
    (protocol_counts st) (capturing st) (capture_threads st)
    (packet_tree st) (f (analysis_text st)).

(** [{'TCP': 0, 'UDP': 0, 'Other': 0}] *)
Definition zero_counts : gmap string nat :=
  {[ "TCP" := 0; "UDP" := 0; "Other" := 0 ]}.

(** The data initialised by [__init__]. *)
Definition init : analyzer :=
  Analyzer [] (deque_new 100) (deque_new 100) zero_counts false 0 [] [].

(** [packet_callback(packet)], called by the sniffer for each packet;
    [now] is the formatted [datetime.now()]. *)
Definition packet_callback (now : string) (p : packet) : M analyzer unit :=
  match ip p with
  | Some layer =>
      let timestamp := now in
      let src := src layer in
      let dst := dst layer in
      let proto :=
        if has (tcp p) then "TCP"
        else if has (udp p) then "UDP" else "Other" in
      let length := len p in
      let info := get_packet_info p in
      let packet_info := Row timestamp src dst proto length info in
      modify (set_packets (λ ps, ps ++ [p]));;
      modify (set_packet_sizes (λ d, deque_append d length));;
      counts ← gets protocol_counts;
      match counts !! proto with
      | Some n => modify (set_protocol_counts <[proto := n + 1]>)
      | None => raise KeyError
      end;;
      modify (set_packet_tree (λ rows, rows ++ [packet_info]))
  | None => ret tt
  end.

(** [start_capture] *)
Definition start_capture : M analyzer unit :=
  busy ← gets capturing;
  if negb busy then
    modify (set_capturing true);;
    modify (set_capture_threads S);;
    modify (set_analysis_text (λ t, t ++ ["Packet capture started..."]))
  else ret tt.

(** [capture_packets], the body of the capture thread: the sniffer calls
    [packet_callback] on each packet that arrives. *)
Definition capture_packets (arrivals : list (string * packet))
    : M analyzer unit :=
  try_except
    (for_each arrivals (λ '(now, p), packet_callback now p))
    (λ e,
      modify (set_analysis_text (λ _, ["Error: capture failed"]));;
      modify (set_capturing false)).

(** [stop_capture] *)
Definition stop_capture : M analyzer unit :=
  modify (set_capturing false);;
  modify (set_analysis_text (λ t, t ++ ["Packet capture stopped."])).

(** [clear_display] *)
Definition clear_display : M analyzer unit :=
  modify (set_packet_tree (λ _, []));;
  modify (set_analysis_text (λ _, []));;
  modify (set_packets (λ _, []));;
  modify (set_packet_sizes deque_clear);;
  modify (set_protocol_counts (λ _, zero_counts)).

(** The values of the exported record: [None], a string, a number, or
    the dictionary of flag bits under ["tcp_flags"]. *)
Inductive json : Type :=
  | JNull
  | JStr (s : string)
  | JNum (n : nat)
  | JFlags (members : list (string * bool)).

(** [d.update(more)]: the keys of [more] are set in [d]. *)
Definition dict_update (d : gmap string json) (more : list (string * json))
    : gmap string json :=
  foldl (λ acc kv, <[kv.1 := kv.2]> acc) d more.

(** [packet_to_dict(packet)] *)
Definition packet_to_dict (now : string) (p : packet) : gmap string json :=
  let packet_dict : gmap string json :=
    dict_update ∅
      [("time", JStr now);
       ("source_ip", match ip p with Some l => JStr (src l) | None => JNull end);
       ("dest_ip", match ip p with Some l => JStr (dst l) | None => JNull end);
       ("protocol",
        JStr (if has (tcp p) then "TCP"
              else if has (udp p) then "UDP" else "Other"));
       ("length", JNum (len p))] in
  match tcp p with
  | Some t =>
      dict_update packet_dict
        [("source_port", JNum (tcp_sport t));
         ("dest_port", JNum (tcp_dport t));
         ("tcp_flags",
          JFlags [("SYN", flag_S (flags t));
                  ("ACK", flag_A (flags t));
                  ("FIN", flag_F (flags t));
                  ("RST", flag_R (flags t))])]
  | None =>
      match udp p with
      | Some u =>
          dict_update packet_dict
            [("source_port", JNum (udp_sport u));
             ("dest_port", JNum (udp_dport u))]
      | None => packet_dict
      end
  end.

(** *** The window's events, and the closed form of a recorded packet *)

(** The protocol tag, as [packet_callback] and [packet_to_dict] compute it. *)
Definition proto_tag (p : packet) : string :=
  if has (tcp p) then "TCP" else if has (udp p) then "UDP" else "Other".

(** The three counters of [protocol_counts] exist. *)
Definition counts_ok (m : gmap string nat) : Prop :=
  is_Some (m !! "TCP") ∧ is_Some (m !! "UDP") ∧ is_Some (m !! "Other").

(** The state after [packet_callback] has recorded a packet with IP layer
    [layer], when the counter of its protocol stood at [n]. *)
Definition recorded (now : string) (p : packet) (layer : ip_layer) (n : nat)
    (st : analyzer) : analyzer :=
  Analyzer (packets st ++ [p]) (packet_times st)
    (deque_append (packet_sizes st) (len p))
    (<[proto_tag p := n + 1]> (protocol_counts st))
    (capturing st) (capture_threads st)
    (packet_tree st ++
       [Row now (src layer) (dst layer) (proto_tag p) (len p)
          (get_packet_info p)])
    (analysis_text st).

(** What happens to the analyzer: a button, or a packet handed over by the
    sniffer of the capture thread. *)
Inductive event : Type :=
  | StartCapture
  | StopCapture
  | ClearDisplay
  | Arrival (now : string) (p : packet).

Definition handle (ev : event) : M analyzer unit :=
  match ev with
  | StartCapture => start_capture
  | StopCapture => stop_capture
  | ClearDisplay => clear_display
  | Arrival now p => capture_packets [(now, p)]
  end.

Definition run (evs : list event) (st : analyzer) : analyzer :=
  foldl (λ s ev, exec (handle ev) s) st evs.

(** The rolling windows are within their bound of 100 entries, and the
    three counters exist. *)
Definition windows_bounded (st : analyzer) : Prop :=
  counts_ok (protocol_counts st)
  ∧ maxlen (packet_sizes st) = 100
  ∧ length (items (packet_sizes st)) ≤ 100
  ∧ packet_times st = deque_new 100.

(** The packets of a capture that have an IP layer. *)
Definition ip_packets (arrivals : list (string * packet)) : list packet :=
  filter (λ p, has (ip p) = true) (arrivals.*2).

(** *** Analysis on demand, and the charts *)

(** [show_error(message)]: the panel is emptied and shows the message (as
    every piece of text of the panel, without its final newline). *)
Definition show_error (message : string) : M analyzer unit :=
  modify (set_analysis_text (λ _, ["Error: " +:+ message])).

(** [analyze_selected]: [selection] is the tuple that
    [self.packet_tree.selection()] returns, each selected row given by its
    position in the list; [service] is the call to the analysis service on
    the exported record, which answers with a text or raises; [str] is the
    text [str(e)] of an exception.  [self.packet_tree.index(selected_item)]
    is given the whole tuple: it is the position of the row when one row is
    selected, and the Tk command fails when the tuple names several rows.
    Neither that call nor [self.packets[index]] is under the [try]. *)
Definition analyze_selected (now : string)
    (service : gmap string json → outcome string) (str : exn → string)
    (selection : list nat) : M analyzer unit :=
  match selection with
  | [] => show_error "Please select a packet to analyze"
  | [i] =>
      ps ← gets packets;
      p ← index ps i;
      let packet_dict := packet_to_dict now p in
      try_except
        (match service packet_dict with
         | Val analysis => modify (set_analysis_text (λ _, [analysis]))
         | Exc e => raise e
         end)
        (λ e, show_error ("Analysis error: " +:+ str e))
  | _ :: _ :: _ => raise TclError
  end.

(** The number of packets of a list that carry the tag [tag]. *)
Definition count_tag (tag : string) (ps : list packet) : nat :=
  length (filter (λ p, proto_tag p = tag) ps).

(** The counters, the window of sizes and the packet list tell the same
    story: each counter is the number of stored packets of its protocol, the
    window holds the sizes of the last 100 stored packets, and every stored
    packet has an IP layer. *)
Definition consistent (st : analyzer) : Prop :=
  (∀ tag, tag ∈ ["TCP"; "UDP"; "Other"] →
          protocol_counts st !! tag = Some (count_tag tag (packets st)))
  ∧ maxlen (packet_sizes st) = 100
  ∧ snapshot (packet_sizes st) = lastn 100 (len <$> packets st)
  ∧ Forall (λ p, has (ip p) = true) (packets st).

(** The analyzer with its two charts: what each redraw of the charts has
    displayed (the sizes of the window and the counters), and whether a call
    of [update_visualization] is pending in the event loop. *)
Record window : Type := Window {
  model : analyzer;
  drawn : list (list nat * gmap string nat);
  timer : bool
}.

Definition set_model (f : analyzer → analyzer) (w : window) : window :=
  Window (f (model w)) (drawn w) (timer w).

(** [update_visualization]: redraw, and
    [if self.capturing: self.root.after(1000, self.update_visualization)]. *)
Definition update_visualization : M window unit :=
  modify (λ w, Window (model w)
                 (drawn w ++ [(snapshot (packet_sizes (model w)),
                               protocol_counts (model w))])
                 (timer w));;
  busy ← gets (λ w, capturing (model w));
  if (busy : bool) then modify (λ w, Window (model w) (drawn w) true)
  else ret tt.

(** [__init__]: the data, then [setup_gui], whose [setup_visualization]
    ends with the one direct call of [update_visualization]. *)
Definition init_window : window :=
  exec update_visualization (Window init [] false).

(** A method of the analyzer, run on the window. *)
Definition on_model {A} (m : M analyzer A) : M window A :=
  λ w, let '(o, st) := m (model w) in (o, set_model (λ _, st) w).

(** What happens to the window: an event of the analyzer, or the event
    loop running the pending call of [update_visualization]. *)
Inductive window_event : Type :=
  | OnAnalyzer (ev : event)
  | TimerFires.

Definition handle_window (ev : window_event) : M window unit :=
  match ev with
  | OnAnalyzer ev => on_model (handle ev)
  | TimerFires =>
      pending ← gets timer;
      if (pending : bool) then
        modify (λ w, Window (model w) (drawn w) false);;
        update_visualization
      else ret tt
  end.

Definition run_window (evs : list window_event) (w : window) : window :=
  foldl (λ s ev, exec (handle_window ev) s) w evs.

End Capture.

(** * Facts *)

(** *** Facts on histories *)

Section HistoryFacts.
Context {A : Type}.
Implicit Types (l buf vs : list A) (v : A) (d : deque A).

Lemma lastn_length n l : length (lastn n l) = Nat.min n (length l).
Proof. unfold lastn. rewrite length_drop. lia. Qed.

Lemma lastn_all n l : length l ≤ n → lastn n l = l.
Proof.
  intros Hle. unfold lastn.
  replace (length l - n) with 0 by lia. reflexivity.
Qed.

Lemma lastn_app_ge n l vs : n ≤ length vs → lastn n (l ++ vs) = lastn n vs.
Proof.
  intros Hge. unfold lastn. rewrite length_app.
  rewrite drop_app_ge by lia. f_equal. lia.
Qed.

Lemma append_trim_lastn n l v :
  append_trim n (lastn n l) v = lastn n (l ++ [v]).
Proof.
  unfold append_trim. cbn zeta.
  rewrite length_app, lastn_length. cbn [length].
  unfold lastn. rewrite length_app. cbn [length].
  destruct (Nat.ltb_spec n (Nat.min n (length l) + 1)) as [Hlt | Hge].
  - assert (n ≤ length l) as Hn by lia.
    destruct (decide (n = 0)) as [-> | Hpos].
    + rewrite (drop_ge l) by lia.
      rewrite (drop_ge (l ++ [v])) by (rewrite length_app; cbn; lia).
      reflexivity.
    + rewrite (drop_app_le l [v] (length l + 1 - n)) by lia.
      rewrite drop_app_le by (rewrite length_drop; lia).
      rewrite drop_drop. do 2 f_equal. lia.
  - assert (length l < n) as Hn by lia.
    replace (length l - n) with 0 by lia.
    replace (length l + 1 - n) with 0 by lia.
    reflexivity.
Qed.

Lemma append_trim_length n l v :
  length l ≤ n → length (append_trim n l v) ≤ n.
Proof.
  intros Hle. unfold append_trim. cbn zeta.
  destruct (Nat.ltb_spec n (length (l ++ [v]))) as [Hlt | Hge].
  - rewrite length_drop, length_app. cbn. lia.
  - exact Hge.
Qed.

Lemma foldl_append_trim n buf vs :
  length buf ≤ n →
  foldl (append_trim n) buf vs = lastn n (buf ++ vs).
Proof.
  intros Hle. induction vs as [| v vs IH] using rev_ind.
  - rewrite app_nil_r. cbn. symmetry. by apply lastn_all.
  - rewrite foldl_snoc, IH, app_assoc. apply append_trim_lastn.
Qed.

Lemma deque_append_maxlen d v : maxlen (deque_append d v) = maxlen d.
Proof. unfold deque_append. by destruct (maxlen d =? 0). Qed.

Lemma deque_append_items d v :
  items (deque_append d v) = append_trim (maxlen d) (items d) v
  ∨ (maxlen d = 0 ∧ items (deque_append d v) = items d).
Proof.
  unfold deque_append.
  destruct (Nat.eqb_spec (maxlen d) 0) as [Hz | Hnz]; [by right | by left].
Qed.

Lemma deque_append_length d v :
  length (items d) ≤ maxlen d →
  length (items (deque_append d v)) ≤ maxlen d.
Proof.
  intros Hle. destruct (deque_append_items d v) as [-> | [_ ->]]; [| done].
  by apply append_trim_length.
Qed.

Lemma foldl_deque_append_maxlen d vs :
  maxlen (foldl deque_append d vs) = maxlen d.
Proof.
  induction vs as [| v vs IH] using rev_ind; [done |].
  by rewrite foldl_snoc, deque_append_maxlen.
Qed.

Lemma foldl_deque_append d vs :
  length (items d) ≤ maxlen d →
  items (foldl deque_append d vs) = lastn (maxlen d) (items d ++ vs).
Proof.
  intros Hle. induction vs as [| v vs IH] using rev_ind.
  - rewrite app_nil_r. cbn. symmetry. by apply lastn_all.
  - rewrite foldl_snoc.
    destruct (deque_append_items (foldl deque_append d vs) v)
      as [-> | [Hz ->]].
    + rewrite foldl_deque_append_maxlen, IH, app_assoc.
      apply append_trim_lastn.
    + rewrite foldl_deque_append_maxlen in Hz.
      rewrite IH, Hz. unfold lastn.
      rewrite !drop_ge; [done | lia | lia].
Qed.

(** C1. A history channel of capacity [C] that has received [N > C] values
    holds exactly [C] values, namely the last [C] pushed, oldest first.
    This holds for both implementations of the bounded history: the
    append-and-trim lists of the motion dashboard and the [deque(maxlen=C)]
    of the ranging dashboard and of the packet analyzer. *)
Theorem C1_history_holds_last_pushes (C : nat) (buf vs : list A) :
  length buf ≤ C →
  C < length vs →
  let hist := foldl (append_trim C) buf vs in
  let dq := foldl deque_append (Deque C buf) vs in
  (length hist = C ∧ hist = lastn C vs)
  ∧ (length (snapshot dq) = C ∧ snapshot dq = lastn C vs).
Proof.
  intros Hbuf HN hist dq.
  assert (hist = lastn C vs) as Hhist.
  { unfold hist. rewrite foldl_append_trim by done.
    apply lastn_app_ge. lia. }
  assert (snapshot dq = lastn C vs) as Hdq.
  { unfold dq, snapshot. rewrite foldl_deque_append by done.
    cbn [maxlen items]. apply lastn_app_ge. lia. }
  rewrite Hhist, Hdq, lastn_length. repeat split; lia.
Qed.

End HistoryFacts.

(** ** Running a method: facts *)

(** A list comprehension over a conversion either yields all the converted
    values or raises [ValueError]; it never touches the state. *)
Lemma comprehension_convert {S A} (conv : string → option A)
    (l : list string) (s : S) :
  comprehension (convert conv) l s =
    match mapM conv l with
    | Some vs => (Val vs, s)
    | None => (Exc ValueError, s)
    end.
Proof.
  induction l as [| x l IH]; [done |].
  cbn [comprehension mapM]. unfold mbind at 1, M_bind, bind.
  unfold convert at 1.
  destruct (conv x) as [v |]; [| done].
  unfold ret at 1. unfold mbind at 1, M_bind, bind. rewrite IH.
  by destruct (mapM conv l).
Qed.

(** *** Properties kept by a method *)

Section Preserves.
Context {S : Type} (P : S → Prop).

Lemma preserves_ret {A} (a : A) : preserves P (ret a).
Proof. by intros s. Qed.

Lemma preserves_raise {A} (e : exn) : preserves P (@raise S A e).
Proof. by intros s. Qed.

Lemma preserves_gets {A} (f : S → A) : preserves P (gets f).
Proof. by intros s. Qed.

Lemma preserves_modify (f : S → S) :
  (∀ s, P s → P (f s)) → preserves P (modify f).
Proof. intros Hf s. apply Hf. Qed.

Lemma preserves_bind {A B} (m : M S A) (k : A → M S B) :
  preserves P m → (∀ a, preserves P (k a)) → preserves P (m ≫= k).
Proof.
  intros Hm Hk s Hs. specialize (Hm s Hs).
  unfold exec, mbind, M_bind, bind in *.
  destruct (m s) as [[a | e] s']; [by apply Hk | done].
Qed.

Lemma preserves_try_except {A} (m : M S A) (h : exn → M S A) :
  preserves P m → (∀ e, preserves P (h e)) → preserves P (try_except m h).
Proof.
  intros Hm Hh s Hs. specialize (Hm s Hs).
  unfold exec, try_except in *.
  destruct (m s) as [[a | e] s']; [done | by apply Hh].
Qed.

Lemma preserves_for_each {A} (l : list A) (body : A → M S unit) :
  (∀ x, preserves P (body x)) → preserves P (for_each l body).
Proof.
  intros Hbody. induction l as [| x l IH]; [apply preserves_ret |].
  cbn [for_each]. apply preserves_bind; [apply Hbody | done].
Qed.

Lemma preserves_index {A} (l : list A) (i : nat) : preserves P (index l i).
Proof. unfold index. destruct (l !! i); by intros s. Qed.

End Preserves.

(** ** The motion dashboard: what one turn of the loop does *)

Module MotionFacts.
Import Motion.

Section Facts.
Context {F : Type} (py_float : string → option F).
Implicit Types (st : dashboard F) (line : string) (values : list F).

Lemma motion_parse_line_run line st :
  parse_line py_float line st = (parse_outcome py_float line, st).
Proof.
  unfold parse_line, parse_outcome.
  destruct (PyStr.startswith line "DATA:"); [| done].
  unfold mbind, M_bind, bind. rewrite comprehension_convert.
  by destruct (mapM py_float (fields line)).
Qed.

Lemma collect_data_iter_line line st :
  collect_data_iter py_float (Line line) st = (Val tt, after_line py_float line st).
Proof.
  unfold collect_data_iter, try_except, collect_data_body, after_line.
  unfold mbind at 1 2, M_bind, bind. unfold print at 1, modify at 1.
  rewrite motion_parse_line_run.
  destruct (parse_outcome py_float line) as [[values |] | e]; [| done | done].
  destruct values as [| a0 [| a1 [| a2 [| g0 [| g1 [| g2 rest]]]]]];
    reflexivity.
Qed.

(** A turn of the loop always completes: whatever is read, no exception
    leaves [collect_data_iter]. *)
Lemma collect_data_iter_run (r : serial_read) st :
  collect_data_iter py_float r st = (Val tt, after_read py_float r st).
Proof.
  destruct r as [| line | e]; [done | | done].
  apply collect_data_iter_line.
Qed.

Lemma after_read_running r st : running (after_read py_float r st) = running st.
Proof.
  destruct r as [| line | e]; [done | | done].
  cbn [after_read]. unfold after_line.
  destruct (parse_outcome py_float line) as [[values |] | e]; [| done | done].
  by destruct values as [| a0 [| a1 [| a2 [| g0 [| g1 [| g2 rest]]]]]].
Qed.

Lemma after_read_data_points r st :
  data_points (after_read py_float r st) = data_points st.
Proof.
  destruct r as [| line | e]; [done | | done].
  cbn [after_read]. unfold after_line.
  destruct (parse_outcome py_float line) as [[values |] | e]; [| done | done].
  by destruct values as [| a0 [| a1 [| a2 [| g0 [| g1 [| g2 rest]]]]]].
Qed.

(** The loop, while the flag is up, is the fold of its turns. *)
Lemma collect_data_run (reads : list serial_read) st :
  running st = true →
  collect_data py_float reads st = (Val tt, foldl (λ s r, after_read py_float r s) st reads).
Proof.
  revert st. induction reads as [| r reads IH]; intros st Hrun; [done |].
  cbn [collect_data foldl]. unfold mbind at 1, M_bind, bind, gets.
  rewrite Hrun. unfold mbind at 1, M_bind, bind.
  rewrite collect_data_iter_run. apply IH.
  by rewrite after_read_running.
Qed.

Lemma collect_data_stopped (reads : list serial_read) st :
  running st = false → collect_data py_float reads st = (Val tt, st).
Proof.
  intros Hstop. destruct reads as [| r reads]; [done |].
  cbn [collect_data]. unfold mbind at 1, M_bind, bind, gets. by rewrite Hstop.
Qed.

Lemma after_read_side_channels r st :
  side_channels (after_read py_float r st) = side_channels st.
Proof.
  destruct r as [| line | e]; [done | | done].
  cbn [after_read]. unfold after_line.
  destruct (parse_outcome py_float line) as [[values |] | e]; [| done | done].
  by destruct values as [| a0 [| a1 [| a2 [| g0 [| g1 [| g2 rest]]]]]].
Qed.

Lemma collect_data_side_channels (reads : list serial_read) st :
  side_channels (exec (collect_data py_float reads) st) = side_channels st.
Proof.
  unfold exec. destruct (running st) eqn:Hrun.
  - rewrite collect_data_run by done. cbn [snd].
    revert st Hrun. induction reads as [| r reads IH]; intros st Hrun; [done |].
    cbn [foldl]. rewrite IH by (by rewrite after_read_running).
    apply after_read_side_channels.
  - by rewrite collect_data_stopped.
Qed.

(** A data line with a field that is not a number, or with fewer than six
    fields, fails: the exception is reported on the console and the turn
    stores nothing. *)
Lemma after_line_failure line st :
  PyStr.startswith line "DATA:" = true →
  mapM py_float (fields line) = None ∨ length (fields line) < 6 →
  let st' := after_line py_float line st in
  let e := match mapM py_float (fields line) with
           | None => ValueError
           | Some _ => IndexError
           end in
  store st' = store st
  ∧ after_calls st' = after_calls st
  ∧ running st' = running st
  ∧ last (stdout st') = Some (ErrorInCollection e).
Proof.
  intros Hprefix Hfail st' e. unfold st', e, after_line, parse_outcome.
  rewrite Hprefix.
  destruct (mapM py_float (fields line)) as [values |] eqn:Hmap.
  - destruct Hfail as [Hnone | Hshort]; [done |].
    apply length_mapM in Hmap. rewrite Hmap in Hshort.
    destruct values as [| a0 [| a1 [| a2 [| g0 [| g1 [| g2 rest]]]]]];
      try (cbn in Hshort; lia);
      (split_and!; [done | done | done |]);
      cbn [stdout say set_stdout]; apply last_snoc.
  - split_and!; [done | done | done |].
    cbn [stdout say set_stdout]. apply last_snoc.
Qed.



(** Fed with data lines that each carry at least six values, the loop
    pushes the first six columns of the samples into the six accelerometer
    and gyroscope channels. *)
Lemma collect_data_pushes_columns (lines : list string)
    (samples : list (list F)) st :
  running st = true →
  Forall2 (λ line values,
             parse_outcome py_float line = Val (Some values)
             ∧ 6 ≤ length values) lines samples →
  let dp := data_points st in
  let st' := exec (collect_data py_float (Line <$> lines)) st in
  accel_data st' =
    Axes (foldl (append_trim dp) (ax_x (accel_data st)) (column 0 samples))
         (foldl (append_trim dp) (ax_y (accel_data st)) (column 1 samples))
         (foldl (append_trim dp) (ax_z (accel_data st)) (column 2 samples))
  ∧ gyro_data st' =
      Axes (foldl (append_trim dp) (ax_x (gyro_data st)) (column 3 samples))
           (foldl (append_trim dp) (ax_y (gyro_data st)) (column 4 samples))
           (foldl (append_trim dp) (ax_z (gyro_data st)) (column 5 samples)).
Proof.
  intros Hrun Hlines dp st'. unfold st', exec, dp.
  rewrite collect_data_run by done. cbn [snd]. clear st' dp.
  revert st Hrun.
  induction Hlines as [| line values lines samples [Hparse Hlen] _ IH];
    intros st Hrun.
  - cbn. by destruct (accel_data st), (gyro_data st).
  - rewrite fmap_cons. cbn [foldl after_read].
    destruct (IH (after_line py_float line st)) as [Haccel Hgyro].
    { rewrite <- Hrun. apply (after_read_running (Line line)). }
    rewrite Haccel, Hgyro. unfold after_line. rewrite Hparse.
    destruct values as [| a0 [| a1 [| a2 [| g0 [| g1 [| g2 rest]]]]]];
      try (cbn in Hlen; lia).
    done.
Qed.

End Facts.

End MotionFacts.

(** ** The ranging dashboard: what one pass of the update loop does *)

Module RangingFacts.
Import Ranging.

Section Facts.
Context (py_int : string → option Z).
Implicit Types (st : gui) (line : string).

Lemma ranging_parse_line_run line st :
  parse_line py_int line st = (parse_outcome py_int line, st).
Proof.
  unfold parse_line, parse_outcome.
  destruct (PyStr.startswith line "DATA:"); [| done].
  destruct (length (data_parts line) =? 4); [| done].
  unfold mbind, M_bind, bind. rewrite comprehension_convert.
  by destruct (mapM py_int (data_parts line)).
Qed.

Lemma ranging_parse_outcome_length line readings :
  parse_outcome py_int line = Val (Some readings) → length readings = 4.
Proof.
  unfold parse_outcome.
  destruct (PyStr.startswith line "DATA:"); [| done].
  destruct (Nat.eqb_spec (length (data_parts line)) 4) as [Hlen |]; [| done].
  destruct (mapM py_int (data_parts line)) as [rs |] eqn:Hmap; [| done].
  intros [= <-]. apply length_mapM in Hmap. congruence.
Qed.

(** *** What the redraw can draw *)

Lemma fits_float_spec (v : Z) :
  fits_float v = true ↔ (Z.abs v < 2 ^ 1024 - 2 ^ 970)%Z.
Proof. unfold fits_float, float_limit. apply Z.ltb_lt. Qed.

Lemma forallb_fits (values : list Z) :
  forallb fits_float values = true
  ↔ Forall (λ v, (Z.abs v < 2 ^ 1024 - 2 ^ 970)%Z) values.
Proof.
  induction values as [| v values IH]; cbn [forallb].
  - split; [constructor | done].
  - by rewrite andb_true_iff, Forall_cons, IH, fits_float_spec.
Qed.

Lemma forallb_histories (histories : list (deque Z)) :
  forallb (λ history, forallb fits_float (snapshot history)) histories = true
  ↔ Forall (λ history,
              Forall (λ v, (Z.abs v < 2 ^ 1024 - 2 ^ 970)%Z)
                (snapshot history)) histories.
Proof.
  induction histories as [| h histories IH]; cbn [forallb].
  - split; [constructor | done].
  - by rewrite andb_true_iff, Forall_cons, IH, forallb_fits.
Qed.

(** A reading within the range of a float stays within it when it is cut at
    a maximum distance of 400. *)
Lemma fits_min (r : Z) :
  (Z.abs r < 2 ^ 1024 - 2 ^ 970)%Z → fits_float (Z.min r 400) = true.
Proof.
  intros Hr. apply fits_float_spec.
  assert (400 < 2 ^ 1024 - 2 ^ 970)%Z as Hmax by (by vm_compute).
  revert Hr Hmax. generalize (2 ^ 1024 - 2 ^ 970)%Z. lia.
Qed.

(** Data within the range of a float can be drawn. *)
Lemma drawable_fits st :
  MAX_DISTANCE st = 400%Z →
  Forall (λ v, (Z.abs v < 2 ^ 1024 - 2 ^ 970)%Z) (sensor_readings st) →
  Forall (λ history,
            Forall (λ v, (Z.abs v < 2 ^ 1024 - 2 ^ 970)%Z) (snapshot history))
    (sensor_histories st) →
  drawable st = true.
Proof.
  intros Hmax Hreadings Hhistories. unfold drawable. rewrite Hmax.
  apply andb_true_iff. split.
  - apply (Forall_take _ 4) in Hreadings.
    induction Hreadings as [| r rs Hr _ IH]; [done |].
    cbn [forallb]. by rewrite fits_min, IH.
  - by apply forallb_histories, Forall_take.
Qed.

(** The conversions of a redraw complete when every value is within the
    range of a float, and raise [OverflowError] otherwise. *)
Lemma to_float_loop (values : list Z) st :
  for_each values to_float st =
    if forallb fits_float values then (Val tt, st)
    else (Exc OverflowError, st).
Proof.
  induction values as [| v values IH]; [done |].
  cbn [for_each forallb]. unfold mbind, M_bind, bind, to_float.
  destruct (fits_float v); [| done]. cbn [andb]. apply IH.
Qed.

Lemma update_radar_run st :
  update_radar st =
    if forallb (λ reading, fits_float (Z.min reading (MAX_DISTANCE st)))
         (take 4 (sensor_readings st))
    then (Val tt, st) else (Exc OverflowError, st).
Proof.
  unfold update_radar, mbind, M_bind, bind, gets.
  induction (take 4 (sensor_readings st)) as [| r rs IH]; [done |].
  cbn [for_each forallb]. unfold mbind, M_bind, bind, to_float.
  destruct (fits_float (Z.min r (MAX_DISTANCE st))); [| done].
  cbn [andb]. apply IH.
Qed.

Lemma update_history_graph_run st :
  update_history_graph st =
    if forallb (λ history, forallb fits_float (snapshot history))
         (take 4 (sensor_histories st))
    then (Val tt, st) else (Exc OverflowError, st).
Proof.
  unfold update_history_graph, mbind, M_bind, bind, gets.
  induction (take 4 (sensor_histories st)) as [| h hs IH]; [done |].
  cbn [for_each forallb]. unfold mbind, M_bind, bind.
  assert ((if 0 <? length (snapshot h)
           then for_each (snapshot h) to_float else ret tt) st
          = if forallb fits_float (snapshot h) then (Val tt, st)
            else (Exc OverflowError, st)) as ->.
  { destruct (snapshot h) as [| v vs] eqn:Hh; [done |].
    cbn [length Nat.ltb Nat.leb]. apply to_float_loop. }
  destruct (forallb fits_float (snapshot h)); [| done].
  cbn [andb]. apply IH.
Qed.

(** The redraw either completes and shows a frame, or raises
    [OverflowError] and shows nothing. *)
Lemma render_run st :
  render st =
    if drawable st then
      (Val tt,
       set_frames
         (λ fs, fs ++ [Frame (sensor_readings st)
                         (snapshot <$> sensor_histories st)])
         st)
    else (Exc OverflowError, st).
Proof.
  unfold render, drawable, mbind, M_bind, bind.
  rewrite update_radar_run.
  destruct (forallb _ (take 4 (sensor_readings st))); [| done].
  rewrite update_history_graph_run.
  by destruct (forallb _ (take 4 (sensor_histories st))).
Qed.

(** The redraw under the [try] of a pass. *)
Lemma redraw_run st :
  try_except render (λ e, show_error (UpdateError e)) st = (Val tt, redrawn st).
Proof.
  unfold try_except, redrawn. rewrite render_run.
  by destruct (drawable st).
Qed.

(** The redraw writes neither the readings nor the histories. *)
Lemma redrawn_store st : store (redrawn st) = store st.
Proof. unfold redrawn. by destruct (drawable st). Qed.

(** A pass is the reception of the line, then the redraw, both under the
    [try]. *)
Lemma update_gui_run (r : serial_read) st :
  update_gui py_int r st =
    match receive py_int r st with
    | (Val _, st1) => (Val tt, redrawn st1)
    | (Exc e, st1) =>
        (Val tt, set_stdout (λ out, out ++ [UpdateError e]) st1)
    end.
Proof.
  unfold update_gui, update_gui_body, try_except at 1.
  unfold mbind at 1, M_bind, bind.
  destruct (receive py_int r st) as [[[] | e] st1]; [| done].
  exact (redraw_run st1).
Qed.

Lemma receive_line line st :
  receive py_int (Line line) st =
    match parse_outcome py_int line with
    | Val None => (Val tt, st)
    | Val (Some readings) =>
        update_histories (set_sensor_readings readings st)
    | Exc e => (Exc e, st)
    end.
Proof.
  unfold receive, mbind at 1, M_bind, bind. rewrite ranging_parse_line_run.
  by destruct (parse_outcome py_int line) as [[readings |] | e].
Qed.

(** A pass that stores nothing only redraws the data. *)
Lemma update_gui_skip line st :
  parse_outcome py_int line = Val None →
  update_gui py_int (Line line) st = (Val tt, redrawn st).
Proof. intros Hskip. by rewrite update_gui_run, receive_line, Hskip. Qed.

Lemma update_gui_no_data st :
  update_gui py_int NoData st = (Val tt, redrawn st).
Proof. by rewrite update_gui_run. Qed.

(** A field that is not a number: the error is shown and nothing is stored
    or displayed in this pass. *)
Lemma update_gui_value_error line st :
  parse_outcome py_int line = Exc ValueError →
  update_gui py_int (Line line) st =
    (Val tt, set_stdout (λ out, out ++ [UpdateError ValueError]) st).
Proof. intros Herr. by rewrite update_gui_run, receive_line, Herr. Qed.

(** The redraw keeps what does not depend on the frames and the console. *)
Lemma preserves_render (P : gui → Prop) :
  (∀ st f, P st → P (set_frames f st)) → preserves P render.
Proof.
  intros Hframes st Hst. unfold exec. rewrite render_run.
  destruct (drawable st); [by apply Hframes | done].
Qed.

(** Appending to the histories leaves the current readings alone. *)
Lemma update_histories_readings (rs : list Z) :
  preserves (λ st, sensor_readings st = rs) update_histories.
Proof.
  unfold update_histories.
  apply preserves_bind; [apply preserves_gets | intros readings].
  apply preserves_for_each. intros [i reading].
  apply preserves_bind; [apply preserves_gets | intros hs].
  apply preserves_bind; [apply preserves_index | intros h].
  by apply preserves_modify.
Qed.

(** The vector of current readings keeps its four entries through a pass. *)
Lemma receive_readings_length (r : serial_read) :
  preserves (λ st, length (sensor_readings st) = 4) (receive py_int r).
Proof.
  intros st Hst. unfold exec.
  destruct r as [| line | e]; [done | | done].
  rewrite receive_line.
  destruct (parse_outcome py_int line) as [[readings |] | e] eqn:Hparse;
    [| done | done].
  apply ranging_parse_outcome_length in Hparse.
  pose proof (update_histories_readings readings
                (set_sensor_readings readings st) eq_refl) as Hkeep.
  unfold exec in Hkeep. congruence.
Qed.

Lemma update_gui_readings_length (r : serial_read) :
  preserves (λ st, length (sensor_readings st) = 4) (update_gui py_int r).
Proof.
  unfold update_gui, update_gui_body. apply preserves_try_except.
  - apply preserves_bind; [apply receive_readings_length | intros _].
    by apply preserves_render.
  - intros e. by apply preserves_modify.
Qed.

Lemma handle_readings_length (ev : event) :
  preserves (λ st, length (sensor_readings st) = 4) (handle py_int ev).
Proof.
  destruct ev as [r | | ok]; cbn [handle].
  - apply update_gui_readings_length.
  - by apply preserves_modify.
  - destruct ok; by intros st.
Qed.

(** The current readings after a pass are those after the reception. *)
Lemma update_gui_readings (r : serial_read) st :
  sensor_readings (exec (update_gui py_int r) st)
  = sensor_readings (exec (receive py_int r) st).
Proof.
  unfold exec. rewrite update_gui_run.
  destruct (receive py_int r st) as [[[] | e] st1]; [| done].
  cbn [snd]. unfold redrawn. by destruct (drawable st1).
Qed.

(** A pass assigns the current readings only from a data line of four
    integer fields. *)
Lemma update_gui_assigns st (r : serial_read) :
  let st' := exec (update_gui py_int r) st in
  sensor_readings st' = sensor_readings st
  ∨ ∃ line readings,
      r = Line line
      ∧ PyStr.startswith line "DATA:" = true
      ∧ length (data_parts line) = 4
      ∧ mapM py_int (data_parts line) = Some readings
      ∧ sensor_readings st' = readings.
Proof.
  intros st'. unfold st'. rewrite update_gui_readings. unfold exec.
  destruct r as [| line | e]; [by left | | by left].
  rewrite receive_line.
  destruct (parse_outcome py_int line) as [[readings |] | e] eqn:Hparse;
    [| by left | by left].
  right. exists line, readings.
  assert (PyStr.startswith line "DATA:" = true
          ∧ length (data_parts line) = 4
          ∧ mapM py_int (data_parts line) = Some readings)
    as (Hprefix & Hlen & Hmap).
  { unfold parse_outcome in Hparse.
    destruct (PyStr.startswith line "DATA:"); [| done].
    destruct (Nat.eqb_spec (length (data_parts line)) 4); [| done].
    destruct (mapM py_int (data_parts line)); [| done].
    by injection Hparse as ->. }
  split_and!; try done.
  exact (update_histories_readings readings
           (set_sensor_readings readings st) eq_refl).
Qed.

(** Every pass and every button keeps the history channels bounded. *)
Lemma update_histories_bounded : preserves histories_bounded update_histories.
Proof.
  unfold update_histories.
  apply preserves_bind; [apply preserves_gets | intros readings].
  apply preserves_for_each. intros [i reading] st Hst.
  unfold exec, mbind, M_bind, bind, gets, index.
  destruct (sensor_histories st !! i) as [h |] eqn:Hh; [| done].
  cbn [snd modify set_sensor_histories]. unfold histories_bounded.
  cbn [sensor_histories]. apply Forall_insert; [done |].
  destruct (Forall_lookup_1 _ _ _ _ Hst Hh) as [Hmax Hlen].
  split; [by rewrite deque_append_maxlen |].
  rewrite <- Hmax. apply deque_append_length. by rewrite Hmax.
Qed.

Lemma handle_bounded_histories (ev : event) :
  preserves histories_bounded (handle py_int ev).
Proof.
  destruct ev as [r | | ok]; cbn [handle].
  - unfold update_gui. apply preserves_try_except.
    + unfold update_gui_body.
      apply preserves_bind; [| intros _; by apply preserves_render].
      destruct r as [| line | e];
        [apply preserves_ret | | apply preserves_raise].
      apply preserves_bind.
      * intros st Hst. unfold exec. by rewrite ranging_parse_line_run.
      * intros [readings |]; [| apply preserves_ret].
        apply preserves_bind; [by apply preserves_modify | intros _].
        apply update_histories_bounded.
    + intros e. by apply preserves_modify.
  - apply preserves_modify. intros st Hst. unfold histories_bounded.
    cbn [set_sensor_histories sensor_histories].
    apply Forall_fmap. eapply Forall_impl; [exact Hst |].
    intros d [Hmax _]. cbn. split; [done | lia].
  - destruct ok; by intros st.
Qed.


End Facts.

End RangingFacts.

(** ** The packet analyzer: what the callback and the buttons do *)

Module CaptureFacts.
Import Capture.

Implicit Types (st : analyzer) (p : packet) (now : string).

Lemma counts_ok_tag (m : gmap string nat) p :
  counts_ok m → is_Some (m !! proto_tag p).
Proof.
  intros (Htcp & Hudp & Hother). unfold proto_tag.
  by destruct (has (tcp p)), (has (udp p)).
Qed.

Lemma counts_ok_insert (m : gmap string nat) (k : string) (n : nat) :
  counts_ok m → counts_ok (<[k := n]> m).
Proof.
  intros (Htcp & Hudp & Hother).
  repeat split; rewrite lookup_insert; by case_decide.
Qed.

Lemma counts_ok_zero : counts_ok zero_counts.
Proof. repeat split; by eexists. Qed.

(** A packet without an IP layer is passed over. *)
Lemma packet_callback_no_ip now p st :
  ip p = None → packet_callback now p st = (Val tt, st).
Proof. intros Hip. unfold packet_callback. by rewrite Hip. Qed.

(** A packet with an IP layer is recorded, and its counter goes up. *)
Lemma packet_callback_ip now p layer st :
  ip p = Some layer →
  counts_ok (protocol_counts st) →
  ∃ n, protocol_counts st !! proto_tag p = Some n
       ∧ packet_callback now p st = (Val tt, recorded now p layer n st).
Proof.
  intros Hip Hok.
  destruct (counts_ok_tag _ p Hok) as [n Hn]. exists n. split; [done |].
  unfold packet_callback. rewrite Hip. cbn zeta.
  fold (proto_tag p).
  unfold mbind, M_bind, bind, modify, gets. cbn [protocol_counts set_packet_sizes set_packets].
  by rewrite Hn.
Qed.

(** Every button and every packet keeps the rolling windows bounded. *)
Lemma packet_callback_bounded now p :
  preserves windows_bounded (packet_callback now p).
Proof.
  unfold packet_callback. destruct (ip p) as [layer |];
    [| apply preserves_ret].
  cbn zeta.
  apply preserves_bind; [| intros _].
  { apply preserves_modify. by intros s. }
  apply preserves_bind; [| intros _].
  { apply preserves_modify. intros s (Hc & Hmax & Hlen & Htimes).
    unfold windows_bounded.
    cbn [set_packet_sizes protocol_counts packet_sizes packet_times].
    split_and!; [done | | | done].
    - by rewrite deque_append_maxlen.
    - rewrite <- Hmax. apply deque_append_length. by rewrite Hmax. }
  apply preserves_bind; [apply preserves_gets | intros counts].
  apply preserves_bind; [| intros _].
  { destruct (counts !! _) as [n |]; [| apply preserves_raise].
    apply preserves_modify. intros s (Hc & Hmax & Hlen & Htimes).
    unfold windows_bounded.
    cbn [set_protocol_counts protocol_counts packet_sizes packet_times].
    split_and!; [| done | done | done].
    by apply counts_ok_insert. }
  apply preserves_modify. by intros s.
Qed.

Lemma handle_bounded (ev : event) : preserves windows_bounded (handle ev).
Proof.
  destruct ev as [| | | now p]; cbn [handle].
  - unfold start_capture.
    apply preserves_bind; [apply preserves_gets | intros busy].
    destruct busy; cbn [negb]; [apply preserves_ret |].
    repeat (apply preserves_bind; [| intros _]);
      apply preserves_modify; by intros s.
  - unfold stop_capture.
    repeat (apply preserves_bind; [| intros _]);
      apply preserves_modify; by intros s.
  - unfold clear_display.
    repeat (apply preserves_bind; [| intros _]);
      apply preserves_modify; intros s (Hc & Hmax & Hlen & Htimes);
      repeat split; cbn; try done; try apply Hc; try apply counts_ok_zero.
    lia.
  - unfold capture_packets. apply preserves_try_except.
    + apply preserves_for_each. intros [now' p'].
      apply packet_callback_bounded.
    + intros e. repeat (apply preserves_bind; [| intros _]);
        apply preserves_modify; by intros s.
Qed.

Lemma init_bounded : windows_bounded init.
Proof. repeat split; cbn; try lia; by eexists. Qed.

Lemma run_bounded (evs : list event) st :
  windows_bounded st → windows_bounded (run evs st).
Proof.
  revert st. induction evs as [| ev evs IH]; intros st Hst; [done |].
  cbn [run foldl]. apply IH. by apply handle_bounded.
Qed.

(** While the counters exist the sniffer records every packet that has an
    IP layer, and no exception ends the capture. *)
Lemma sniff_run (arrivals : list (string * packet)) st :
  counts_ok (protocol_counts st) →
  ∃ st',
    for_each arrivals (λ '(now, p), packet_callback now p) st = (Val tt, st')
    ∧ counts_ok (protocol_counts st')
    ∧ packets st' = packets st ++ ip_packets arrivals
    ∧ capturing st' = capturing st.
Proof.
  revert st. induction arrivals as [| [now p] arrivals IH]; intros st Hok.
  - exists st. by rewrite app_nil_r.
  - cbn [for_each]. unfold mbind at 1, M_bind, bind.
    destruct (ip p) as [layer |] eqn:Hip.
    + destruct (packet_callback_ip now p layer st Hip Hok) as (n & Hn & ->).
      destruct (IH (recorded now p layer n st)) as (st' & Hrun & Hok' & Hps & Hcap).
      { cbn. by apply counts_ok_insert. }
      exists st'. split_and!; [done | done | | exact Hcap].
      rewrite Hps. cbn [recorded packets]. unfold ip_packets.
      rewrite fmap_cons. cbn [snd].
      rewrite filter_cons_True by (unfold has; by rewrite Hip).
      by rewrite <- app_assoc.
    + rewrite (packet_callback_no_ip now p st Hip).
      destruct (IH st Hok) as (st' & Hrun & Hok' & Hps & Hcap).
      exists st'. split_and!; [done | done | | done].
      rewrite Hps. unfold ip_packets. rewrite fmap_cons. cbn [snd].
      rewrite filter_cons_False; [done |]. unfold has. by rewrite Hip.
Qed.

End CaptureFacts.

(** * The properties of the specification *)

Lemma C1_history_witness :
  foldl (append_trim 2) [7] [1; 2; 3] = [2; 3]
  ∧ snapshot (foldl deque_append (Deque 2 [7]) [1; 2; 3]) = [2; 3].
Proof.
  destruct (C1_history_holds_last_pushes 2 [7] [1; 2; 3]) as [[_ H1] [_ H2]];
    [cbn; lia | cbn; lia |].
  split; [exact H1 | exact H2].
Defined.

(** The end-to-end scenario of the motion dashboard: after 150 data lines
    each of the six accelerometer and gyroscope channels holds the values of
    the last 100 lines, and the orientation channels are still empty. *)
Example motion_150_lines :
  let line := "DATA:0.1,0.2,9.8,0.01,0.02,0.03,1.5,-2.0" in
  let st := exec (Motion.collect_data Numeral.float_of_string
                    (replicate 150 (Line line)))
              (Motion.start_data_collection Motion.initialize_data_storage) in
  Motion.accel_data st =
    Motion.Axes (replicate 100 (Numeral.Decimal 1 1))
                (replicate 100 (Numeral.Decimal 2 1))
                (replicate 100 (Numeral.Decimal 98 1))
  ∧ Motion.gyro_data st =
      Motion.Axes (replicate 100 (Numeral.Decimal 1 2))
                  (replicate 100 (Numeral.Decimal 2 2))
                  (replicate 100 (Numeral.Decimal 3 2))
  ∧ Motion.orientation_data st = Motion.Orientation [] [].
Proof. by vm_compute. Qed.

(** The same for the ranging dashboard, with 150 passes on a data line. *)
Example ranging_150_lines :
  let st := Ranging.run Numeral.int_of_string
              (replicate 150 (Ranging.Update (Line "DATA:10,20,30,40")))
              Ranging.init in
  Ranging.sensor_readings st = [10; 20; 30; 40]%Z
  ∧ snapshot <$> Ranging.sensor_histories st =
      [replicate 100 10%Z; replicate 100 20%Z; replicate 100 30%Z;
       replicate 100 40%Z]
  ∧ Ranging.stdout st = [].
Proof. by vm_compute. Qed.

(** [update_data_storage] is the routine that keeps the timestamps and the
    orientation angles; the acquisition loop has no call to it. *)
Example update_data_storage_keeps_orientation :
  let d := λ m : Z, Numeral.Decimal m 1 in
  let st := exec (Motion.update_data_storage (d 0%Z)
                    [d 1%Z; d 2%Z; d 98%Z; d 1%Z; d 2%Z; d 3%Z; d 15%Z;
                     d (-20)%Z])
              Motion.initialize_data_storage in
  Motion.timestamps st = [d 0%Z]
  ∧ Motion.orientation_data st = Motion.Orientation [d 15%Z] [d (-20)%Z].
Proof. by vm_compute. Qed.

(** C9. In the motion dashboard a turn of the acquisition loop on a
    well-formed data line of eight fields appends the first six values to the
    six accelerometer and gyroscope histories, one value at the end of each
    history, whose oldest entry is dropped when the history then has more
    than [data_points] entries, and nothing else: the timestamps, the
    orientation (roll and pitch), the temperature and the motion histories
    are left as they were, by that turn and by every run of the loop, which
    never calls [update_data_storage]. *)
Theorem C9_live_loop_writes_six_channels {F : Type}
    (py_float : string → option F) (st : Motion.dashboard F)
    (line : string) (values : list F) (reads : list serial_read) :
  PyStr.startswith line "DATA:" = true →
  mapM py_float (Motion.fields line) = Some values →
  length values = 8 →
  let dp := Motion.data_points st in
  let pushed := λ (old : list F) (v : F),
    if dp <? length (old ++ [v]) then drop 1 (old ++ [v]) else old ++ [v] in
  let st1 := exec (Motion.collect_data_iter py_float (Line line)) st in
  let st2 := exec (Motion.collect_data py_float reads) st in
  (∃ a0 a1 a2 g0 g1 g2 r p,
     values = [a0; a1; a2; g0; g1; g2; r; p]
     ∧ Motion.ax_x (Motion.accel_data st1)
       = pushed (Motion.ax_x (Motion.accel_data st)) a0
     ∧ Motion.ax_y (Motion.accel_data st1)
       = pushed (Motion.ax_y (Motion.accel_data st)) a1
     ∧ Motion.ax_z (Motion.accel_data st1)
       = pushed (Motion.ax_z (Motion.accel_data st)) a2
     ∧ Motion.ax_x (Motion.gyro_data st1)
       = pushed (Motion.ax_x (Motion.gyro_data st)) g0
     ∧ Motion.ax_y (Motion.gyro_data st1)
       = pushed (Motion.ax_y (Motion.gyro_data st)) g1
     ∧ Motion.ax_z (Motion.gyro_data st1)
       = pushed (Motion.ax_z (Motion.gyro_data st)) g2)
  ∧ Motion.side_channels st1 = Motion.side_channels st
  ∧ Motion.side_channels st2 = Motion.side_channels st.
Proof.
  intros Hprefix Hmap Hlen dp pushed st1 st2. split_and!.
  - destruct values as [| a0 [| a1 [| a2 [| g0 [| g1 [| g2 [| r [| p rest]]]]]]]];
      try discriminate Hlen.
    destruct rest; [| discriminate Hlen].
    exists a0, a1, a2, g0, g1, g2, r, p. split; [done |].
    unfold st1, exec. rewrite MotionFacts.collect_data_iter_line.
    unfold Motion.after_line, Motion.parse_outcome. rewrite Hprefix, Hmap.
    split_and!; reflexivity.
  - unfold st1, exec. rewrite MotionFacts.collect_data_iter_run.
    apply MotionFacts.after_read_side_channels.
  - apply MotionFacts.collect_data_side_channels.
Qed.

Lemma C9_live_loop_witness :
  let line := "DATA:0.1,0.2,9.8,0.01,0.02,0.03,1.5,-2.0" in
  let st := Motion.start_data_collection Motion.initialize_data_storage in
  let st1 :=
    exec (Motion.collect_data_iter Numeral.float_of_string (Line line)) st in
  Motion.ax_z (Motion.accel_data st1) = [Numeral.Decimal 98 1]
  ∧ Motion.orientation_data st1 = Motion.Orientation [] [].
Proof.
  intros line st st1.
  destruct (C9_live_loop_writes_six_channels Numeral.float_of_string st line
              [Numeral.Decimal 1 1; Numeral.Decimal 2 1; Numeral.Decimal 98 1;
               Numeral.Decimal 1 2; Numeral.Decimal 2 2; Numeral.Decimal 3 2;
               Numeral.Decimal 15 1; Numeral.Decimal (-20) 1] [])
    as ((a0 & a1 & a2 & g0 & g1 & g2 & r & p & Hvalues & _ & _ & Hz & _)
        & Hside & _);
    [reflexivity | reflexivity | reflexivity |].
  split.
  - injection Hvalues as _ _ <- _ _ _ _ _. exact Hz.
  - exact (f_equal (λ channels, channels.1.1.2) Hside).
Defined.

(** C5 (as the code has it). Both dashboards strip the whitespace at the
    ends of a serial line before they look at it.  A line whose stripped
    text does not begin with the [DATA:] prefix is skipped: the parser yields
    no record and raises nothing, the turn completes, no history channel
    changes and nothing is scheduled for display.  The motion dashboard only
    echoes the line it received; the pass of the ranging dashboard is the
    pass of an empty port, which redraws the stored data and prints nothing
    unless that data cannot be drawn. *)
Theorem C5_line_without_prefix_is_skipped {F : Type}
    (py_float : string → option F) (py_int : string → option Z)
    (text : string) (mst : Motion.dashboard F) (rst : Ranging.gui) :
  let line := PyStr.strip text in
  PyStr.startswith line "DATA:" = false →
  let mst' := exec (Motion.collect_data_iter py_float (readline text)) mst in
  let rst' := exec (Ranging.update_gui py_int (readline text)) rst in
  (result (Motion.parse_line py_float line) mst = Val None
   ∧ result (Motion.collect_data_iter py_float (readline text)) mst = Val tt
   ∧ Motion.store mst' = Motion.store mst
   ∧ Motion.after_calls mst' = Motion.after_calls mst
   ∧ Motion.stdout mst' = Motion.stdout mst ++ [Motion.Received line])
  ∧ (result (Ranging.parse_line py_int line) rst = Val None
     ∧ Ranging.update_gui py_int (readline text) rst
       = Ranging.update_gui py_int NoData rst
     ∧ result (Ranging.update_gui py_int (readline text)) rst = Val tt
     ∧ Ranging.store rst' = Ranging.store rst
     ∧ (Ranging.drawable rst = true →
          Ranging.stdout rst' = Ranging.stdout rst
          ∧ Ranging.frames rst'
            = Ranging.frames rst
              ++ [Ranging.Frame (Ranging.sensor_readings rst)
                    (snapshot <$> Ranging.sensor_histories rst)])
     ∧ (Ranging.drawable rst = false →
          Ranging.stdout rst'
          = Ranging.stdout rst ++ [Ranging.UpdateError OverflowError]
          ∧ Ranging.frames rst' = Ranging.frames rst)
     ∧ (Ranging.MAX_DISTANCE rst = 400%Z →
        Forall (λ v, (Z.abs v < 2 ^ 1024 - 2 ^ 970)%Z)
          (Ranging.sensor_readings rst) →
        Forall (λ history,
                  Forall (λ v, (Z.abs v < 2 ^ 1024 - 2 ^ 970)%Z)
                    (snapshot history)) (Ranging.sensor_histories rst) →
        Ranging.stdout rst' = Ranging.stdout rst)).
Proof.
  intros line Hprefix mst' rst'.
  assert (Motion.parse_outcome py_float line = Val None) as Hm.
  { unfold Motion.parse_outcome. by rewrite Hprefix. }
  assert (Ranging.parse_outcome py_int line = Val None) as Hr.
  { unfold Ranging.parse_outcome. by rewrite Hprefix. }
  unfold mst', rst', exec, result, readline. fold line.
  rewrite MotionFacts.motion_parse_line_run, MotionFacts.collect_data_iter_line.
  rewrite RangingFacts.ranging_parse_line_run, RangingFacts.update_gui_skip,
    RangingFacts.update_gui_no_data by done.
  unfold Motion.after_line. rewrite Hm, Hr. cbn [fst snd].
  split; [done |]. split_and!; try done.
  - apply RangingFacts.redrawn_store.
  - intros Hdraw. unfold Ranging.redrawn. by rewrite Hdraw.
  - intros Hdraw. unfold Ranging.redrawn. by rewrite Hdraw.
  - intros Hmax Hreadings Hhistories. unfold Ranging.redrawn.
    by rewrite RangingFacts.drawable_fits.
Qed.

Lemma C5_line_without_prefix_witness :
  let text := " MPU6050 ready  " in
  PyStr.strip text = "MPU6050 ready"
  ∧ Motion.store
      (exec (Motion.collect_data_iter Numeral.float_of_string (readline text))
         (Motion.start_data_collection Motion.initialize_data_storage))
    = Motion.store
        (Motion.start_data_collection
           (@Motion.initialize_data_storage Numeral.decimal))
  ∧ Ranging.store
      (exec (Ranging.update_gui Numeral.int_of_string (readline text))
         Ranging.init)
    = Ranging.store Ranging.init.
Proof.
  intros text.
  destruct (C5_line_without_prefix_is_skipped Numeral.float_of_string
              Numeral.int_of_string text
              (Motion.start_data_collection Motion.initialize_data_storage)
              Ranging.init)
    as [(_ & _ & Hstore & _) (_ & _ & _ & Hstore' & _)]; [reflexivity |].
  split_and!; [reflexivity | exact Hstore | exact Hstore'].
Defined.

(** C5 as stated fails for a line with whitespace before the prefix: the
    serial line [ DATA:10,20,30,40] does not begin with [DATA:], yet it is
    stripped first, parsed and stored by the ranging dashboard; and so is
    the line [ DATA:0.1,0.2,9.8,0.01,0.02,0.03,1.5,-2.0] by the motion
    dashboard. *)
Lemma C5_counterexample :
  let text := " DATA:10,20,30,40" in
  let rst := exec (Ranging.update_gui Numeral.int_of_string (readline text))
               Ranging.init in
  let text' := " DATA:0.1,0.2,9.8,0.01,0.02,0.03,1.5,-2.0" in
  let mst := Motion.start_data_collection Motion.initialize_data_storage in
  let mst' := exec (Motion.collect_data_iter Numeral.float_of_string
                      (readline text')) mst in
  PyStr.startswith text "DATA:" = false
  ∧ Ranging.sensor_readings rst = [10; 20; 30; 40]%Z
  ∧ snapshot <$> Ranging.sensor_histories rst = [[10]; [20]; [30]; [40]]%Z
  ∧ Ranging.store rst ≠ Ranging.store Ranging.init
  ∧ PyStr.startswith text' "DATA:" = false
  ∧ Motion.accel_data mst' =
      Motion.Axes [Numeral.Decimal 1 1] [Numeral.Decimal 2 1]
        [Numeral.Decimal 98 1]
  ∧ Motion.store mst' ≠ Motion.store mst.
Proof. by vm_compute. Qed.

(** C8. The parser of each dashboard is a pure, deterministic function of
    the line: it leaves the state it runs in untouched, its result is the
    same in any two states, and that result is exactly one of a record (the
    converted values), a skip ([None]) and a parse error ([ValueError]),
    decided by the prefix, the number of fields and the conversion alone. *)
Theorem C8_parser_is_pure_and_deterministic {F : Type}
    (py_float : string → option F) (py_int : string → option Z)
    (line : string) :
  (∀ mst1 mst2 : Motion.dashboard F,
     exec (Motion.parse_line py_float line) mst1 = mst1
     ∧ result (Motion.parse_line py_float line) mst1
       = result (Motion.parse_line py_float line) mst2)
  ∧ (∀ rst1 rst2 : Ranging.gui,
       exec (Ranging.parse_line py_int line) rst1 = rst1
       ∧ result (Ranging.parse_line py_int line) rst1
         = result (Ranging.parse_line py_int line) rst2)
  ∧ (∀ mst : Motion.dashboard F,
       let o := result (Motion.parse_line py_float line) mst in
       (o = Val None ∧ PyStr.startswith line "DATA:" = false)
       ∨ (∃ values, o = Val (Some values)
            ∧ PyStr.startswith line "DATA:" = true
            ∧ mapM py_float (Motion.fields line) = Some values)
       ∨ (o = Exc ValueError
            ∧ PyStr.startswith line "DATA:" = true
            ∧ mapM py_float (Motion.fields line) = None))
  ∧ (∀ rst : Ranging.gui,
       let o := result (Ranging.parse_line py_int line) rst in
       (o = Val None
          ∧ (PyStr.startswith line "DATA:" = false
             ∨ length (Ranging.data_parts line) ≠ 4))
       ∨ (∃ readings, o = Val (Some readings)
            ∧ PyStr.startswith line "DATA:" = true
            ∧ length (Ranging.data_parts line) = 4
            ∧ mapM py_int (Ranging.data_parts line) = Some readings)
       ∨ (o = Exc ValueError
            ∧ PyStr.startswith line "DATA:" = true
            ∧ length (Ranging.data_parts line) = 4
            ∧ mapM py_int (Ranging.data_parts line) = None)).
Proof.
  split_and!.
  - intros mst1 mst2. unfold exec, result.
    by rewrite !MotionFacts.motion_parse_line_run.
  - intros rst1 rst2. unfold exec, result.
    by rewrite !RangingFacts.ranging_parse_line_run.
  - intros mst o. unfold o, result.
    rewrite MotionFacts.motion_parse_line_run. cbn [fst].
    unfold Motion.parse_outcome.
    destruct (PyStr.startswith line "DATA:"); [| by left].
    destruct (mapM py_float (Motion.fields line)) as [values |].
    + right; left. by exists values.
    + by right; right.
  - intros rst o. unfold o, result.
    rewrite RangingFacts.ranging_parse_line_run. cbn [fst].
    unfold Ranging.parse_outcome.
    destruct (PyStr.startswith line "DATA:"); [| left; split; [done | by left]].
    destruct (Nat.eqb_spec (length (Ranging.data_parts line)) 4) as [Hlen | Hlen];
      [| left; split; [done | by right]].
    destruct (mapM py_int (Ranging.data_parts line)) as [readings |].
    + right; left. by exists readings.
    + by right; right.
Qed.

(** C10. In the ranging dashboard the vector of current readings always
    has exactly four entries: it starts with four, whatever the window goes
    through it has four, and a pass of the update loop either leaves it as
    it was or replaces it by the converted fields of a data line that has
    exactly four fields, all of them integers; the buttons never assign
    it. *)
Theorem C10_current_readings_always_four (py_int : string → option Z) :
  length (Ranging.sensor_readings Ranging.init) = 4
  ∧ (∀ evs : list Ranging.event,
       length (Ranging.sensor_readings (Ranging.run py_int evs Ranging.init))
       = 4)
  ∧ (∀ (st : Ranging.gui) (r : serial_read),
       let st' := exec (Ranging.update_gui py_int r) st in
       Ranging.sensor_readings st' = Ranging.sensor_readings st
       ∨ ∃ line readings,
           r = Line line
           ∧ PyStr.startswith line "DATA:" = true
           ∧ length (Ranging.data_parts line) = 4
           ∧ mapM py_int (Ranging.data_parts line) = Some readings
           ∧ Ranging.sensor_readings st' = readings)
  ∧ (∀ (st : Ranging.gui) (ok : bool),
       Ranging.sensor_readings (exec Ranging.reset_history st)
       = Ranging.sensor_readings st
       ∧ Ranging.sensor_readings (exec (Ranging.save_data ok) st)
         = Ranging.sensor_readings st).
Proof.
  split_and!.
  - reflexivity.
  - intros evs. unfold Ranging.run.
    assert (length (Ranging.sensor_readings Ranging.init) = 4) as Hinit
      by reflexivity.
    revert Hinit. generalize Ranging.init.
    induction evs as [| ev evs IH]; intros st Hst; [done |].
    cbn [foldl]. apply IH.
    by apply (RangingFacts.handle_readings_length py_int ev).
  - intros st r st'. unfold st'. apply RangingFacts.update_gui_assigns.
  - intros st ok. split; [reflexivity | by destruct ok].
Qed.

(** C2 (as the code has it). A line with the [DATA:] prefix and the wrong
    number of fields leaves the Store unchanged when it has fewer than six
    fields (motion dashboard) or a number of fields other than four (ranging
    dashboard).  The motion dashboard has no check of the count: the short
    line fails with [ValueError] (a field is not a number) or [IndexError]
    (a value is missing), which the turn catches and prints.  The ranging
    dashboard compares the count with 4 and skips the line without any
    error of the parser: its pass is the pass of an empty port, which
    redraws the stored data and prints nothing unless that data cannot be
    drawn. *)
Theorem C2_miscounted_line_leaves_store {F : Type}
    (py_float : string → option F) (py_int : string → option Z)
    (line : string) (mst : Motion.dashboard F) (rst : Ranging.gui) :
  PyStr.startswith line "DATA:" = true →
  let mst' := exec (Motion.collect_data_iter py_float (Line line)) mst in
  let rst' := exec (Ranging.update_gui py_int (Line line)) rst in
  (length (Motion.fields line) < 6 →
     result (Motion.collect_data_iter py_float (Line line)) mst = Val tt
     ∧ Motion.store mst' = Motion.store mst
     ∧ Motion.after_calls mst' = Motion.after_calls mst
     ∧ last (Motion.stdout mst') =
         Some (Motion.ErrorInCollection
                 match mapM py_float (Motion.fields line) with
                 | None => ValueError
                 | Some _ => IndexError
                 end))
  ∧ (length (Ranging.data_parts line) ≠ 4 →
       result (Ranging.parse_line py_int line) rst = Val None
       ∧ Ranging.update_gui py_int (Line line) rst
         = Ranging.update_gui py_int NoData rst
       ∧ result (Ranging.update_gui py_int (Line line)) rst = Val tt
       ∧ Ranging.store rst' = Ranging.store rst
       ∧ (Ranging.drawable rst = true →
            Ranging.stdout rst' = Ranging.stdout rst)
       ∧ (Ranging.drawable rst = false →
            Ranging.stdout rst'
            = Ranging.stdout rst ++ [Ranging.UpdateError OverflowError])
       ∧ (Ranging.MAX_DISTANCE rst = 400%Z →
          Forall (λ v, (Z.abs v < 2 ^ 1024 - 2 ^ 970)%Z)
            (Ranging.sensor_readings rst) →
          Forall (λ history,
                    Forall (λ v, (Z.abs v < 2 ^ 1024 - 2 ^ 970)%Z)
                      (snapshot history)) (Ranging.sensor_histories rst) →
          Ranging.stdout rst' = Ranging.stdout rst)).
Proof.
  intros Hprefix mst' rst'. split.
  - intros Hshort. unfold mst', exec, result.
    rewrite MotionFacts.collect_data_iter_line. cbn [fst snd].
    destruct (MotionFacts.after_line_failure py_float line mst Hprefix
                (or_intror Hshort)) as (Hstore & Hafter & _ & Hlast).
    by split_and!.
  - intros Hcount.
    assert (Ranging.parse_outcome py_int line = Val None) as Hskip.
    { unfold Ranging.parse_outcome. rewrite Hprefix.
      by destruct (Nat.eqb_spec (length (Ranging.data_parts line)) 4). }
    unfold rst', exec, result.
    rewrite RangingFacts.ranging_parse_line_run, RangingFacts.update_gui_skip,
      RangingFacts.update_gui_no_data by done.
    rewrite Hskip. cbn [fst snd]. split_and!; try done.
    + apply RangingFacts.redrawn_store.
    + intros Hdraw. unfold Ranging.redrawn. by rewrite Hdraw.
    + intros Hdraw. unfold Ranging.redrawn. by rewrite Hdraw.
    + intros Hmax Hreadings Hhistories. unfold Ranging.redrawn.
      by rewrite RangingFacts.drawable_fits.
Qed.

Lemma C2_miscounted_line_witness :
  Motion.store
    (exec (Motion.collect_data_iter Numeral.float_of_string
             (Line "DATA:1.0,2.0"))
       (Motion.start_data_collection Motion.initialize_data_storage))
  = Motion.store
      (Motion.start_data_collection
         (@Motion.initialize_data_storage Numeral.decimal))
  ∧ Ranging.store
      (exec (Ranging.update_gui Numeral.int_of_string (Line "DATA:1.0,2.0"))
         Ranging.init)
    = Ranging.store Ranging.init
  ∧ Ranging.stdout
      (exec (Ranging.update_gui Numeral.int_of_string (Line "DATA:1.0,2.0"))
         Ranging.init)
    = [].
Proof.
  destruct (C2_miscounted_line_leaves_store Numeral.float_of_string
              Numeral.int_of_string "DATA:1.0,2.0"
              (Motion.start_data_collection Motion.initialize_data_storage)
              Ranging.init)
    as [Hmotion Hranging]; [reflexivity |].
  destruct Hmotion as (_ & Hstore & _); [cbn; lia |].
  destruct Hranging as (_ & _ & _ & Hstore' & Hquiet & _); [cbn; lia |].
  split_and!; [exact Hstore | exact Hstore' | by apply Hquiet].
Defined.

(** C2 as stated fails on the motion dashboard: the line [DATA:1,2,3,4,5,6]
    has the prefix and six fields instead of eight, yet the turn raises no
    error, prints none, and appends the six values to the Store. *)
Lemma C2_counterexample :
  let line := "DATA:1,2,3,4,5,6" in
  let st := Motion.start_data_collection Motion.initialize_data_storage in
  let st' := exec (Motion.collect_data_iter Numeral.float_of_string (Line line))
               st in
  PyStr.startswith line "DATA:" = true
  ∧ length (Motion.fields line) = 6
  ∧ result (Motion.parse_line Numeral.float_of_string line) st
    = Val (Some [Numeral.Decimal 1 0; Numeral.Decimal 2 0; Numeral.Decimal 3 0;
                 Numeral.Decimal 4 0; Numeral.Decimal 5 0; Numeral.Decimal 6 0])
  ∧ Motion.stdout st' =
      [Motion.Received line; Motion.ParsedValues;
       Motion.AccelValues (Numeral.Decimal 1 0) (Numeral.Decimal 2 0)
         (Numeral.Decimal 3 0);
       Motion.GyroValues (Numeral.Decimal 4 0) (Numeral.Decimal 5 0)
         (Numeral.Decimal 6 0)]
  ∧ Motion.accel_data st' =
      Motion.Axes [Numeral.Decimal 1 0] [Numeral.Decimal 2 0]
        [Numeral.Decimal 3 0]
  ∧ Motion.store st' ≠ Motion.store st.
Proof. by vm_compute. Qed.

(** C6 (as the code has it). A data line whose parse fails (a field that is
    not a number, or fewer than six fields) raises inside the turn that read
    it; the turn catches the exception and prints it (the dashboard keeps no
    error counter), stores nothing, leaves the loop flag up, and the loop
    goes on with the next unit: no exception ever ends [collect_data]. *)
Theorem C6_parse_failure_is_printed_and_loop_goes_on {F : Type}
    (py_float : string → option F) (st : Motion.dashboard F)
    (line : string) (rest : list serial_read) :
  Motion.running st = true →
  PyStr.startswith line "DATA:" = true →
  mapM py_float (Motion.fields line) = None
  ∨ length (Motion.fields line) < 6 →
  let st' := exec (Motion.collect_data_iter py_float (Line line)) st in
  result (Motion.collect_data_iter py_float (Line line)) st = Val tt
  ∧ (∃ e, (e = ValueError ∨ e = IndexError)
          ∧ last (Motion.stdout st') = Some (Motion.ErrorInCollection e))
  ∧ Motion.store st' = Motion.store st
  ∧ Motion.running st' = true
  ∧ Motion.collect_data py_float (Line line :: rest) st
    = Motion.collect_data py_float rest st'
  ∧ result (Motion.collect_data py_float (Line line :: rest)) st = Val tt.
Proof.
  intros Hrun Hprefix Hfail st'.
  assert (st' = Motion.after_line py_float line st) as Hst'.
  { unfold st', exec. by rewrite MotionFacts.collect_data_iter_line. }
  destruct (MotionFacts.after_line_failure py_float line st Hprefix Hfail)
    as (Hstore & _ & Hrun' & Hlast).
  rewrite <- Hst' in Hstore, Hrun', Hlast.
  split_and!.
  - unfold result. by rewrite MotionFacts.collect_data_iter_line.
  - eexists. split; [| exact Hlast].
    destruct (mapM py_float (Motion.fields line)); [by right | by left].
  - exact Hstore.
  - by rewrite Hrun'.
  - cbn [Motion.collect_data].
    unfold mbind at 1, M_bind, bind, gets. rewrite Hrun.
    unfold mbind at 1, M_bind, bind.
    by rewrite MotionFacts.collect_data_iter_line, Hst'.
  - unfold result. by rewrite MotionFacts.collect_data_run.
Qed.

Lemma C6_parse_failure_witness :
  Motion.collect_data Numeral.float_of_string
    [Line "DATA:abc"; Line "DATA:1,2,3,4,5,6,7,8"]
    (Motion.start_data_collection Motion.initialize_data_storage)
  = Motion.collect_data Numeral.float_of_string
      [Line "DATA:1,2,3,4,5,6,7,8"]
      (exec (Motion.collect_data_iter Numeral.float_of_string
               (Line "DATA:abc"))
         (Motion.start_data_collection Motion.initialize_data_storage)).
Proof.
  destruct (C6_parse_failure_is_printed_and_loop_goes_on
              Numeral.float_of_string
              (Motion.start_data_collection Motion.initialize_data_storage)
              "DATA:abc" [Line "DATA:1,2,3,4,5,6,7,8"])
    as (_ & _ & _ & _ & Hnext & _);
    [reflexivity | reflexivity | left; reflexivity |].
  exact Hnext.
Defined.

(** C6 as stated fails: after the turn that reads the unparsable line
    [DATA:abc] every attribute of the dashboard is what it was, and only the
    console has two more lines; nothing has counted the error. *)
Lemma C6_counterexample :
  let st := Motion.start_data_collection Motion.initialize_data_storage in
  result (Motion.parse_line Numeral.float_of_string "DATA:abc") st
  = Exc ValueError
  ∧ exec (Motion.collect_data_iter Numeral.float_of_string (Line "DATA:abc"))
      st
    = Motion.Dashboard 100 [] (Motion.Axes [] [] []) (Motion.Axes [] [] [])
        (Motion.Orientation [] []) [] [] false true
        [Motion.Received "DATA:abc"; Motion.ErrorInCollection ValueError]
        [].
Proof. by vm_compute. Qed.

(** C4. For a captured packet that has an IP layer the protocol tag is
    [TCP] when a TCP layer is present, otherwise [UDP] when a UDP layer is
    present, otherwise [Other]; this is the tag that [packet_callback] puts in
    the packet list and counts, and the tag of the exported record.  The
    exported record has the TCP flag bits exactly when the packet has a TCP
    layer, so a packet tagged [Other] has none (and no ports either). *)
Theorem C4_protocol_tag_and_flags (now : string) (p : Capture.packet)
    (layer : Capture.ip_layer) (st : Capture.analyzer) :
  Capture.ip p = Some layer →
  Capture.counts_ok (Capture.protocol_counts st) →
  let tag := Capture.proto_tag p in
  let st' := exec (Capture.packet_callback now p) st in
  let exported := Capture.packet_to_dict now p in
  ((is_Some (Capture.tcp p) → tag = "TCP")
   ∧ (Capture.tcp p = None → is_Some (Capture.udp p) → tag = "UDP")
   ∧ (Capture.tcp p = None → Capture.udp p = None → tag = "Other"))
  ∧ (last (Capture.packet_tree st') =
       Some (Capture.Row now (Capture.src layer) (Capture.dst layer) tag
               (Capture.len p) (Capture.get_packet_info p))
     ∧ Capture.protocol_counts st' !! tag
       = (λ n, n + 1) <$> Capture.protocol_counts st !! tag)
  ∧ exported !! "protocol" = Some (Capture.JStr tag)
  ∧ (is_Some (exported !! "tcp_flags") ↔ is_Some (Capture.tcp p))
  ∧ (tag = "Other" →
       exported !! "tcp_flags" = None
       ∧ exported !! "source_port" = None
       ∧ exported !! "dest_port" = None
       ∧ Capture.get_packet_info p = []).
Proof.
  intros Hip Hok tag st' exported. split_and!.
  - intros [t Ht]. unfold tag, Capture.proto_tag. by rewrite Ht.
  - intros Ht [u Hu]. unfold tag, Capture.proto_tag. by rewrite Ht, Hu.
  - intros Ht Hu. unfold tag, Capture.proto_tag. by rewrite Ht, Hu.
  - destruct (CaptureFacts.packet_callback_ip now p layer st Hip Hok)
      as (n & Hn & Hrun).
    unfold st', exec. rewrite Hrun. cbn [snd Capture.recorded Capture.packet_tree].
    apply last_snoc.
  - destruct (CaptureFacts.packet_callback_ip now p layer st Hip Hok)
      as (n & Hn & Hrun).
    unfold st', exec. rewrite Hrun.
    cbn [snd Capture.recorded Capture.protocol_counts].
    fold tag in Hn |- *. by rewrite lookup_insert_eq, Hn.
  - unfold exported, tag, Capture.packet_to_dict, Capture.proto_tag.
    by destruct (Capture.tcp p) as [t |], (Capture.udp p) as [u |].
  - unfold exported, Capture.packet_to_dict.
    destruct (Capture.tcp p) as [t |], (Capture.udp p) as [u |];
      (split; intros [x Hx]; [by vm_compute in Hx | done]) || (by split; eexists).
  - unfold tag, exported, Capture.proto_tag, Capture.packet_to_dict,
      Capture.get_packet_info.
    by destruct (Capture.tcp p) as [t |], (Capture.udp p) as [u |].
Qed.

Lemma C4_protocol_tag_witness :
  let p := Capture.Packet (Some (Capture.IP "10.0.0.1" "10.0.0.2"))
             None None 60 in
  Capture.packet_to_dict "2024-01-01 12:00:00" p !! "protocol"
  = Some (Capture.JStr "Other")
  ∧ Capture.packet_to_dict "2024-01-01 12:00:00" p !! "tcp_flags" = None.
Proof.
  intros p.
  destruct (C4_protocol_tag_and_flags "2024-01-01 12:00:00" p
              (Capture.IP "10.0.0.1" "10.0.0.2") Capture.init)
    as (_ & _ & Hproto & _ & Hother);
    [reflexivity | apply CaptureFacts.counts_ok_zero |].
  split; [exact Hproto |].
  destruct Hother as (Hflags & _); [reflexivity | exact Hflags].
Defined.

(** C7 (the code diverges). [start_capture] is guarded by the capture
    flag: while the flag is up it changes nothing and starts no thread.  But
    [stop_capture] only lowers the flag and writes its status line: it ends
    no thread, and the sniffer, which has no stop condition, goes on handing
    packets to the callback, which records them.  So a Start after a Stop
    finds the flag down and starts one more capture thread beside the one
    that is still running.  And [stop_capture] has no guard of its own: on
    an idle analyzer it still appends its status line, so the state
    changes. *)
Theorem C7_stop_leaves_the_capture_running
    (evs : list Capture.event) (idle : Capture.analyzer)
    (now : string) (p : Capture.packet) (layer : Capture.ip_layer) :
  Capture.capturing idle = false →
  Capture.ip p = Some layer →
  let st := Capture.run evs Capture.init in
  let started := exec Capture.start_capture st in
  let stopped := exec Capture.stop_capture started in
  let restarted := exec Capture.start_capture stopped in
  (Capture.capturing started = true
   ∧ Capture.start_capture started = (Val tt, started)
   ∧ ∀ st0, exec Capture.start_capture (exec Capture.start_capture st0)
            = exec Capture.start_capture st0)
  ∧ (Capture.capturing stopped = false
     ∧ Capture.capture_threads stopped = Capture.capture_threads started
     ∧ Capture.capture_packets [(now, p)] stopped
       = (Val tt,
          exec (Capture.capture_packets [(now, p)]) stopped)
     ∧ Capture.packets (exec (Capture.capture_packets [(now, p)]) stopped)
       = Capture.packets stopped ++ [p])
  ∧ (Capture.capturing restarted = true
     ∧ Capture.capture_threads restarted
       = S (Capture.capture_threads started))
  ∧ (Capture.stop_capture idle =
       (Val tt,
        Capture.set_analysis_text (λ t, t ++ ["Packet capture stopped."])
          idle)
     ∧ exec Capture.stop_capture idle ≠ idle).
Proof.
  intros Hidle Hip st started stopped restarted.
  assert (Capture.capturing started = true) as Hstarted.
  { unfold started, exec, Capture.start_capture, mbind, M_bind, bind, gets.
    by destruct (Capture.capturing st) eqn:Hst. }
  assert (Capture.counts_ok (Capture.protocol_counts stopped)) as Hcounts.
  { assert (Capture.windows_bounded stopped) as [Hok _]; [| done].
    apply (CaptureFacts.handle_bounded Capture.StopCapture).
    apply (CaptureFacts.handle_bounded Capture.StartCapture).
    apply CaptureFacts.run_bounded, CaptureFacts.init_bounded. }
  destruct (CaptureFacts.sniff_run [(now, p)] stopped Hcounts)
    as (st' & Hrun & _ & Hpackets & _).
  assert (Capture.capture_packets [(now, p)] stopped = (Val tt, st'))
    as Hcapture.
  { unfold Capture.capture_packets, try_except. by rewrite Hrun. }
  split_and!.
  - exact Hstarted.
  - unfold Capture.start_capture, mbind, M_bind, bind, gets.
    by rewrite Hstarted.
  - intros st0.
    unfold exec, Capture.start_capture, mbind, M_bind, bind, gets.
    by destruct (Capture.capturing st0) eqn:Hst0; cbn; rewrite ?Hst0.
  - reflexivity.
  - reflexivity.
  - unfold exec. by rewrite Hcapture.
  - unfold exec. rewrite Hcapture. cbn [snd]. rewrite Hpackets.
    unfold Capture.ip_packets. cbn [fmap list_fmap snd].
    rewrite filter_cons_True by (by rewrite Hip). done.
  - reflexivity.
  - reflexivity.
  - destruct idle as [ps times sizes counts capturing threads tree text].
    cbn in Hidle. by subst capturing.
  - intros Heq.
    apply (f_equal Capture.analysis_text) in Heq.
    destruct idle as [ps times sizes counts capturing threads tree text].
    change (text ++ ["Packet capture stopped."] = text) in Heq.
    apply (f_equal length) in Heq. rewrite length_app in Heq.
    cbn [length] in Heq. lia.
Qed.

Lemma C7_stop_leaves_the_capture_running_witness :
  let p := Capture.Packet (Some (Capture.IP "10.0.0.1" "10.0.0.2"))
             None None 60 in
  let stopped := Capture.run [Capture.StartCapture; Capture.StopCapture]
                   Capture.init in
  Capture.capturing stopped = false
  ∧ Capture.packets
      (exec (Capture.capture_packets [("2024-01-01 12:00:00", p)]) stopped)
    = [p]
  ∧ Capture.capture_threads (exec Capture.start_capture stopped) = 2.
Proof.
  intros p stopped.
  destruct (C7_stop_leaves_the_capture_running [] Capture.init
              "2024-01-01 12:00:00" p (Capture.IP "10.0.0.1" "10.0.0.2"))
    as (_ & (Hflag & _ & _ & Hpackets) & (_ & Hthreads) & _);
    [reflexivity | reflexivity |].
  split_and!; [exact Hflag | exact Hpackets | exact Hthreads].
Defined.

(** C7 as stated fails twice.  After Start and Stop the capture thread is
    still running, the flag is down, and a second Start starts a second
    thread: two sniffers then hand every packet to the callback, which
    records it twice.  And on the idle analyzer that [__init__] builds,
    [stop_capture] changes the state: the analysis panel gets a line. *)
Lemma C7_counterexample :
  let p := Capture.Packet (Some (Capture.IP "10.0.0.1" "10.0.0.2"))
             None None 60 in
  let now := "2024-01-01 12:00:00" in
  let st := Capture.run
              [Capture.StartCapture; Capture.StopCapture;
               Capture.StartCapture;
               Capture.Arrival now p; Capture.Arrival now p]
              Capture.init in
  Capture.capture_threads st = 2
  ∧ Capture.packets st = [p; p]
  ∧ Capture.capturing Capture.init = false
  ∧ exec Capture.stop_capture Capture.init ≠ Capture.init
  ∧ Capture.analysis_text (exec Capture.stop_capture Capture.init)
    = ["Packet capture stopped."].
Proof.
  split_and!; [done | done | done | | done].
  intros Heq. by inversion Heq.
Qed.



(** * Further properties of the code *)

(** ** The motion dashboard: storage routine, export, recording *)

Module MotionExtra.
Import Motion.

Section Facts.
Context {F : Type} (py_float : string → option F).
Context (fromtimestamp : F → outcome string).
Implicit Types (st : dashboard F) (values : list F) (a : application F).

Lemma append_trim_length_eq (n : nat) (l : list F) (v : F) :
  length (append_trim n l v)
  = if n <? S (length l) then length l else S (length l).
Proof.
  unfold append_trim. cbn zeta. rewrite length_app. cbn [length].
  replace (length l + 1) with (S (length l)) by lia.
  destruct (n <? S (length l));
    rewrite ?length_drop, length_app; cbn [length]; lia.
Qed.

(** [update_data_storage] on a sample of at least eight values. *)
Lemma update_data_storage_run (timestamp a0 a1 a2 g0 g1 g2 r p : F)
    (rest : list F) st :
  update_data_storage timestamp
    (a0 :: a1 :: a2 :: g0 :: g1 :: g2 :: r :: p :: rest) st
  = (Val tt, sample_kept timestamp a0 a1 a2 g0 g1 g2 r p st).
Proof.
  destruct st as [dp ts [ax ay az] [gx gy gz] [rl pt] temp mot rec run out aft].
  cbv -[append_trim Nat.ltb length List.app drop].
  destruct (dp <? length (rl ++ [r])); [| done].
  by destruct rl, pt.
Qed.

(** X1. [update_data_storage] on a sample of at least eight values
    completes and keeps the stored channels aligned: when the six axes, the
    roll and the pitch have one entry per timestamp, within [data_points]
    entries, they still have after the call, with one entry more or, at
    capacity, the same number; the temperature and motion histories are not
    written. *)
Theorem update_data_storage_keeps_alignment (timestamp : F) values st :
  8 ≤ length values →
  aligned st →
  length (timestamps st) ≤ data_points st →
  let st' := exec (update_data_storage timestamp values) st in
  result (update_data_storage timestamp values) st = Val tt
  ∧ aligned st'
  ∧ timestamps st' = append_trim (data_points st) (timestamps st) timestamp
  ∧ length (timestamps st')
    = Nat.min (S (length (timestamps st))) (data_points st)
  ∧ temp_data st' = temp_data st
  ∧ motion_data st' = motion_data st.
Proof.
  intros Hlen Haligned Hbound st'.
  destruct values as [| a0 [| a1 [| a2 [| g0 [| g1 [| g2 [| r [| p rest]]]]]]]];
    try (cbn in Hlen; lia).
  unfold st', exec, result. rewrite update_data_storage_run. cbn [fst snd].
  destruct Haligned as (Hax & Hay & Haz & Hgx & Hgy & Hgz & Hroll & Hpitch).
  cbn zeta in *.
  split_and!; try done.
  - unfold aligned, sample_kept.
    cbn [timestamps accel_data gyro_data orientation_data ax_x ax_y ax_z].
    rewrite !append_trim_length_eq, Hax, Hay, Haz, Hgx, Hgy, Hgz.
    rewrite length_app, Hroll. cbn [length].
    replace (length (timestamps st) + 1) with (S (length (timestamps st)))
      by lia.
    destruct (data_points st <? S (length (timestamps st))) eqn:Hfull;
      cbn [roll pitch]; rewrite ?length_drop, !length_app, ?Hroll, ?Hpitch;
      cbn [length]; split_and!; lia.
  - unfold sample_kept. cbn [timestamps]. rewrite append_trim_length_eq.
    destruct (Nat.ltb_spec (data_points st) (S (length (timestamps st)))); lia.
Qed.

(** X2. [update_data_storage] on a sample of fewer than eight values
    raises [IndexError], after it has stored the timestamp; a sample of
    exactly seven values has by then stored its six axes and its roll, so
    the roll history is one entry ahead of the pitch history. *)
Theorem update_data_storage_short_sample (timestamp : F) values st :
  length values < 8 →
  let st' := exec (update_data_storage timestamp values) st in
  result (update_data_storage timestamp values) st = Exc IndexError
  ∧ timestamps st' = append_trim (data_points st) (timestamps st) timestamp
  ∧ (length values = 7 →
       ∃ r, values !! 6 = Some r
            ∧ roll (orientation_data st') = roll (orientation_data st) ++ [r]
            ∧ pitch (orientation_data st') = pitch (orientation_data st)).
Proof.
  intros Hlen st'. unfold st', exec, result.
  destruct st as [dp ts [ax ay az] [gx gy gz] [rl pt] temp mot rec run out aft].
  destruct values as [| a0 [| a1 [| a2 [| g0 [| g1 [| g2 [| r [| p rest]]]]]]]];
    try (cbn in Hlen; lia);
    (split_and!; [done | done |]); intros Hseven; try discriminate Hseven.
  by exists r.
Qed.

(** On aligned channels every row of the export can be written. *)
Lemma save_row_run st (i : nat) (t : F) (rows : list (list (cell F))) :
  aligned st → timestamps st !! i = Some t → is_time fromtimestamp t →
  ∃ row,
    save_row fromtimestamp st i rows = (Val tt, rows ++ [row])
    ∧ length row = 11.
Proof.
  intros (Hax & Hay & Haz & Hgx & Hgy & Hgz & Hroll & Hpitch) Ht [time Htime].
  cbn zeta in *. unfold save_row.
  pose proof (lookup_lt_Some _ _ _ Ht) as Hi.
  destruct (lookup_lt_is_Some_2 (ax_x (accel_data st)) i) as [ax Hx]; [lia |].
  destruct (lookup_lt_is_Some_2 (ax_y (accel_data st)) i) as [ay Hy]; [lia |].
  destruct (lookup_lt_is_Some_2 (ax_z (accel_data st)) i) as [az Hz]; [lia |].
  destruct (lookup_lt_is_Some_2 (ax_x (gyro_data st)) i) as [gx Hgx']; [lia |].
  destruct (lookup_lt_is_Some_2 (ax_y (gyro_data st)) i) as [gy Hgy']; [lia |].
  destruct (lookup_lt_is_Some_2 (ax_z (gyro_data st)) i) as [gz Hgz']; [lia |].
  destruct (lookup_lt_is_Some_2 (roll (orientation_data st)) i) as [r Hr];
    [lia |].
  destruct (lookup_lt_is_Some_2 (pitch (orientation_data st)) i) as [p Hp];
    [lia |].
  unfold mbind, M_bind, bind, index, call.
  rewrite Ht. cbv beta iota delta [ret]. rewrite Htime.
  rewrite Hx, Hy, Hz, Hgx', Hgy', Hgz', Hr, Hp. cbn.
  by eexists.
Qed.

(** A timestamp that is no time: the row is not written. *)
Lemma save_row_fails st (i : nat) (t : F) (e : exn)
    (rows : list (list (cell F))) :
  timestamps st !! i = Some t → fromtimestamp t = Exc e →
  save_row fromtimestamp st i rows = (Exc e, rows).
Proof.
  intros Ht Htime. unfold save_row, mbind, M_bind, bind, index, call.
  rewrite Ht. cbv beta iota delta [ret]. by rewrite Htime.
Qed.

Lemma save_rows_loop st (k n : nat) (rows : list (list (cell F))) :
  aligned st →
  (∀ i t, k ≤ i < k + n → timestamps st !! i = Some t → is_time fromtimestamp t) →
  k + n ≤ length (timestamps st) →
  ∃ more,
    for_each (seq k n) (save_row fromtimestamp st) rows
    = (Val tt, rows ++ more)
    ∧ length more = n
    ∧ Forall (λ row, length row = 11) more.
Proof.
  intros Haligned. revert k rows.
  induction n as [| n IH]; intros k rows Htimes Hlen.
  - exists []. by rewrite app_nil_r.
  - destruct (lookup_lt_is_Some_2 (timestamps st) k) as [t Ht]; [lia |].
    destruct (save_row_run st k t rows Haligned Ht) as (row & Hrow & Hwidth).
    { apply (Htimes k); [lia | done]. }
    destruct (IH (S k) (rows ++ [row])) as (more & Hrun & Hmore & Hall).
    { intros i t' Hi. apply Htimes. lia. }
    { lia. }
    exists (row :: more). split_and!.
    + cbn [seq for_each]. unfold mbind at 1, M_bind, bind.
      rewrite Hrow, Hrun. by rewrite <- app_assoc.
    + cbn. by rewrite Hmore.
    + by constructor.
Qed.

Lemma for_each_app {S A} (l1 l2 : list A) (body : A → M S unit) (s : S) :
  for_each (l1 ++ l2) body s = (for_each l1 body;; for_each l2 body) s.
Proof.
  revert s. induction l1 as [| x l1 IH]; intros s; [done |].
  cbn [List.app for_each]. unfold mbind, M_bind, bind.
  destruct (body x s) as [[[] | e] s']; [apply IH | done].
Qed.

(** X3. On aligned channels [save_data] writes the header and then one
    row of eleven cells per timestamp, and reports success, when every
    timestamp converts to a time; at the first timestamp that does not, the
    export stops: the file keeps the header and the rows before it, and the
    error is shown.  When the file dialog is cancelled [save_data] writes
    nothing and shows no message, and when the file cannot be opened it
    shows the error. *)
Theorem save_data_writes_one_row_per_timestamp (filename : string) st :
  aligned st →
  filename ≠ "" →
  (Forall (is_time fromtimestamp) (timestamps st) →
   ∃ rows,
     save_data fromtimestamp filename true st
     = (Some (csv_header :: rows), Some ShowInfo)
     ∧ length rows = length (timestamps st)
     ∧ Forall (λ row, length row = 11) (csv_header :: rows))
  ∧ (∀ good t e later,
       timestamps st = good ++ t :: later →
       Forall (is_time fromtimestamp) good →
       fromtimestamp t = Exc e →
       ∃ rows,
         save_data fromtimestamp filename true st
         = (Some (csv_header :: rows), Some (ShowError e))
         ∧ length rows = length good
         ∧ Forall (λ row, length row = 11) (csv_header :: rows))
  ∧ save_data fromtimestamp "" true st = (None, None)
  ∧ save_data fromtimestamp filename false st
    = (None, Some (ShowError OSError)).
Proof.
  intros Haligned Hname. split_and!.
  - intros Htimes.
    destruct (save_rows_loop st 0 (length (timestamps st)) [csv_header]
                Haligned) as (rows & Hrun & Hlen & Hall).
    { intros i t _ Ht. by apply (Forall_lookup_1 _ _ _ _ Htimes Ht). }
    { lia. }
    exists rows. split_and!.
    + destruct filename; [done |]. cbn [save_data].
      unfold save_rows, mbind, M_bind, bind, modify. cbn [List.app].
      by rewrite Hrun.
    + done.
    + by constructor.
  - intros good t e later Hsplit Hgood Hbad.
    destruct (save_rows_loop st 0 (length good) [csv_header] Haligned)
      as (rows & Hrun & Hlen & Hall).
    { intros i t' Hi Ht'. rewrite Hsplit in Ht'.
      rewrite lookup_app_l in Ht' by lia.
      by apply (Forall_lookup_1 _ _ _ _ Hgood Ht'). }
    { rewrite Hsplit, length_app. lia. }
    exists rows. split_and!; [| done | by constructor].
    destruct filename; [done |]. cbn [save_data].
    unfold save_rows, mbind at 1, M_bind, bind, modify. cbn [List.app].
    assert (seq 0 (length (timestamps st))
            = seq 0 (length good) ++ length good :: seq (S (length good))
                                                      (length later)) as ->.
    { rewrite Hsplit, length_app. cbn [length].
      replace (length good + S (length later))
        with (length good + (1 + length later)) by lia.
      by rewrite seq_app. }
    rewrite for_each_app. unfold mbind at 1, M_bind, bind. rewrite Hrun.
    cbn [for_each]. unfold mbind at 1, M_bind, bind.
    rewrite (save_row_fails st (length good) t e); [done | | done].
    rewrite Hsplit. by apply list_lookup_middle.
  - done.
  - by destruct filename.
Qed.

(** *** The application under its events *)

Lemma after_read_recording (r : serial_read) st :
  recording (after_read py_float r st) = recording st.
Proof.
  destruct r as [| line | e]; [done | | done].
  cbn [after_read]. unfold after_line.
  destruct (parse_outcome py_float line) as [[values |] | e]; [| done | done].
  by destruct values as [| a0 [| a1 [| a2 [| g0 [| g1 [| g2 rest]]]]]].
Qed.

Lemma handle_poll_run (r : serial_read) a :
  handle py_float (Poll r) a =
    (Val tt,
     if running (dash a)
     then set_dash (λ _, after_read py_float r (dash a)) a
     else a).
Proof.
  cbn [handle]. unfold mbind, M_bind, bind, gets, on_dash.
  destruct (running (dash a)); [| done].
  by rewrite MotionFacts.collect_data_iter_run.
Qed.

(** No event writes a timestamp, an orientation angle, a temperature or a
    motion value. *)
Lemma handle_side_channels (ev : event) :
  preserves (λ a, side_channels (dash a)
                  = ([], Orientation [] [], [], []))
    (handle py_float ev).
Proof.
  intros a Ha. unfold exec. destruct ev as [r | | opens | |].
  - rewrite handle_poll_run. cbn [snd].
    destruct (running (dash a)); [| done].
    cbn [dash set_dash]. by rewrite MotionFacts.after_read_side_channels.
  - done.
  - cbn [handle]. unfold start_recording, mbind, M_bind, bind, gets.
    destruct (recording (dash a)); [done |]. by destruct opens.
  - cbn [handle]. unfold stop_recording, mbind, M_bind, bind, gets.
    by destruct (recording (dash a)).
  - cbn [handle].
    unfold cleanup_and_exit, stop_recording, mbind, M_bind, bind, gets.
    by destruct (recording (dash a)) eqn:Hrec; cbn; rewrite ?Hrec.
Qed.

Lemma run_side_channels (evs : list event) a :
  side_channels (dash a) = ([], Orientation [] [], [], []) →
  side_channels (dash (run py_float evs a)) = ([], Orientation [] [], [], []).
Proof.
  revert a. induction evs as [| ev evs IH]; intros a Ha; [done |].
  cbn [run foldl]. apply IH. by apply handle_side_channels.
Qed.

(** X4. Whatever the dashboard has read, and whatever menu entries were
    used, Save Data exports the header row alone: the rows of [save_data]
    follow the timestamps, and no event ever stores a timestamp. *)
Theorem save_data_exports_header_only (evs : list event) (filename : string) :
  filename ≠ "" →
  let st := dash (run py_float evs started_app) in
  timestamps st = []
  ∧ save_data fromtimestamp filename true st
    = (Some [csv_header], Some ShowInfo).
Proof.
  intros Hname st.
  assert (timestamps st = []) as Hts.
  { pose proof (run_side_channels evs started_app eq_refl) as Hside.
    fold st in Hside. by injection Hside. }
  split; [done |].
  destruct filename; [done |]. cbn [save_data].
  unfold save_rows, mbind, M_bind, bind, modify. by rewrite Hts.
Qed.

(** What [cleanup_and_exit] leaves. *)
Lemma cleanup_and_exit_run a :
  cleanup_and_exit a =
    (Val tt,
     set_dash (set_running false)
       (if recording (dash a)
        then App (set_recording false (dash a)) None
               (closed_files a
                  ++ from_option (λ rows, [rows]) [] (data_file a))
               (dialogs a)
        else a)).
Proof.
  unfold cleanup_and_exit, stop_recording, mbind, M_bind, bind, gets.
  by destruct (recording (dash a)) eqn:Hrec; cbn; rewrite ?Hrec.
Qed.

(** The recording file is open exactly while the dashboard records, and
    every recording file holds the header row and nothing else. *)
Lemma handle_recording_files (ev : event) :
  preserves (λ a, data_file a
                  = (if recording (dash a) then Some [csv_header] else None)
                  ∧ Forall (λ rows, rows = [csv_header]) (closed_files a))
    (handle py_float ev).
Proof.
  intros a [Hfile Hclosed]. unfold exec. destruct ev as [r | | opens | |].
  - rewrite handle_poll_run. cbn [snd].
    destruct (running (dash a)); [| done].
    cbn [dash set_dash data_file closed_files].
    by rewrite after_read_recording.
  - done.
  - cbn [handle]. unfold start_recording, mbind, M_bind, bind, gets.
    destruct (recording (dash a)) eqn:Hrec; cbn [negb].
    + cbn. by rewrite Hrec.
    + destruct opens; cbn; [done |]. by rewrite Hrec.
  - cbn [handle]. unfold stop_recording, mbind, M_bind, bind, gets.
    destruct (recording (dash a)) eqn:Hrec; cbn; [| by rewrite Hrec].
    split; [done |]. rewrite Hfile. cbn.
    apply Forall_app. split; [done | by constructor].
  - cbn [handle]. rewrite cleanup_and_exit_run. cbn [snd].
    destruct (recording (dash a)) eqn:Hrec; cbn; [| by rewrite Hrec].
    split; [done |]. rewrite Hfile. cbn.
    apply Forall_app. split; [done | by constructor].
Qed.

(** X5. Whatever the dashboard reads while it records, a recording file
    never gets a data row: the file that is open, and every file that was
    closed by Stop Recording or on exit, holds the header row alone.  (The
    loop has no call to [save_data_point], the one routine that writes a
    data row.) *)
Theorem recording_files_hold_header_only (evs : list event) :
  let a := run py_float evs started_app in
  data_file a = (if recording (dash a) then Some [csv_header] else None)
  ∧ Forall (λ rows, rows = [csv_header]) (closed_files a).
Proof.
  intros a. unfold a, run.
  assert (data_file (@started_app F)
          = (if recording (dash (@started_app F))
             then Some [csv_header] else None)
          ∧ Forall (λ rows, rows = [csv_header])
              (closed_files (@started_app F))) as Hinit by (by split).
  revert Hinit. generalize (@started_app F).
  induction evs as [| ev evs IH]; intros a0 Ha0; [done |].
  cbn [foldl]. apply IH. by apply handle_recording_files.
Qed.

(** X6. [cleanup_and_exit] completes, ends the recording and lowers the
    loop flag: from then on the acquisition loop stores nothing and prints
    nothing, whatever the port delivers. *)
Theorem cleanup_and_exit_stops_the_loop (a : application F)
    (reads : list serial_read) :
  let a' := exec cleanup_and_exit a in
  result cleanup_and_exit a = Val tt
  ∧ running (dash a') = false
  ∧ recording (dash a') = false
  ∧ store (dash a') = store (dash a)
  ∧ run py_float (Poll <$> reads) a' = a'
  ∧ collect_data py_float reads (dash a') = (Val tt, dash a').
Proof.
  intros a'. unfold a', exec, result. rewrite cleanup_and_exit_run.
  cbn [fst snd]. clear a'.
  set (a' := set_dash _ _).
  assert (running (dash a') = false) as Hrun.
  { unfold a'. by destruct (recording (dash a)). }
  split_and!; try done.
  - unfold a'. by destruct (recording (dash a)) eqn:Hrec.
  - unfold a'. by destruct (recording (dash a)).
  - induction reads as [| r reads IH]; [done |].
    rewrite fmap_cons. cbn [run foldl]. unfold exec at 2.
    rewrite handle_poll_run, Hrun. exact IH.
  - by apply MotionFacts.collect_data_stopped.
Qed.

(** *** What the histories hold after a run of the loop *)

Lemma column_length (i : nat) (samples : list (list F)) :
  Forall (λ values, i < length values) samples →
  length (column i samples) = length samples.
Proof.
  induction 1 as [| values samples Hi _ IH]; [done |].
  unfold column in *. cbn.
  destruct (lookup_lt_is_Some_2 values i Hi) as [v Hv].
  rewrite Hv. cbn. by rewrite IH.
Qed.

(** X7. Fed with more well-formed data lines than [data_points], the
    loop leaves in each of the six accelerometer and gyroscope channels
    exactly [data_points] values: those of the last [data_points] lines, in
    order of arrival. *)
Theorem channels_hold_last_samples (lines : list string)
    (samples : list (list F)) st :
  running st = true →
  axes_bounded (data_points st) (accel_data st) →
  axes_bounded (data_points st) (gyro_data st) →
  Forall2 (λ line values,
             parse_outcome py_float line = Val (Some values)
             ∧ 6 ≤ length values) lines samples →
  data_points st < length samples →
  let dp := data_points st in
  let st' := exec (collect_data py_float (Line <$> lines)) st in
  accel_data st' =
    Axes (lastn dp (column 0 samples)) (lastn dp (column 1 samples))
         (lastn dp (column 2 samples))
  ∧ gyro_data st' =
      Axes (lastn dp (column 3 samples)) (lastn dp (column 4 samples))
           (lastn dp (column 5 samples))
  ∧ (∀ i, i < 6 → length (lastn dp (column i samples)) = dp).
Proof.
  intros Hrun (Hax & Hay & Haz) (Hgx & Hgy & Hgz) Hlines Hmany dp st'.
  assert (∀ i, i < 6 → length (column i samples) = length samples) as Hcol.
  { assert (Forall (λ values, 6 ≤ length values) samples) as Hsix.
    { clear -Hlines.
      induction Hlines as [| line values lines samples [_ Hlen] _ IH];
        by constructor. }
    intros i Hi. apply column_length.
    eapply Forall_impl; [exact Hsix |].
    intros values Hvalues. cbn beta in Hvalues |- *. lia. }
  destruct (MotionFacts.collect_data_pushes_columns py_float lines samples st
              Hrun Hlines) as [Haccel Hgyro].
  fold st' dp in Haccel, Hgyro.
  split_and!.
  - rewrite Haccel. f_equal;
      (rewrite foldl_append_trim by done; apply lastn_app_ge;
       rewrite Hcol; unfold dp; lia).
  - rewrite Hgyro. f_equal;
      (rewrite foldl_append_trim by done; apply lastn_app_ge;
       rewrite Hcol; unfold dp; lia).
  - intros i Hi. rewrite lastn_length, Hcol by done. unfold dp. lia.
Qed.

(** The histories after a turn depend on the histories and the capacity
    before it, and on nothing else of the dashboard. *)
Lemma after_read_store (r : serial_read) (s1 s2 : dashboard F) :
  store s1 = store s2 → data_points s1 = data_points s2 →
  store (after_read py_float r s1) = store (after_read py_float r s2)
  ∧ data_points (after_read py_float r s1)
    = data_points (after_read py_float r s2).
Proof.
  intros Hstore Hdp. destruct r as [| line | e]; [done | | done].
  cbn [after_read]. unfold after_line.
  destruct (parse_outcome py_float line) as [[values |] | e]; [| done | done].
  destruct values as [| a0 [| a1 [| a2 [| g0 [| g1 [| g2 rest]]]]]]; try done.
  unfold store, sample_stored in *.
  cbn [data_points timestamps accel_data gyro_data orientation_data temp_data
       motion_data].
  injection Hstore as -> -> -> -> -> ->. by rewrite Hdp.
Qed.

(** X8. Reset Plots forgets the past: it empties every history, and
    whatever the loop reads once it has returned, the histories are those of a
    freshly started dashboard that reads the same input. *)
Theorem reset_plots_forgets_the_past (reads : list serial_read) st :
  running st = true →
  data_points st = 100 →
  store (reset_plots st) = store (@initialize_data_storage F)
  ∧ store (exec (collect_data py_float reads) (reset_plots st))
    = store (exec (collect_data py_float reads)
               (start_data_collection initialize_data_storage)).
Proof.
  intros Hrun Hdp. split; [done |].
  unfold exec. rewrite !MotionFacts.collect_data_run by done. cbn [snd].
  assert (store (reset_plots st)
          = store (start_data_collection (@initialize_data_storage F)))
    as Hstore by done.
  assert (data_points (reset_plots st)
          = data_points (start_data_collection (@initialize_data_storage F)))
    as Hcap by done.
  revert Hstore Hcap.
  generalize (reset_plots st)
             (start_data_collection (@initialize_data_storage F)).
  induction reads as [| r reads IH]; intros s1 s2 Hstore Hcap; [done |].
  cbn [foldl].
  destruct (after_read_store r s1 s2 Hstore Hcap) as [Hstore' Hcap'].
  by apply IH.
Qed.

End Facts.

Lemma update_data_storage_alignment_witness :
  Motion.timestamps
    (exec (update_data_storage (Numeral.Decimal 0 0)
             ((λ m, Numeral.Decimal m 0) <$> [1; 2; 3; 4; 5; 6; 7; 8]%Z))
       initialize_data_storage)
  = [Numeral.Decimal 0 0].
Proof.
  destruct (update_data_storage_keeps_alignment (Numeral.Decimal 0 0)
              ((λ m, Numeral.Decimal m 0) <$> [1; 2; 3; 4; 5; 6; 7; 8]%Z)
              initialize_data_storage)
    as (_ & _ & Hts & _); [cbn; lia | by repeat split | cbn; lia |].
  exact Hts.
Defined.

Lemma update_data_storage_short_witness :
  result (update_data_storage (Numeral.Decimal 0 0)
            ((λ m, Numeral.Decimal m 0) <$> [1; 2; 3; 4; 5; 6; 7]%Z))
    initialize_data_storage
  = Exc IndexError.
Proof.
  destruct (update_data_storage_short_sample (Numeral.Decimal 0 0)
              ((λ m, Numeral.Decimal m 0) <$> [1; 2; 3; 4; 5; 6; 7]%Z)
              initialize_data_storage)
    as (Hraise & _); [cbn; lia |].
  exact Hraise.
Defined.

Lemma save_data_rows_witness :
  let sample := (λ m, Numeral.Decimal m 0) <$> [1; 2; 3; 4; 5; 6; 7; 8]%Z in
  let st := exec (update_data_storage (Numeral.Decimal 0 0) sample)
              initialize_data_storage in
  let st' := exec (update_data_storage (Numeral.Decimal (10 ^ 20) 0) sample)
               st in
  (∃ rows,
     save_data epoch_time "run1.csv" true st
     = (Some (csv_header :: rows), Some ShowInfo)
     ∧ length rows = 1)
  ∧ (∃ rows,
       save_data epoch_time "run1.csv" true st'
       = (Some (csv_header :: rows), Some (ShowError OverflowError))
       ∧ length rows = 1).
Proof.
  intros sample st st'. split.
  - destruct (save_data_writes_one_row_per_timestamp epoch_time "run1.csv" st)
      as (Hgood & _); [by repeat split | done |].
    destruct Hgood as (rows & Hsave & Hlen & _).
    { repeat constructor. by eexists. }
    exists rows. split; [exact Hsave | exact Hlen].
  - destruct (save_data_writes_one_row_per_timestamp epoch_time "run1.csv" st')
      as (_ & Hbad & _); [by repeat split | done |].
    destruct (Hbad [Numeral.Decimal 0 0] (Numeral.Decimal (10 ^ 20) 0)
                OverflowError [])
      as (rows & Hsave & Hlen & _); [reflexivity | | reflexivity |].
    { repeat constructor. by eexists. }
    exists rows. split; [exact Hsave | exact Hlen].
Defined.

Lemma save_data_header_only_witness :
  save_data epoch_time "capture.csv" true
    (dash (run Numeral.float_of_string
             [Poll (Line "DATA:0.1,0.2,9.8,0.01,0.02,0.03,1.5,-2.0");
              StartRecording true;
              Poll (Line "DATA:0.1,0.2,9.8,0.01,0.02,0.03,1.5,-2.0")]
             started_app))
  = (Some [csv_header], Some ShowInfo).
Proof.
  destruct (save_data_exports_header_only Numeral.float_of_string epoch_time
              [Poll (Line "DATA:0.1,0.2,9.8,0.01,0.02,0.03,1.5,-2.0");
               StartRecording true;
               Poll (Line "DATA:0.1,0.2,9.8,0.01,0.02,0.03,1.5,-2.0")]
              "capture.csv") as [_ Hsave]; [done |].
  exact Hsave.
Defined.

Lemma channels_hold_last_samples_witness :
  let d := λ m : BinNums.Z, Numeral.Decimal m 0 in
  let st := Dashboard 2 [] (Axes [] [] []) (Axes [] [] []) (Orientation [] [])
              [] [] false true [] [] in
  accel_data
    (exec (collect_data Numeral.float_of_string
             (Line <$> ["DATA:1,2,3,4,5,6"; "DATA:11,12,13,14,15,16";
                        "DATA:21,22,23,24,25,26"]))
       st)
  = Axes [d 11; d 21]%Z [d 12; d 22]%Z [d 13; d 23]%Z.
Proof.
  intros d st.
  destruct (channels_hold_last_samples Numeral.float_of_string
              ["DATA:1,2,3,4,5,6"; "DATA:11,12,13,14,15,16";
               "DATA:21,22,23,24,25,26"]
              [d <$> [1; 2; 3; 4; 5; 6]%Z; d <$> [11; 12; 13; 14; 15; 16]%Z;
               d <$> [21; 22; 23; 24; 25; 26]%Z] st)
    as (Haccel & _).
  - reflexivity.
  - repeat split; cbn; lia.
  - repeat split; cbn; lia.
  - repeat constructor; cbn; lia.
  - cbn; lia.
  - exact Haccel.
Defined.

Lemma reset_plots_witness :
  let st := exec (collect_data Numeral.float_of_string
                    [Line "DATA:1,2,3,4,5,6"])
              (start_data_collection initialize_data_storage) in
  store (exec (collect_data Numeral.float_of_string
                 [Line "DATA:11,12,13,14,15,16"]) (reset_plots st))
  = store (exec (collect_data Numeral.float_of_string
                   [Line "DATA:11,12,13,14,15,16"])
             (start_data_collection initialize_data_storage)).
Proof.
  intros st.
  destruct (reset_plots_forgets_the_past Numeral.float_of_string
              [Line "DATA:11,12,13,14,15,16"] st) as [_ Hsame];
    [reflexivity | reflexivity |].
  exact Hsame.
Defined.

(** *** The readouts *)

Section Readouts.
Context {F : Type}.
Implicit Types (w : front F) (values : list F).

Lemma append_inj (title a b : string) : title +:+ a = title +:+ b → a = b.
Proof.
  induction title as [| c title IH]; [done |].
  cbn. intros [= Heq]. by apply IH.
Qed.

(** One turn and one loop of [update_display], when the values and the
    readouts exist. *)
Lemma show_axis_run (title short : string) (u : unit_name) (off : nat)
    values (i : nat) (axis : string) (v : F) w :
  values !! (i + off) = Some v →
  is_Some (reading_labels w !! (title +:+ axis)) →
  show_axis title short u off values i axis w =
    (Val tt,
     Front (object w) (<[title +:+ axis := Reading v u]> (reading_labels w))
       (plotted w) (console w ++ [Setting (short +:+ axis) (Reading v u)])).
Proof.
  intros Hv [x Hx].
  cbv beta iota zeta delta
    [show_axis mbind M_bind bind index gets tell modify ret raise].
  rewrite Hv. cbv beta iota. by rewrite Hx.
Qed.

Lemma show_axes_run (title short : string) (u : unit_name) (off : nat)
    values (v0 v1 v2 : F) w :
  values !! (0 + off) = Some v0 →
  values !! (1 + off) = Some v1 →
  values !! (2 + off) = Some v2 →
  is_Some (reading_labels w !! (title +:+ "X")) →
  is_Some (reading_labels w !! (title +:+ "Y")) →
  is_Some (reading_labels w !! (title +:+ "Z")) →
  show_axes title short u off values w =
    (Val tt,
     Front (object w)
       (<[title +:+ "Z" := Reading v2 u]>
          (<[title +:+ "Y" := Reading v1 u]>
             (<[title +:+ "X" := Reading v0 u]> (reading_labels w))))
       (plotted w)
       (((console w ++ [Setting (short +:+ "X") (Reading v0 u)])
           ++ [Setting (short +:+ "Y") (Reading v1 u)])
          ++ [Setting (short +:+ "Z") (Reading v2 u)])).
Proof.
  intros H0 H1 H2 Hx Hy Hz.
  unfold show_axes, enumerate. cbn [imap for_each].
  unfold mbind at 1, M_bind, bind.
  rewrite (show_axis_run title short u off values 0 "X" v0 w H0 Hx).
  unfold mbind at 1, M_bind, bind.
  rewrite (show_axis_run title short u off values 1 "Y" v1 _ H1).
  2:{ cbn [reading_labels]. rewrite lookup_insert_ne; [done |].
      intros Heq%append_inj. discriminate. }
  unfold mbind at 1, M_bind, bind.
  rewrite (show_axis_run title short u off values 2 "Z" v2 _ H2).
  2:{ cbn [reading_labels]. rewrite !lookup_insert_ne; [done | |];
      intros Heq%append_inj; discriminate. }
  reflexivity.
Qed.
(** [update_display] keeps the six readouts it writes and never touches
    the other three. *)
Lemma show_axes_readouts (title short : string) (u : unit_name) (off : nat)
    values :
  (title = "Accelerometer" ∨ title = "Gyroscope") →
  preserves (λ w, six_readouts (reading_labels w)
                  ∧ idle_readouts (reading_labels w))
    (show_axes title short u off values).
Proof.
  intros Htitle. unfold show_axes.
  apply preserves_for_each. intros [i axis]. unfold show_axis.
  apply preserves_bind; [apply preserves_index | intros value].
  apply preserves_bind; [apply preserves_gets | intros labels].
  destruct (labels !! (title +:+ axis)); [| apply preserves_raise].
  apply preserves_bind; [| intros _].
  { apply preserves_modify. by intros w. }
  apply preserves_modify. intros w [Hsix (Hroll & Hpitch & Htemp)].
  cbn [reading_labels]. split.
  - unfold six_readouts in *. eapply Forall_impl; [exact Hsix |].
    intros name Hname. cbn beta. rewrite lookup_insert_is_Some'. by right.
  - unfold idle_readouts.
    rewrite !lookup_insert_ne; [done | | |];
      destruct Htitle as [-> | ->]; cbn; discriminate.
Qed.

Lemma update_display_readouts values :
  preserves (λ w, six_readouts (reading_labels w)
                  ∧ idle_readouts (reading_labels w))
    (update_display values).
Proof.
  unfold update_display. apply preserves_try_except.
  - apply preserves_bind; [| intros _].
    { apply preserves_modify. by intros w. }
    apply preserves_bind; [| intros _].
    { apply show_axes_readouts. by left. }
    apply preserves_bind; [| intros _].
    { apply show_axes_readouts. by right. }
    apply preserves_modify. by intros w.
  - intros e. apply preserves_modify. by intros w.
Qed.

Lemma update_display_object (obj : dashboard F) values :
  preserves (λ w, object w = obj) (update_display values).
Proof.
  assert (∀ title short u off,
            preserves (λ w, object w = obj)
              (show_axes title short u off values)) as Hshow.
  { intros title short u off. unfold show_axes.
    apply preserves_for_each. intros [i axis]. unfold show_axis.
    apply preserves_bind; [apply preserves_index | intros value].
    apply preserves_bind; [apply preserves_gets | intros labels].
    destruct (labels !! (title +:+ axis)); [| apply preserves_raise].
    apply preserves_bind; [| intros _]; apply preserves_modify; by intros s. }
  unfold update_display. apply preserves_try_except.
  - apply preserves_bind; [| intros _].
    { apply preserves_modify. by intros s. }
    apply preserves_bind; [apply Hshow | intros _].
    apply preserves_bind; [apply Hshow | intros _].
    apply preserves_modify. by intros s.
  - intros e. apply preserves_modify. by intros s.
Qed.

(** X9. Whatever samples the display has been given, a sample of at
    least six values refreshes the six accelerometer and gyroscope readouts
    with its first six values, redraws the plots from the histories and
    raises nothing; the roll, pitch and temperature readouts are never
    written and still show their initial text. *)
Theorem update_display_refreshes_six_readouts (obj : dashboard F)
    (samples : list (list F)) (a0 a1 a2 g0 g1 g2 : F) (rest : list F) :
  let values := a0 :: a1 :: a2 :: g0 :: g1 :: g2 :: rest in
  let w := show_samples samples (Front obj create_control_panel [] []) in
  let w' := exec (update_display values) w in
  result (update_display values) w = Val tt
  ∧ reading_labels w' !! "AccelerometerX" = Some (Reading a0 UnitG)
  ∧ reading_labels w' !! "AccelerometerY" = Some (Reading a1 UnitG)
  ∧ reading_labels w' !! "AccelerometerZ" = Some (Reading a2 UnitG)
  ∧ reading_labels w' !! "GyroscopeX" = Some (Reading g0 UnitDegPerSec)
  ∧ reading_labels w' !! "GyroscopeY" = Some (Reading g1 UnitDegPerSec)
  ∧ reading_labels w' !! "GyroscopeZ" = Some (Reading g2 UnitDegPerSec)
  ∧ idle_readouts (reading_labels w')
  ∧ plotted w'
    = plotted w ++ [(accel_data obj, gyro_data obj, orientation_data obj)].
Proof.
  intros values w w'.
  assert (six_readouts (reading_labels w) ∧ idle_readouts (reading_labels w)
          ∧ object w = obj) as (Hsix & Hidle & Hobj).
  { unfold w, show_samples.
    assert (six_readouts (reading_labels (Front obj create_control_panel [] []))
            ∧ idle_readouts
                (reading_labels (Front obj create_control_panel [] []))
            ∧ object (Front obj create_control_panel [] []) = obj) as Hinit.
    { split_and!; [| done | done].
      unfold six_readouts. repeat constructor; by eexists. }
    revert Hinit. generalize (Front obj create_control_panel [] []).
    induction samples as [| sample samples IH]; intros w0 Hw0; [done |].
    cbn [foldl]. apply IH. destruct Hw0 as (Hsix & Hidle & Hobj).
    destruct (update_display_readouts sample w0 (conj Hsix Hidle))
      as [Hsix' Hidle'].
    split_and!; [done | done |].
    by apply (update_display_object obj sample). }
  unfold six_readouts in Hsix.
  repeat match goal with
         | H : Forall _ (_ :: _) |- _ => apply Forall_cons in H as [? H]
         end.
  assert (∃ out,
            update_display values w =
              (Val tt,
               Front (object w)
                 (<["GyroscopeZ" := Reading g2 UnitDegPerSec]>
                    (<["GyroscopeY" := Reading g1 UnitDegPerSec]>
                       (<["GyroscopeX" := Reading g0 UnitDegPerSec]>
                          (<["AccelerometerZ" := Reading a2 UnitG]>
                             (<["AccelerometerY" := Reading a1 UnitG]>
                                (<["AccelerometerX" := Reading a0 UnitG]>
                                   (reading_labels w)))))))
                 (plotted w ++ [(accel_data (object w), gyro_data (object w),
                                 orientation_data (object w))])
                 out)) as [out Hrun].
  { eexists. unfold update_display, try_except.
    unfold mbind at 1, M_bind, bind. unfold tell at 1, modify at 1.
    unfold mbind at 1, M_bind, bind.
    rewrite (show_axes_run "Accelerometer" "Accel" UnitG 0 values a0 a1 a2)
      by done.
    unfold mbind at 1, M_bind, bind.
    rewrite (show_axes_run "Gyroscope" "Gyro" UnitDegPerSec 3 values g0 g1 g2);
      [reflexivity | done | done | done | | |];
      cbn [reading_labels]; by rewrite !lookup_insert_ne. }
  unfold w', exec, result. rewrite Hrun. cbn [fst snd reading_labels plotted].
  destruct Hidle as (Hroll & Hpitch & Htemp). unfold idle_readouts.
  rewrite Hobj.
  split_and!; try done;
    rewrite ?lookup_insert_ne by done; by rewrite ?lookup_insert_eq.
Qed.

End Readouts.

End MotionExtra.

(** ** The ranging dashboard: passes, reset and export *)

Module RangingExtra.
Import Ranging.

Section Facts.
Context (py_int : string → option Z).
Implicit Types (st : gui) (line : string) (readings : list Z).

(** A pass keeps every property of the window that the assignment of the
    readings, an append to one history, the console and the frames keep. *)
Lemma update_gui_keeps (P : gui → Prop) (r : serial_read) :
  (∀ st f, P st → P (set_frames f st)) →
  (∀ st f, P st → P (set_stdout f st)) →
  (∀ st rs, P st → P (set_sensor_readings rs st)) →
  (∀ st i h, P st → P (set_sensor_histories (λ hs, <[i := h]> hs) st)) →
  preserves P (update_gui py_int r).
Proof.
  intros Hframes Hstdout Hreadings Hhistories.
  unfold update_gui. apply preserves_try_except.
  - unfold update_gui_body.
    apply preserves_bind;
      [| intros _; apply RangingFacts.preserves_render, Hframes].
    destruct r as [| line | e];
      [apply preserves_ret | | apply preserves_raise].
    apply preserves_bind.
    + intros st Hst. unfold exec.
      by rewrite RangingFacts.ranging_parse_line_run.
    + intros [readings |]; [| apply preserves_ret].
      apply preserves_bind;
        [apply preserves_modify; intros st; apply Hreadings | intros _].
      unfold update_histories.
      apply preserves_bind; [apply preserves_gets | intros rs].
      apply preserves_for_each. intros [i reading].
      apply preserves_bind; [apply preserves_gets | intros hs].
      apply preserves_bind; [apply preserves_index | intros h].
      apply preserves_modify. intros st Hst. by apply Hhistories.
  - intros e. apply preserves_modify. intros st. apply Hstdout.
Qed.

Lemma handle_channels (ev : event) :
  preserves (λ st, length (sensor_histories st) = 4) (handle py_int ev).
Proof.
  destruct ev as [r | | ok]; cbn [handle].
  - apply update_gui_keeps; try done.
    intros st i h Hst.
    cbn [set_sensor_histories sensor_histories]. by rewrite length_insert.
  - apply preserves_modify. intros st Hst.
    cbn [set_sensor_histories sensor_histories]. by rewrite length_fmap.
  - destruct ok; by intros st.
Qed.

Lemma handle_max_distance (ev : event) :
  preserves (λ st, MAX_DISTANCE st = 400%Z) (handle py_int ev).
Proof.
  destruct ev as [r | | ok]; cbn [handle].
  - by apply update_gui_keeps.
  - by apply preserves_modify.
  - destruct ok; by intros st.
Qed.

Lemma run_max_distance (evs : list event) st :
  MAX_DISTANCE st = 400%Z → MAX_DISTANCE (run py_int evs st) = 400%Z.
Proof.
  revert st. induction evs as [| ev evs IH]; intros st Hst; [done |].
  cbn [run foldl]. apply IH. by apply handle_max_distance.
Qed.

Lemma run_well_formed (evs : list event) st :
  well_formed st → well_formed (run py_int evs st).
Proof.
  revert st. induction evs as [| ev evs IH]; intros st Hst; [done |].
  cbn [run foldl]. apply IH. destruct Hst as (Hfour & Hbound & Hreadings).
  split_and!.
  - by apply handle_channels.
  - by apply RangingFacts.handle_bounded_histories.
  - by apply (RangingFacts.handle_readings_length py_int ev).
Qed.

Lemma init_well_formed : well_formed init.
Proof.
  split_and!; [done | | done].
  unfold histories_bounded. cbn. repeat constructor; cbn; lia.
Qed.

(** *** What can be drawn *)

Lemma drawable_redrawn st : drawable (redrawn st) = drawable st.
Proof.
  unfold redrawn. destruct (drawable st) eqn:Hdraw; by rewrite <- Hdraw.
Qed.

(** The value appended to a history that has room for one is its last. *)
Lemma deque_append_last (h : deque Z) (r : Z) :
  maxlen h ≠ 0 → last (snapshot (deque_append h r)) = Some r.
Proof.
  intros Hroom. unfold deque_append, snapshot.
  destruct (Nat.eqb_spec (maxlen h) 0) as [| _]; [done |]. cbn [items].
  destruct (Nat.ltb_spec (maxlen h) (length (items h ++ [r]))) as [Hfull |];
    [| apply last_snoc].
  destruct (items h) as [| v vs]; [cbn in Hfull; lia |].
  cbn [List.app drop]. apply last_snoc.
Qed.

Lemma deque_append_Forall (P : Z → Prop) (h : deque Z) (r : Z) :
  Forall P (snapshot h) → P r → Forall P (snapshot (deque_append h r)).
Proof.
  intros Hh Hr. unfold deque_append, snapshot in *.
  destruct (maxlen h =? 0); [done |]. cbn [items].
  assert (Forall P (items h ++ [r])) as Hall.
  { apply Forall_app. split; [done | by constructor]. }
  destruct (maxlen h <? length (items h ++ [r])); [by apply Forall_drop | done].
Qed.

(** The window after the reception of a data line of four integers, on a
    window that has its four channels. *)
Lemma receive_data_line line (r0 r1 r2 r3 : Z) (h0 h1 h2 h3 : deque Z) st :
  sensor_histories st = [h0; h1; h2; h3] →
  parse_outcome py_int line = Val (Some [r0; r1; r2; r3]) →
  receive py_int (Line line) st =
    (Val tt,
     set_sensor_histories
       (λ _, [deque_append h0 r0; deque_append h1 r1;
              deque_append h2 r2; deque_append h3 r3])
       (set_sensor_readings [r0; r1; r2; r3] st)).
Proof.
  intros Hhist Hparse. rewrite RangingFacts.receive_line, Hparse.
  destruct st as [maxd rs hlen hs out fs sv]. cbn in Hhist. subst hs.
  reflexivity.
Qed.

(** A data line of four integers on a window that has its four channels. *)
Lemma update_gui_data_line line (r0 r1 r2 r3 : Z) (h0 h1 h2 h3 : deque Z) st :
  sensor_histories st = [h0; h1; h2; h3] →
  parse_outcome py_int line = Val (Some [r0; r1; r2; r3]) →
  update_gui py_int (Line line) st =
    (Val tt,
     redrawn
       (set_sensor_histories
          (λ _, [deque_append h0 r0; deque_append h1 r1;
                 deque_append h2 r2; deque_append h3 r3])
          (set_sensor_readings [r0; r1; r2; r3] st))).
Proof.
  intros Hhist Hparse.
  by rewrite RangingFacts.update_gui_run,
    (receive_data_line line r0 r1 r2 r3 h0 h1 h2 h3 st Hhist Hparse).
Qed.

(** The data stored by a line can be drawn exactly when the values of the
    histories are within the range of a float: the readings are among
    them. *)
Lemma stored_line_drawable (r0 r1 r2 r3 : Z) (h0 h1 h2 h3 : deque Z) st :
  MAX_DISTANCE st = 400%Z →
  Forall (λ h, maxlen h ≠ 0) [h0; h1; h2; h3] →
  let hs := [deque_append h0 r0; deque_append h1 r1;
             deque_append h2 r2; deque_append h3 r3] in
  drawable (set_sensor_histories (λ _, hs)
              (set_sensor_readings [r0; r1; r2; r3] st)) = true
  ↔ Forall (λ h, Forall (λ v, (Z.abs v < 2 ^ 1024 - 2 ^ 970)%Z) (snapshot h))
      hs.
Proof.
  intros Hmax Hroom hs. unfold drawable.
  cbn [set_sensor_histories set_sensor_readings sensor_readings
       sensor_histories MAX_DISTANCE firstn].
  rewrite Hmax, andb_true_iff, RangingFacts.forallb_histories.
  split; [by intros [_ Hhs] |]. intros Hhs. split; [| done].
  assert (∀ h r, maxlen h ≠ 0 →
            Forall (λ v, (Z.abs v < 2 ^ 1024 - 2 ^ 970)%Z)
              (snapshot (deque_append h r)) →
            fits_float (Z.min r 400) = true) as Hlast.
  { intros h r Hh Hall. apply RangingFacts.fits_min.
    pose proof (deque_append_last h r Hh) as Hr.
    apply last_Some_elem_of in Hr.
    by apply (proj1 (Forall_forall _ _) Hall). }
  apply Forall_cons in Hroom as [Hm0 Hroom].
  apply Forall_cons in Hroom as [Hm1 Hroom].
  apply Forall_cons in Hroom as [Hm2 Hroom].
  apply Forall_cons in Hroom as [Hm3 _].
  unfold hs in Hhs.
  apply Forall_cons in Hhs as [Hv0 Hhs].
  apply Forall_cons in Hhs as [Hv1 Hhs].
  apply Forall_cons in Hhs as [Hv2 Hhs].
  apply Forall_cons in Hhs as [Hv3 _].
  cbn [forallb].
  by rewrite (Hlast h0 r0), (Hlast h1 r1), (Hlast h2 r2), (Hlast h3 r3).
Qed.

(** X10. In every state that the window can reach, a data line of exactly
    four integer fields is stored: the four values become the current
    readings and the [i]-th value is appended to the [i]-th history, whether
    or not the redraw that follows completes.  The redraw completes exactly
    when the values of the histories are within the range of a float: the
    pass then prints nothing and draws one frame, which shows the data as
    stored by that pass.  Otherwise the pass prints the [OverflowError] of
    the redraw and draws no frame, and the line stays stored. *)
Theorem data_line_is_stored (evs : list event) line readings :
  PyStr.startswith line "DATA:" = true →
  length (data_parts line) = 4 →
  mapM py_int (data_parts line) = Some readings →
  let st := run py_int evs init in
  let st' := exec (update_gui py_int (Line line)) st in
  result (update_gui py_int (Line line)) st = Val tt
  ∧ sensor_readings st' = readings
  ∧ sensor_histories st'
    = zip_with deque_append (sensor_histories st) readings
  ∧ (drawable st' = true
     ↔ Forall (λ h, Forall (λ v, (Z.abs v < 2 ^ 1024 - 2 ^ 970)%Z)
                      (snapshot h)) (sensor_histories st'))
  ∧ (drawable st' = true →
       stdout st' = stdout st
       ∧ frames st'
         = frames st ++ [Frame readings (snapshot <$> sensor_histories st')])
  ∧ (drawable st' = false →
       stdout st' = stdout st ++ [UpdateError OverflowError]
       ∧ frames st' = frames st).
Proof.
  intros Hprefix Hlen Hmap st st'.
  assert (parse_outcome py_int line = Val (Some readings)) as Hparse.
  { unfold parse_outcome. rewrite Hprefix, Hlen, Hmap. done. }
  pose proof (RangingFacts.ranging_parse_outcome_length _ _ _ Hparse) as Hfour.
  destruct readings as [| r0 [| r1 [| r2 [| r3 [| r4 rest]]]]];
    try discriminate Hfour.
  destruct (run_well_formed evs init init_well_formed)
    as (Hchannels & Hbound & _).
  pose proof (run_max_distance evs init eq_refl) as Hmax.
  fold st in Hchannels, Hbound, Hmax. unfold histories_bounded in Hbound.
  destruct (sensor_histories st) as [| h0 [| h1 [| h2 [| h3 [| h4 hs]]]]]
    eqn:Hhist; try discriminate Hchannels.
  assert (Forall (λ h : deque Z, maxlen h ≠ 0) [h0; h1; h2; h3]) as Hroom.
  { eapply Forall_impl; [exact Hbound |]. intros h [-> _]. lia. }
  pose proof (stored_line_drawable r0 r1 r2 r3 h0 h1 h2 h3 st Hmax Hroom)
    as Hdrawable. cbn zeta in Hdrawable.
  unfold st', exec, result.
  rewrite (update_gui_data_line line r0 r1 r2 r3 h0 h1 h2 h3 st Hhist Hparse).
  cbn [fst snd]. rewrite drawable_redrawn.
  set (st1 := set_sensor_histories _ _) in *.
  assert (sensor_readings (redrawn st1) = [r0; r1; r2; r3]
          ∧ sensor_histories (redrawn st1)
            = [deque_append h0 r0; deque_append h1 r1;
               deque_append h2 r2; deque_append h3 r3])
    as [Hreadings Hhistories].
  { unfold redrawn. by destruct (drawable st1). }
  rewrite Hreadings, Hhistories. split_and!; try done.
  - intros Hdraw. unfold redrawn. by rewrite Hdraw.
  - intros Hdraw. unfold redrawn. by rewrite Hdraw.
Qed.

(** The histories and the readings after a run of data lines, on a window
    with four channels; the console only gets errors of the redraw. *)
Lemma run_data_lines (lines : list string) (samples : list (list Z))
    (h0 h1 h2 h3 : deque Z) st :
  sensor_histories st = [h0; h1; h2; h3] →
  Forall2 (λ line readings, parse_outcome py_int line = Val (Some readings))
    lines samples →
  let st' := run py_int (Update ∘ Line <$> lines) st in
  sensor_histories st' =
    [foldl deque_append h0 (column 0 samples);
     foldl deque_append h1 (column 1 samples);
     foldl deque_append h2 (column 2 samples);
     foldl deque_append h3 (column 3 samples)]
  ∧ last (sensor_readings st :: samples) = Some (sensor_readings st')
  ∧ ∃ errors,
      stdout st' = stdout st ++ errors
      ∧ Forall (λ m, m = UpdateError OverflowError) errors.
Proof.
  intros Hhist Hlines. revert st h0 h1 h2 h3 Hhist.
  induction Hlines as [| line readings lines samples Hparse _ IH];
    intros st h0 h1 h2 h3 Hhist.
  { cbn. rewrite Hhist. split_and!; [done | done |].
    exists []. by rewrite app_nil_r. }
  pose proof (RangingFacts.ranging_parse_outcome_length _ _ _ Hparse) as Hfour.
  destruct readings as [| r0 [| r1 [| r2 [| r3 [| r4 rest]]]]];
    try discriminate Hfour.
  cbn zeta. rewrite fmap_cons. cbn [run foldl handle compose].
  set (st1 := set_sensor_histories
                (λ _, [deque_append h0 r0; deque_append h1 r1;
                       deque_append h2 r2; deque_append h3 r3])
                (set_sensor_readings [r0; r1; r2; r3] st)).
  assert (exec (update_gui py_int (Line line)) st = redrawn st1) as ->.
  { unfold exec.
    by rewrite (update_gui_data_line line r0 r1 r2 r3 h0 h1 h2 h3 st Hhist
                  Hparse). }
  assert (sensor_histories (redrawn st1)
          = [deque_append h0 r0; deque_append h1 r1;
             deque_append h2 r2; deque_append h3 r3]
          ∧ sensor_readings (redrawn st1) = [r0; r1; r2; r3]
          ∧ ∃ errors,
              stdout (redrawn st1) = stdout st ++ errors
              ∧ Forall (λ m, m = UpdateError OverflowError) errors)
    as (Hhs1 & Hrs1 & errors1 & Hout1 & Herrors1).
  { unfold redrawn. destruct (drawable st1); split_and!; try done.
    - exists []. by rewrite app_nil_r.
    - exists [UpdateError OverflowError]. split; [done | by constructor]. }
  destruct (IH (redrawn st1) (deque_append h0 r0) (deque_append h1 r1)
              (deque_append h2 r2) (deque_append h3 r3) Hhs1)
    as (Hhs & Hlast & errors & Hout & Herrors).
  split_and!; [exact Hhs | |].
  - rewrite Hrs1 in Hlast. exact Hlast.
  - exists (errors1 ++ errors). split; [| by apply Forall_app].
    rewrite app_assoc, <- Hout1. exact Hout.
Qed.

(** Data lines whose values are within the range of a float print
    nothing. *)
Lemma run_data_lines_quiet (lines : list string) (samples : list (list Z))
    (h0 h1 h2 h3 : deque Z) st :
  sensor_histories st = [h0; h1; h2; h3] →
  MAX_DISTANCE st = 400%Z →
  Forall (λ h, maxlen h ≠ 0) [h0; h1; h2; h3] →
  Forall (λ h, Forall (λ v, (Z.abs v < 2 ^ 1024 - 2 ^ 970)%Z) (snapshot h))
    [h0; h1; h2; h3] →
  Forall2 (λ line readings, parse_outcome py_int line = Val (Some readings))
    lines samples →
  Forall (Forall (λ v, (Z.abs v < 2 ^ 1024 - 2 ^ 970)%Z)) samples →
  stdout (run py_int (Update ∘ Line <$> lines) st) = stdout st.
Proof.
  intros Hhist Hmax Hroom Hfit Hlines.
  revert st h0 h1 h2 h3 Hhist Hmax Hroom Hfit.
  induction Hlines as [| line readings lines samples Hparse _ IH];
    intros st h0 h1 h2 h3 Hhist Hmax Hroom Hfit Hsamples; [done |].
  pose proof (RangingFacts.ranging_parse_outcome_length _ _ _ Hparse) as Hfour.
  destruct readings as [| r0 [| r1 [| r2 [| r3 [| r4 rest]]]]];
    try discriminate Hfour.
  apply Forall_cons in Hsamples as [Hsample Hsamples].
  rewrite fmap_cons. cbn [run foldl handle compose].
  set (st1 := set_sensor_histories
                (λ _, [deque_append h0 r0; deque_append h1 r1;
                       deque_append h2 r2; deque_append h3 r3])
                (set_sensor_readings [r0; r1; r2; r3] st)).
  assert (exec (update_gui py_int (Line line)) st = redrawn st1) as ->.
  { unfold exec.
    by rewrite (update_gui_data_line line r0 r1 r2 r3 h0 h1 h2 h3 st Hhist
                  Hparse). }
  assert (Forall (λ h, Forall (λ v, (Z.abs v < 2 ^ 1024 - 2 ^ 970)%Z)
                         (snapshot h))
            [deque_append h0 r0; deque_append h1 r1;
             deque_append h2 r2; deque_append h3 r3]) as Hfit1.
  { apply Forall_cons in Hfit as [Hf0 Hfit].
    apply Forall_cons in Hfit as [Hf1 Hfit].
    apply Forall_cons in Hfit as [Hf2 Hfit].
    apply Forall_cons in Hfit as [Hf3 _].
    apply Forall_cons in Hsample as [Hr0 Hsample].
    apply Forall_cons in Hsample as [Hr1 Hsample].
    apply Forall_cons in Hsample as [Hr2 Hsample].
    apply Forall_cons in Hsample as [Hr3 _].
    repeat constructor; by apply deque_append_Forall. }
  assert (drawable st1 = true) as Hdraw.
  { by apply (stored_line_drawable r0 r1 r2 r3 h0 h1 h2 h3 st Hmax Hroom). }
  assert (redrawn st1
          = set_frames
              (λ fs, fs ++ [Frame (sensor_readings st1)
                              (snapshot <$> sensor_histories st1)]) st1)
    as Hst1.
  { unfold redrawn. by rewrite Hdraw. }
  transitivity (stdout (redrawn st1)); [| by rewrite Hst1].
  apply (IH (redrawn st1) (deque_append h0 r0) (deque_append h1 r1)
           (deque_append h2 r2) (deque_append h3 r3)).
  - by rewrite Hst1.
  - by rewrite Hst1.
  - apply Forall_cons in Hroom as [Hm0 Hroom].
    apply Forall_cons in Hroom as [Hm1 Hroom].
    apply Forall_cons in Hroom as [Hm2 Hroom].
    apply Forall_cons in Hroom as [Hm3 _].
    repeat constructor; by rewrite deque_append_maxlen.
  - exact Hfit1.
  - exact Hsamples.
Qed.

(** X11. After more than 100 data lines of four integers each, read by a
    fresh window, every history channel holds exactly the last 100 readings
    of its sensor, oldest first, and the current readings are those of the
    last line.  The console holds nothing but overflow errors of the redraw,
    and it is empty when every value read is within the range of a
    float. *)
Theorem histories_hold_last_readings (lines : list string)
    (samples : list (list Z)) :
  Forall2 (λ line readings,
             PyStr.startswith line "DATA:" = true
             ∧ length (data_parts line) = 4
             ∧ mapM py_int (data_parts line) = Some readings)
    lines samples →
  100 < length samples →
  let st := run py_int (Update ∘ Line <$> lines) init in
  snapshot <$> sensor_histories st =
    [lastn 100 (column 0 samples); lastn 100 (column 1 samples);
     lastn 100 (column 2 samples); lastn 100 (column 3 samples)]
  ∧ Forall (λ d, length (snapshot d) = 100) (sensor_histories st)
  ∧ last samples = Some (sensor_readings st)
  ∧ Forall (λ m, m = UpdateError OverflowError) (stdout st)
  ∧ (Forall (Forall (λ v, (Z.abs v < 2 ^ 1024 - 2 ^ 970)%Z)) samples →
       stdout st = []).
Proof.
  intros Hlines Hmany st.
  assert (Forall2 (λ line readings,
                     parse_outcome py_int line = Val (Some readings))
            lines samples) as Hparsed.
  { eapply Forall2_impl; [exact Hlines |].
    intros line readings (Hprefix & Hlen & Hmap).
    unfold parse_outcome. by rewrite Hprefix, Hlen, Hmap. }
  assert (∀ i, i < 4 → length (column i samples) = length samples) as Hcol.
  { intros i Hi. clear -Hparsed Hi.
    induction Hparsed as [| line readings lines samples Hparse _ IH];
      [done |].
    apply RangingFacts.ranging_parse_outcome_length in Hparse.
    unfold column in *. cbn.
    destruct (lookup_lt_is_Some_2 readings i) as [v Hv]; [lia |].
    rewrite Hv. cbn. by rewrite IH. }
  destruct (run_data_lines lines samples (deque_new 100) (deque_new 100)
              (deque_new 100) (deque_new 100) init eq_refl Hparsed)
    as (Hhs & Hlast & errors & Hout & Herrors).
  fold st in Hhs, Hlast, Hout.
  assert (∀ i, i < 4 →
            snapshot (foldl deque_append (deque_new 100) (column i samples))
            = lastn 100 (column i samples)) as Hsnap.
  { intros i Hi. unfold snapshot.
    rewrite foldl_deque_append by (cbn; lia). cbn [maxlen items deque_new].
    rewrite app_nil_l. done. }
  split_and!.
  - rewrite Hhs. cbn [fmap list_fmap]. by rewrite !Hsnap by lia.
  - rewrite Hhs.
    repeat constructor; rewrite Hsnap by lia;
      rewrite lastn_length, Hcol by lia; lia.
  - destruct samples as [| sample samples']; [cbn in Hmany; lia |].
    by rewrite <- Hlast.
  - by rewrite Hout.
  - intros Hfit. unfold st.
    rewrite (run_data_lines_quiet lines samples (deque_new 100)
               (deque_new 100) (deque_new 100) (deque_new 100) init);
      try done.
    + repeat constructor; cbn; lia.
    + repeat constructor.
Qed.

(** X12. Reset History returns the four history channels to their initial
    state, empty and with their bound of 100, and leaves the current
    readings, which the display keeps showing. *)
Theorem reset_history_restores_channels (evs : list event) :
  let st := run py_int evs init in
  let st' := exec reset_history st in
  sensor_histories st' = sensor_histories init
  ∧ sensor_readings st' = sensor_readings st
  ∧ stdout st' = stdout st.
Proof.
  intros st st'.
  destruct (run_well_formed evs init init_well_formed)
    as (Hchannels & Hbound & _).
  fold st in Hchannels, Hbound. unfold histories_bounded in Hbound.
  split_and!; [| done | done].
  unfold st', exec, reset_history, modify.
  cbn [snd set_sensor_histories sensor_histories].
  destruct (sensor_histories st) as [| h0 [| h1 [| h2 [| h3 [| h4 hs]]]]];
    try discriminate Hchannels.
  repeat match goal with
         | H : Forall _ (_ :: _) |- _ => apply Forall_cons in H as [[? _] H]
         end.
  destruct h0, h1, h2, h3. cbn in *. by subst.
Qed.

(** The export never touches the rows already saved by earlier passes. *)
Lemma handle_saved_rows (ev : event) :
  preserves (λ st, length (sensor_readings st) = 4
                   ∧ Forall (λ row, length row = 4) (saved st))
    (handle py_int ev).
Proof.
  intros st [Hreadings Hsaved]. split.
  - by apply (RangingFacts.handle_readings_length py_int ev).
  - destruct ev as [r | | ok]; cbn [handle].
    + assert (preserves (λ st, Forall (λ row, length row = 4) (saved st))
                (update_gui py_int r)) as Hkeep; [| by apply Hkeep].
      by apply update_gui_keeps.
    + done.
    + destruct ok; [| done]. cbn.
      apply Forall_app. split; [done | by constructor].
Qed.

(** X13. Every row that Save Data has written has exactly four values,
    one per column of its header after the timestamp: the row is the vector
    of current readings, which always has four entries. *)
Theorem saved_rows_have_four_values (evs : list event) :
  Forall (λ row, length row = 4) (saved (run py_int evs init)).
Proof.
  assert (length (sensor_readings init) = 4
          ∧ Forall (λ row, length row = 4) (saved init)) as Hinit
    by (split; [done | constructor]).
  revert Hinit. unfold run. generalize init.
  induction evs as [| ev evs IH]; intros st Hst; [apply Hst |].
  cbn [foldl]. apply IH. by apply handle_saved_rows.
Qed.

(** X14. A pass that fails before it stores changes nothing but the
    console: when a data line has four fields of which one is not an
    integer, or when the port raises, the error is shown, the current
    readings and the histories are what they were, and the pass draws no
    frame.  (A pass can also fail after it has stored its line, in the
    redraw: see X10.) *)
Theorem failed_reception_changes_nothing line (e : exn) st :
  PyStr.startswith line "DATA:" = true →
  length (data_parts line) = 4 →
  mapM py_int (data_parts line) = None →
  update_gui py_int (Line line) st
  = (Val tt, set_stdout (λ out, out ++ [UpdateError ValueError]) st)
  ∧ update_gui py_int (ReadFails e) st
    = (Val tt, set_stdout (λ out, out ++ [UpdateError e]) st)
  ∧ store (exec (update_gui py_int (Line line)) st) = store st
  ∧ frames (exec (update_gui py_int (Line line)) st) = frames st
  ∧ store (exec (update_gui py_int (ReadFails e)) st) = store st
  ∧ frames (exec (update_gui py_int (ReadFails e)) st) = frames st.
Proof.
  intros Hprefix Hlen Hmap.
  assert (update_gui py_int (Line line) st
          = (Val tt, set_stdout (λ out, out ++ [UpdateError ValueError]) st))
    as Hrun.
  { apply RangingFacts.update_gui_value_error.
    unfold parse_outcome. by rewrite Hprefix, Hlen, Hmap. }
  assert (update_gui py_int (ReadFails e) st
          = (Val tt, set_stdout (λ out, out ++ [UpdateError e]) st))
    as Hfail by (by rewrite RangingFacts.update_gui_run).
  unfold exec. rewrite Hrun, Hfail. by split_and!.
Qed.

End Facts.

Lemma data_line_is_stored_witness :
  let minus_googol := "-1" +:+ Nat.iter 309 (String "0"%char) "" in
  let st := run Numeral.int_of_string [ResetHistory] init in
  let st1 := exec (update_gui Numeral.int_of_string (Line "DATA:10,20,30,40"))
               st in
  let st2 := exec (update_gui Numeral.int_of_string
                     (Line ("DATA:" +:+ minus_googol +:+ ",20,30,40"))) st in
  (sensor_readings st1 = [10; 20; 30; 40]%Z
   ∧ stdout st1 = []
   ∧ frames st1 = [Frame [10; 20; 30; 40]%Z [[10]; [20]; [30]; [40]]%Z])
  ∧ (sensor_readings st2 = [- 10 ^ 309; 20; 30; 40]%Z
     ∧ stdout st2 = [UpdateError OverflowError]
     ∧ frames st2 = []).
Proof.
  intros minus_googol st st1 st2. split.
  - destruct (data_line_is_stored Numeral.int_of_string [ResetHistory]
                "DATA:10,20,30,40" [10; 20; 30; 40]%Z)
      as (_ & Hreadings & _ & _ & Hdrawn & _);
      [reflexivity | reflexivity | reflexivity |].
    destruct Hdrawn as [Hquiet Hframe]; [by vm_compute |].
    split_and!; [exact Hreadings | exact Hquiet | exact Hframe].
  - destruct (data_line_is_stored Numeral.int_of_string [ResetHistory]
                ("DATA:" +:+ minus_googol +:+ ",20,30,40")
                [- 10 ^ 309; 20; 30; 40]%Z)
      as (_ & Hreadings & _ & _ & _ & Hfailed);
      [by vm_compute | by vm_compute | by vm_compute |].
    destruct Hfailed as [Herror Hframe]; [by vm_compute |].
    split_and!; [exact Hreadings | exact Herror | exact Hframe].
Defined.

Lemma failed_reception_witness :
  store (exec (update_gui Numeral.int_of_string (Line "DATA:1,2,x,4")) init)
  = store init.
Proof.
  destruct (failed_reception_changes_nothing Numeral.int_of_string
              "DATA:1,2,x,4" SerialException init)
    as (_ & _ & Hstore & _); [reflexivity | reflexivity | reflexivity |].
  exact Hstore.
Defined.

Lemma histories_hold_last_readings_witness :
  let st := run Numeral.int_of_string
              (Update ∘ Line <$> replicate 101 "DATA:10,20,30,40") init in
  Forall (λ d, length (snapshot d) = 100) (sensor_histories st)
  ∧ stdout st = [].
Proof.
  intros st.
  destruct (histories_hold_last_readings Numeral.int_of_string
              (replicate 101 "DATA:10,20,30,40")
              (replicate 101 [10; 20; 30; 40]%Z))
    as (_ & Hfull & _ & _ & Hquiet).
  - apply Forall2_replicate. by split_and!.
  - rewrite length_replicate. lia.
  - split; [exact Hfull |]. apply Hquiet.
    apply Forall_replicate. repeat constructor; by vm_compute.
Defined.

End RangingExtra.

(** ** The packet analyzer: counters, window, export and charts *)

Module CaptureExtra.
Import Capture.

Implicit Types (st : analyzer) (p : packet) (now tag : string).

Lemma proto_tag_cases p :
  proto_tag p ∈ ["TCP"; "UDP"; "Other"].
Proof.
  unfold proto_tag. destruct (has (tcp p)), (has (udp p)); set_solver.
Qed.

Lemma count_tag_snoc tag (ps : list packet) p :
  count_tag tag (ps ++ [p])
  = count_tag tag ps + (if decide (proto_tag p = tag) then 1 else 0).
Proof.
  unfold count_tag. rewrite filter_app, length_app. f_equal.
  rewrite filter_cons. by case_decide.
Qed.

Lemma count_tag_total (ps : list packet) :
  count_tag "TCP" ps + count_tag "UDP" ps + count_tag "Other" ps = length ps.
Proof.
  induction ps as [| p ps IH] using rev_ind; [done |].
  rewrite !count_tag_snoc, length_app. cbn [length].
  pose proof (proto_tag_cases p) as Hcases. set_unfold in Hcases.
  destruct Hcases as [Htag | [Htag | [Htag | []]]]; rewrite Htag;
    repeat case_decide; try done; lia.
Qed.

Lemma consistent_counts_ok st : consistent st → counts_ok (protocol_counts st).
Proof.
  intros (Hcounts & _). repeat split; eexists; apply Hcounts; set_solver.
Qed.

(** The sniffer hands over one packet. *)
Lemma arrival_ip now p (layer : ip_layer) st :
  ip p = Some layer →
  consistent st →
  handle (Arrival now p) st
  = (Val tt, recorded now p layer (count_tag (proto_tag p) (packets st)) st).
Proof.
  intros Hip Hst. cbn [handle]. unfold capture_packets, try_except.
  cbn [for_each]. unfold mbind at 1, M_bind, bind.
  destruct (CaptureFacts.packet_callback_ip now p layer st Hip
              (consistent_counts_ok st Hst)) as (n & Hn & ->).
  destruct Hst as (Hcounts & _).
  rewrite (Hcounts _ (proto_tag_cases p)) in Hn. by injection Hn as <-.
Qed.

Lemma arrival_no_ip now p st :
  ip p = None → handle (Arrival now p) st = (Val tt, st).
Proof.
  intros Hip. cbn [handle]. unfold capture_packets, try_except.
  cbn [for_each]. unfold mbind at 1, M_bind, bind.
  by rewrite CaptureFacts.packet_callback_no_ip.
Qed.

Lemma recorded_consistent now p (layer : ip_layer) st :
  ip p = Some layer →
  consistent st →
  consistent (recorded now p layer (count_tag (proto_tag p) (packets st)) st).
Proof.
  intros Hip (Hcounts & Hmax & Hsizes & Hips).
  unfold consistent, recorded.
  cbn [protocol_counts packets packet_sizes]. split_and!.
  - intros tag Htag. rewrite count_tag_snoc.
    destruct (decide (proto_tag p = tag)) as [<- | Hne].
    + by rewrite lookup_insert_eq.
    + rewrite lookup_insert_ne by done. rewrite (Hcounts tag Htag).
      f_equal. lia.
  - by rewrite deque_append_maxlen.
  - unfold snapshot in *.
    destruct (deque_append_items (packet_sizes st) (len p)) as [-> | [Hz _]];
      [| lia].
    rewrite Hmax, Hsizes, fmap_app. apply append_trim_lastn.
  - apply Forall_app. split; [done |]. constructor; [| done].
    unfold has. by rewrite Hip.
Qed.

Lemma handle_consistent (ev : event) : preserves consistent (handle ev).
Proof.
  intros st Hst. unfold exec.
  destruct ev as [| | | now p].
  - cbn [handle]. unfold start_capture, mbind, M_bind, bind, gets.
    by destruct (capturing st).
  - done.
  - destruct Hst as (_ & Hmax & _).
    cbn. unfold consistent. cbn. split_and!; [| exact Hmax | done | done].
    intros tag Htag. unfold count_tag. cbn.
    unfold zero_counts. set_unfold.
    destruct Htag as [-> | [-> | [-> | []]]]; done.
  - destruct (ip p) as [layer |] eqn:Hip.
    + rewrite (arrival_ip now p layer st Hip Hst).
      by apply recorded_consistent.
    + by rewrite arrival_no_ip.
Qed.

Lemma init_consistent : consistent init.
Proof.
  unfold consistent. cbn. split_and!; try done.
  intros tag Htag. set_unfold.
  destruct Htag as [-> | [-> | [-> | []]]]; done.
Qed.

Lemma run_consistent (evs : list event) st :
  consistent st → consistent (run evs st).
Proof.
  revert st. induction evs as [| ev evs IH]; intros st Hst; [done |].
  cbn [run foldl]. apply IH. by apply handle_consistent.
Qed.

(** X15. Whatever the analyzer goes through (start, stop, clear, packets),
    its counters, its size window and its packet list agree: each of the
    three counters is the number of stored packets with that protocol tag, so
    the counters add up to the number of stored packets; the size window
    holds the sizes of the last 100 stored packets; and every stored packet
    has an IP layer.  (Each callback and each button handler is taken to run
    to its end before the next one starts.) *)
Theorem counters_and_window_follow_packets (evs : list event) :
  let st := run evs init in
  (∀ tag, tag ∈ ["TCP"; "UDP"; "Other"] →
          protocol_counts st !! tag = Some (count_tag tag (packets st)))
  ∧ count_tag "TCP" (packets st) + count_tag "UDP" (packets st)
    + count_tag "Other" (packets st) = length (packets st)
  ∧ snapshot (packet_sizes st) = lastn 100 (len <$> packets st)
  ∧ Forall (λ p, has (ip p) = true) (packets st).
Proof.
  intros st.
  destruct (run_consistent evs init init_consistent)
    as (Hcounts & _ & Hsizes & Hips).
  split_and!; [done | apply count_tag_total | done | done].
Qed.

(** X16. Stop Capture does not gate the callback: once the capture flag
    is lowered, a packet with an IP layer that the sniffer still hands over
    is recorded like any other, in the packet list, the size window, the
    counters and the rows. *)
Theorem stop_does_not_gate_recording (evs : list event) now p
    (layer : ip_layer) :
  ip p = Some layer →
  let st := run evs init in
  let stopped := exec stop_capture st in
  let st' := exec (handle (Arrival now p)) stopped in
  capturing stopped = false
  ∧ capturing st' = false
  ∧ result (handle (Arrival now p)) stopped = Val tt
  ∧ packets st' = packets st ++ [p]
  ∧ protocol_counts st' !! proto_tag p
    = Some (count_tag (proto_tag p) (packets st) + 1)
  ∧ last (packet_tree st')
    = Some (Row now (src layer) (dst layer) (proto_tag p) (len p)
              (get_packet_info p)).
Proof.
  intros Hip st stopped st'.
  assert (consistent stopped) as Hstopped.
  { apply (handle_consistent StopCapture).
    apply run_consistent, init_consistent. }
  unfold st', exec, result.
  rewrite (arrival_ip now p layer stopped Hip Hstopped).
  cbn [fst snd recorded packets protocol_counts packet_tree capturing].
  split_and!; try done.
  - by rewrite lookup_insert_eq.
  - apply last_snoc.
Qed.

(** X17. Clear empties the packet list, the size window, the rows and
    the panel and zeroes the three counters, and it leaves the capture as it
    is: the flag and the threads are unchanged, and the packets that arrive
    once it has returned are recorded as on a fresh analyzer. *)
Theorem clear_display_keeps_capture_running
    (evs : list event) (arrivals : list (string * packet)) :
  let st := run evs init in
  let cleared := exec clear_display st in
  let st' := exec (capture_packets arrivals) cleared in
  (packets cleared = []
   ∧ snapshot (packet_sizes cleared) = []
   ∧ protocol_counts cleared = zero_counts
   ∧ packet_tree cleared = []
   ∧ analysis_text cleared = [])
  ∧ (capturing cleared = capturing st
     ∧ capture_threads cleared = capture_threads st)
  ∧ (result (capture_packets arrivals) cleared = Val tt
     ∧ packets st' = ip_packets arrivals
     ∧ capturing st' = capturing st).
Proof.
  intros st cleared st'. split_and!; try done.
  - destruct (CaptureFacts.sniff_run arrivals cleared
                CaptureFacts.counts_ok_zero) as (st'' & Hrun & _).
    unfold result, capture_packets, try_except. by rewrite Hrun.
  - destruct (CaptureFacts.sniff_run arrivals cleared
                CaptureFacts.counts_ok_zero) as (st'' & Hrun & _ & Hps & _).
    unfold st', exec, capture_packets, try_except. by rewrite Hrun.
  - destruct (CaptureFacts.sniff_run arrivals cleared
                CaptureFacts.counts_ok_zero) as (st'' & Hrun & _ & _ & Hcap).
    unfold st', exec, capture_packets, try_except. by rewrite Hrun.
Qed.

(** X18. The record exported for a stored packet always names both
    endpoints: every packet of the packet list has an IP layer, so its
    ["source_ip"] and ["dest_ip"] are the addresses of that layer, never
    [None]. *)
Theorem stored_packet_exports_its_endpoints (evs : list event) now p :
  p ∈ packets (run evs init) →
  ∃ layer,
    ip p = Some layer
    ∧ packet_to_dict now p !! "source_ip" = Some (JStr (src layer))
    ∧ packet_to_dict now p !! "dest_ip" = Some (JStr (dst layer)).
Proof.
  intros Hp.
  destruct (run_consistent evs init init_consistent) as (_ & _ & _ & Hips).
  rewrite Forall_forall in Hips. specialize (Hips p Hp).
  destruct (ip p) as [layer |] eqn:Hip; [| done].
  exists layer. unfold packet_to_dict. rewrite Hip.
  by destruct (tcp p) as [t |], (udp p) as [u |].
Qed.

(** The keys of the exported record: the five common keys, with the
    two ports when the packet has a TCP or a UDP layer, and with the flag
    bits when it has a TCP layer.  When both layers are present the ports
    are those of the TCP layer.  A packet without IP layer exports [None]
    for both addresses. *)
Theorem packet_to_dict_keys now p :
  dom (packet_to_dict now p) =
    ({["time"; "source_ip"; "dest_ip"; "protocol"; "length"]}
     ∪ (if has (tcp p) || has (udp p)
        then {["source_port"; "dest_port"]} else ∅)
     ∪ (if has (tcp p) then {["tcp_flags"]} else ∅) : gset string)
  ∧ (∀ t, tcp p = Some t →
          packet_to_dict now p !! "source_port" = Some (JNum (tcp_sport t))
          ∧ packet_to_dict now p !! "dest_port" = Some (JNum (tcp_dport t)))
  ∧ (∀ u, tcp p = None → udp p = Some u →
          packet_to_dict now p !! "source_port" = Some (JNum (udp_sport u))
          ∧ packet_to_dict now p !! "dest_port" = Some (JNum (udp_dport u)))
  ∧ (ip p = None →
       packet_to_dict now p !! "source_ip" = Some JNull
       ∧ packet_to_dict now p !! "dest_ip" = Some JNull).
Proof.
  unfold packet_to_dict, dict_update. split_and!.
  - destruct (tcp p) as [t |], (udp p) as [u |]; cbn [has orb foldl fst snd];
      rewrite ?dom_insert_L, dom_empty_L; set_solver.
  - intros t ->. by split.
  - intros u -> ->. by split.
  - intros ->. by destruct (tcp p) as [t |], (udp p) as [u |].
Qed.

(** X19. Analysis on demand reports inline and never touches the
    capture: when one row is selected and its packet is stored, the service
    is called on the exported record of that packet and the panel shows its
    answer, or ["Error: Analysis error: "] with the text of the exception
    when the service raises, and no exception leaves the method; without a
    selection the panel asks for one; the packet list, the window, the
    counters, the rows and the capture flag are what they were.  Two
    selections make the method itself raise, before anything is changed:
    several selected rows ([TclError]) and a row past the end of the packet
    list ([IndexError]). *)
Theorem analyze_selected_reports_inline now
    (service : gmap string json → outcome string) (str : exn → string)
    (i : nat) p st :
  packets st !! i = Some p →
  let st' := exec (analyze_selected now service str [i]) st in
  result (analyze_selected now service str [i]) st = Val tt
  ∧ analysis_text st' =
      match service (packet_to_dict now p) with
      | Val analysis => [analysis]
      | Exc e => ["Error: Analysis error: " +:+ str e]
      end
  ∧ st' = set_analysis_text (λ _, analysis_text st') st
  ∧ analyze_selected now service str [] st
    = (Val tt,
       set_analysis_text (λ _, ["Error: Please select a packet to analyze"])
         st)
  ∧ (∀ j, length (packets st) ≤ j →
          analyze_selected now service str [j] st = (Exc IndexError, st))
  ∧ (∀ j k more,
       analyze_selected now service str (j :: k :: more) st
       = (Exc TclError, st)).
Proof.
  intros Hp st'. unfold st', exec, result, analyze_selected.
  unfold mbind, M_bind, bind, gets, index, try_except. rewrite Hp.
  cbn beta iota delta [ret].
  assert (∀ j, length (packets st) ≤ j → packets st !! j = None) as Hout
    by (intros j Hj; by apply lookup_ge_None_2).
  destruct (service (packet_to_dict now p)) as [analysis | e];
    (split_and!;
       [reflexivity | reflexivity | reflexivity | reflexivity | | done]);
    intros j Hj; by rewrite (Hout j Hj).
Qed.

(** The charts and the timer under the events of the window. *)
Lemma handle_window_charts (ev : window_event) :
  preserves (λ w, drawn w = [([], zero_counts)] ∧ timer w = false)
    (handle_window ev).
Proof.
  intros w [Hdrawn Htimer]. unfold exec. destruct ev as [ev |].
  - cbn [handle_window]. unfold on_model.
    by destruct (handle ev (model w)) as [o st].
  - cbn [handle_window]. unfold mbind, M_bind, bind, gets.
    by rewrite Htimer.
Qed.

(** X20. The two charts are drawn once, empty, when the window is built,
    and never again: [update_visualization] only re-arms its timer while a
    capture is running, its one direct call comes before any capture can be
    started, and Start Capture does not call it.  Whatever happens to the
    window afterwards, no redraw is pending and none has taken place. *)
Theorem charts_are_drawn_once (evs : list window_event) :
  let w := run_window evs init_window in
  drawn w = [([], zero_counts)] ∧ timer w = false.
Proof.
  intros w. unfold w, run_window.
  assert (drawn init_window = [([], zero_counts)]
          ∧ timer init_window = false) as Hinit by done.
  revert Hinit. generalize init_window.
  induction evs as [| ev evs IH]; intros w0 Hw0; [done |].
  cbn [foldl]. apply IH. by apply handle_window_charts.
Qed.

Lemma stop_does_not_gate_witness :
  let p := Packet (Some (IP "10.0.0.1" "10.0.0.2")) None None 60 in
  packets (exec (handle (Arrival "12:00:00" p))
             (exec stop_capture (run [StartCapture] init)))
  = [p].
Proof.
  intros p.
  destruct (stop_does_not_gate_recording [StartCapture] "12:00:00" p
              (IP "10.0.0.1" "10.0.0.2"))
    as (_ & _ & _ & Hpackets & _); [reflexivity |].
  exact Hpackets.
Defined.

Lemma stored_packet_witness :
  let p := Packet (Some (IP "10.0.0.1" "10.0.0.2")) None None 60 in
  ∃ layer,
    ip p = Some layer
    ∧ packet_to_dict "12:00:05" p !! "source_ip" = Some (JStr (src layer))
    ∧ packet_to_dict "12:00:05" p !! "dest_ip" = Some (JStr (dst layer)).
Proof.
  intros p.
  apply (stored_packet_exports_its_endpoints
           [StartCapture; Arrival "12:00:00" p] "12:00:05" p).
  vm_compute. apply list_elem_of_here.
Defined.

Lemma analyze_selected_witness :
  let p := Packet (Some (IP "10.0.0.1" "10.0.0.2")) None None 60 in
  analysis_text
    (exec (analyze_selected "12:00:05" (λ _, Exc OSError)
             (λ _, "Connection error.") [0])
       (run [StartCapture; Arrival "12:00:00" p] init))
  = ["Error: Analysis error: Connection error."].
Proof.
  intros p.
  destruct (analyze_selected_reports_inline "12:00:05" (λ _, Exc OSError)
              (λ _, "Connection error.") 0 p
              (run [StartCapture; Arrival "12:00:00" p] init))
    as (_ & Htext & _); [reflexivity |].
  exact Htext.
Defined.

End CaptureExtra.
